(** * Excel-to-PDF conversion engine: a verification development

    The development embeds the conversion code of the repository:

    - [Geometry]   : the shrink-to-fit arithmetic of
                     [scripts/export_to_pdf_f4.py] and the flexible-height
                     placement of [screen-render-preview/excel_screen_render.py];
    - [UsedRange]  : [get_used_range_with_shapes] of
                     [scripts/export_to_pdf_f4.py];
    - [Engine]     : [ExcelMirrorEngine] of [python-engine/engine.py], the
                     page setup of [windows-com-strict/excel_to_pdf_strict.py]
                     and the converter call of
                     [screen-render-preview/excel_screen_render_linux.py],
                     over an explicit world (file system, clock, trace of
                     external calls) and an error monad;
    - [Scenarios]  : concrete hosts and documents on which the code is run;
    - [Gate]       : the interleavings of several [convert_to_pdf] calls that
                     share the engine's [threading.Semaphore(1)];
    - [Judgements] : the predicates on computations and traces in which the
                     properties are stated;
    - [Layout]     : the printable area of the fixed page and what it means
                     for a drawn image to respect it;
    - [Scripts]    : [export_with_libreoffice], [merge_pdfs] and
                     [export_excel_to_pdf_f4] of
                     [scripts/export_to_pdf_f4.py];
    - [Housekeeping] : [cleanup] and [kill_orphan_excel_processes] of
                     [ExcelMirrorEngine];
    - [Server]     : [ExcelMirrorRequestHandler] of [python-engine/engine.py];
    - [Observations], [Hosts] : further predicates on runs and further
                     concrete hosts.

    The properties follow in [GeometryProofs], [UsedRangeProofs],
    [EngineProofs] and [GateProofs], and then in [LayoutProofs],
    [RegionProofs], [WorkspaceProofs], [AutomationProofs],
    [ScreenRenderProofs], [ScriptsProofs], [HousekeepingProofs] and
    [ServerProofs].

    Python floats are read as exact rationals ([Q]); a division by zero is the
    [ZeroDivisionError] of the source and is modelled by [None]. *)

From Stdlib Require Import ZArith QArith Qminmax Lia List Bool.
From Stdlib Require Import Strings.String Strings.Ascii.
From stdpp Require Import gmap strings list fin_maps pretty.

#[local] Open Scope Z_scope.

(* ===================================================================== *)
(** * Geometry *)
(* ===================================================================== *)

Module Geometry.

#[local] Open Scope Q_scope.

(** Python's [a / b] on numbers: [ZeroDivisionError] when [b] is zero. *)
Definition py_div (a b : Q) : option Q :=
  if Qeq_bool b 0 then None else Some (a / b).

(** Python's two-argument [min(a, b)]: [b] only when [b < a]. *)
Definition py_min (a b : Q) : Q :=
  if Qlt_le_dec b a then b else a.

(** Python's [x > y]. *)
Definition py_gt (x y : Q) : bool :=
  if Qlt_le_dec y x then true else false.

(** ** scripts/export_to_pdf_f4.py: constants *)

Definition F4_WIDTH_CM : Q := 33.
Definition F4_HEIGHT_CM : Q := 43 # 2.            (* 21.5 *)
Definition MARGIN_CM : Q := 1.
Definition PTS_PER_CM : Q := 283464567 # 10000000. (* 28.3464567 *)

Definition F4_WIDTH_PTS : Q := F4_WIDTH_CM * PTS_PER_CM.
Definition F4_HEIGHT_PTS : Q := F4_HEIGHT_CM * PTS_PER_CM.

(** The picture pasted on the temporary sheet: its [Width] and [Height]
    properties, in points. *)
Record Picture := mkPicture { Width : Q; Height : Q }.

(** ** [scale_image_to_fit]: the ratio handed to [ScaleWidth]/[ScaleHeight] *)
Definition scale_image_to_fit_ratio (pic : Picture) : option Q :=
  let margin_pts := MARGIN_CM * PTS_PER_CM in
  let max_width := F4_WIDTH_PTS - 2 * margin_pts in
  let max_height := F4_HEIGHT_PTS - 2 * margin_pts in
  match py_div max_width (Width pic) with
  | None => None
  | Some width_ratio =>
    match py_div max_height (Height pic) with
    | None => None
    | Some height_ratio =>
      let scale_ratio := py_min width_ratio height_ratio in
      let scale_ratio := if py_gt scale_ratio 1 then 1 else scale_ratio in
      Some scale_ratio
    end
  end.


(** ** [create_f4_pdf_from_images] (ReportLab path of the same script) *)

(** reportlab.lib.units: [inch = 72.0], [cm = inch / 2.54], [mm = cm * 0.1]. *)
Definition rl_inch : Q := 72.
Definition rl_cm : Q := rl_inch / (254 # 100).
Definition rl_mm : Q := rl_cm * (1 # 10).

(** One [drawImage(x, y, final_width, final_height)] on a page of the given
    size. *)
Record Placement := mkPlacement {
  page_w : Q; page_h : Q;
  draw_x : Q; draw_y : Q;
  draw_w : Q; draw_h : Q
}.

Definition f4_image_scale (img_width img_height : Z) : option Q :=
  let f4_width := F4_WIDTH_CM * rl_cm in
  let f4_height := F4_HEIGHT_CM * rl_cm in
  let margin := MARGIN_CM * rl_cm in
  let available_width := f4_width - 2 * margin in
  let available_height := f4_height - 2 * margin in
  match py_div available_width (inject_Z img_width) with
  | None => None
  | Some width_ratio =>
    match py_div available_height (inject_Z img_height) with
    | None => None
    | Some height_ratio =>
      let scale_ratio := py_min width_ratio height_ratio in
      Some (if py_gt scale_ratio 1 then 1 else scale_ratio)
    end
  end.

Definition f4_place_image (img : Z * Z) : option Placement :=
  let '(img_width, img_height) := img in
  let f4_width := F4_WIDTH_CM * rl_cm in
  let f4_height := F4_HEIGHT_CM * rl_cm in
  match f4_image_scale img_width img_height with
  | None => None
  | Some scale_ratio =>
    let final_width := inject_Z img_width * scale_ratio in
    let final_height := inject_Z img_height * scale_ratio in
    let x := (f4_width - final_width) / 2 in
    let y := (f4_height - final_height) / 2 in
    Some (mkPlacement f4_width f4_height x y final_width final_height)
  end.

(** The loop over the images: the first failing image aborts the call. *)
Fixpoint create_f4_pdf_from_images (images : list (Z * Z)) : option (list Placement) :=
  match images with
  | nil => Some nil
  | img :: rest =>
    match f4_place_image img with
    | None => None
    | Some p =>
      match create_f4_pdf_from_images rest with
      | None => None
      | Some ps => Some (p :: ps)
      end
    end
  end.

(** ** [create_pdf_from_images] of excel_screen_render.py (capture path)

    The branch taken when PIL and ReportLab are installed; without them the
    function hands the images to [img2pdf], whose layout is not modelled. *)

(** reportlab.lib.pagesizes: [A4 = (210*mm, 297*mm)];
    [landscape] puts the larger side first. *)
Definition A4 : Q * Q := (210 * rl_mm, 297 * rl_mm).

Definition landscape (pagesize : Q * Q) : Q * Q :=
  let '(a, b) := pagesize in
  if Qlt_le_dec a b then (b, a) else (a, b).

Definition screen_image_scale (img_width : Z) : option Q :=
  let page_width := fst (landscape A4) in
  py_div page_width (inject_Z img_width).

Definition screen_place_image (img : Z * Z) : option Placement :=
  let '(img_width, img_height) := img in
  let page_width := fst (landscape A4) in
  match screen_image_scale img_width with
  | None => None
  | Some scale =>
    let scaled_width := page_width in
    let scaled_height := inject_Z img_height * scale in
    Some (mkPlacement page_width scaled_height 0 0 scaled_width scaled_height)
  end.

Fixpoint create_pdf_from_images (images : list (Z * Z)) : option (list Placement) :=
  match images with
  | nil => Some nil
  | img :: rest =>
    match screen_place_image img with
    | None => None
    | Some p =>
      match create_pdf_from_images rest with
      | None => None
      | Some ps => Some (p :: ps)
      end
    end
  end.

(** ** The calculation as the design states it *)

(** [min(availableWidth / sourceWidth, availableHeight / sourceHeight)],
    clamped to at most 1, with the available size the page size minus twice
    the margin. *)
Definition fit_scale (page_width page_height margin src_w src_h : Q) : Q :=
  Qmin 1 (Qmin ((page_width - 2 * margin) / src_w)
               ((page_height - 2 * margin) / src_h)).

End Geometry.

(* ===================================================================== *)
(** * UsedRange: the bounding region of a worksheet *)
(* ===================================================================== *)

Module UsedRange.

(** A cell, by its 1-based [Row] and [Column]. *)
Record Cell := mkCell { Row : Z; Column : Z }.

(** [ws.UsedRange]: first row and column, [Rows.Count], [Columns.Count]. *)
Record Range := mkRange {
  RangeRow : Z; RangeColumn : Z; RowsCount : Z; ColumnsCount : Z
}.

(** A floating shape, by its anchor cells. *)
Record Shape := mkShape { TopLeftCell : Cell; BottomRightCell : Cell }.

(** The worksheet as [get_used_range_with_shapes] reads it.  [UsedRange] is
    [None] when the object the property returns is falsy. *)
Record Worksheet := mkWorksheet {
  Visible : bool;
  UsedRange : option Range;
  Shapes : list Shape
}.

(** The four running bounds [(min_row, min_col, max_row, max_col)]. *)
Definition Bounds : Type := Z * Z * Z * Z.

Definition initial_bounds : Bounds := (1000000, 1000000, 1, 1).

Definition expand_used (b : Bounds) (used : Range) : Bounds :=
  let '(min_row, min_col, max_row, max_col) := b in
  (Z.min min_row (RangeRow used),
   Z.min min_col (RangeColumn used),
   Z.max max_row (RangeRow used + RowsCount used - 1),
   Z.max max_col (RangeColumn used + ColumnsCount used - 1)).

Definition expand_shape (b : Bounds) (shape : Shape) : Bounds :=
  let '(min_row, min_col, max_row, max_col) := b in
  (Z.min min_row (Row (TopLeftCell shape)),
   Z.min min_col (Column (TopLeftCell shape)),
   Z.max max_row (Row (BottomRightCell shape)),
   Z.max max_col (Column (BottomRightCell shape))).

(** The bounds after the [if used:] block and the loop over [ws.Shapes]. *)
Definition used_bounds (ws : Worksheet) : Bounds :=
  let b := match UsedRange ws with
           | Some used => expand_used initial_bounds used
           | None => initial_bounds
           end in
  fold_left expand_shape (Shapes ws) b.

(** [get_used_range_with_shapes]: the range
    [ws.Range(ws.Cells(min_row, min_col), ws.Cells(max_row, max_col))], by its
    two corner cells, or [None]. *)
Definition get_used_range_with_shapes (ws : Worksheet) : option (Cell * Cell) :=
  let '(min_row, min_col, max_row, max_col) := used_bounds ws in
  if (max_row >=? min_row) && (max_col >=? min_col)
  then Some (mkCell min_row min_col, mkCell max_row max_col)
  else None.

(** The sheets that the loop of [export_with_excel_com] captures and fits:
    the visible ones whose region exists; the others are passed over. *)
Definition fitted_regions (sheets : list Worksheet) : list (Cell * Cell) :=
  flat_map (fun ws =>
    if Visible ws then
      match get_used_range_with_shapes ws with
      | Some r => r :: nil
      | None => nil
      end
    else nil) sheets.

(** ** The region as the design states it *)

(** The cells the region has to contain: the two corners of the cell-used
    range and both anchor cells of every shape. *)
Definition content_cells (ws : Worksheet) : list Cell :=
  match UsedRange ws with
  | Some used =>
      mkCell (RangeRow used) (RangeColumn used)
      :: mkCell (RangeRow used + RowsCount used - 1)
                (RangeColumn used + ColumnsCount used - 1) :: nil
  | None => nil
  end
  ++ flat_map (fun s => TopLeftCell s :: BottomRightCell s :: nil) (Shapes ws).

Definition inside (r : Cell * Cell) (c : Cell) : Prop :=
  Row (fst r) <= Row c <= Row (snd r)
  /\ Column (fst r) <= Column c <= Column (snd r).

Definition covers (r : Cell * Cell) (ws : Worksheet) : Prop :=
  forall c, In c (content_cells ws) -> inside r c.

(** [r] is the least rectangle that contains the content of [ws]. *)
Definition minimal_region (r : Cell * Cell) (ws : Worksheet) : Prop :=
  covers r ws
  /\ forall r', covers r' ws -> inside r' (fst r) /\ inside r' (snd r).

(** Excel's grid: rows 1..1048576, columns 1..16384. *)
Definition MAX_ROWS : Z := 1048576.
Definition MAX_COLUMNS : Z := 16384.

Definition cell_on_grid (c : Cell) : Prop :=
  1 <= Row c <= MAX_ROWS /\ 1 <= Column c <= MAX_COLUMNS.

Definition well_formed (ws : Worksheet) : Prop :=
  (forall c, In c (content_cells ws) -> cell_on_grid c)
  /\ (forall used, UsedRange ws = Some used ->
        1 <= RowsCount used /\ 1 <= ColumnsCount used)
  /\ (forall s, In s (Shapes ws) ->
        Row (TopLeftCell s) <= Row (BottomRightCell s)
        /\ Column (TopLeftCell s) <= Column (BottomRightCell s)).

(** A sheet whose only used cell lies below row 1000000. *)
Definition deep_sheet : Worksheet :=
  mkWorksheet true (Some (mkRange 1000500 1 1 1)) nil.

End UsedRange.

(* ===================================================================== *)
(** * Engine: the world, the error monad and the external calls *)
(* ===================================================================== *)

Module Engine.

Abbreviation bytes := (list Byte.byte).

(** ** Python values and exceptions *)

Inductive pyval :=
  | VNone
  | VBool (b : bool)
  | VInt (z : Z)
  | VFloat (q : Q)
  | VStr (s : string).

(** The exception classes the code meets; all derive from [Exception], so
    both [except Exception] and a bare [except:] catch every one of them. *)
Inductive exn_class :=
  | OSError | FileNotFoundError | TimeoutExpired | com_error | OtherException.

(** An exception, with the text that [str(e)] gives. *)
Record exn := mkExn { exn_cls : exn_class; exn_str : string }.

(** ** External calls *)

Inductive FileOp :=
  | OpenWrite (path : string) (data : bytes)
  | OpenRead (path : string)
  | PathExists (path : string)
  | Remove (path : string)
  | Move (src dst : string)
  | Copy (src dst : string)
  | MkDtemp (prefix : string)
  | RmTree (path : string).

Inductive PageSetupProp :=
  | Zoom | FitToPagesWide | FitToPagesTall | Orientation | PaperSize
  | CenterHorizontally | CenterVertically | PrintArea
  | LeftMargin | RightMargin | TopMargin | BottomMargin
  | PageWidth | PageHeight.

(** Calls on the Excel automation objects; sheets and shapes are named by
    their 1-based index. *)
Inductive ComCall :=
  | CoInitialize
  | CoUninitialize
  | Dispatch (prog_id : string)
  | AppSet (prop : string) (v : pyval)
  | AppCentimetersToPoints (x : Z)
  | AppQuit
  | WorkbooksOpen (path : string)
  | WorkbookName
  | WorkbookWorksheets                 (* enumerating workbook.Worksheets *)
  | SheetsCount                        (* workbook.Sheets.Count *)
  | SheetItem (sheet : nat)            (* workbook.Sheets(i) *)
  | SheetName (sheet : nat)
  | SheetActivate (sheet : nat)
  | SheetUsedRange (sheet : nat)
  | UsedRangeSelect (sheet : nat)
  | UsedRangeAddress (sheet : nat)
  | ShapesCount (sheet : nat)
  | SheetShapes (sheet : nat)          (* enumerating ws.Shapes *)
  | ShapeSetPlacement (sheet shape : nat) (v : Z)
  | SheetPageSetup (sheet : nat)       (* sheet.PageSetup *)
  | PageSetupSet (sheet : nat) (prop : PageSetupProp) (v : pyval)
  | ExportAsFixedFormat (path : string)
  | WorkbookClose.

Inductive RunOutcome := Completed | TimedOut | NotFound | NeverReturned.

(** What the calls leave in the trace. *)
Inductive Event :=
  | EPrint (msg : string)
  | EAcquire
  | ERelease
  | ETime (t : Q)
  | EJobId (id : string)
  | EFile (op : FileOp) (ok : bool)
  | ECom (c : ComCall) (ok : bool)
  | ERun (cmd : list string) (timeout : option Z) (outcome : RunOutcome)
  | EGcCollect.

(** The state the code runs in: the files of the host, the permits left in
    the engine's semaphore ([threading.Semaphore(1)] starts with one), and
    the external calls made so far (newest first). *)
Record World := mkWorld {
  fs : gmap string bytes;
  permits : nat;
  trace : list Event
}.

Inductive ComAnswer := ComOk (v : pyval) | ComRaise (e : exn).

(** How a started process behaves: it cannot be started, or it runs for
    [duration] seconds ([None]: it never exits) and leaves [writes]. *)
Inductive ProcBehaviour :=
  | ProcMissing
  | ProcRuns (duration : option Q) (writes : list (string * bytes)).

(** The environment: everything the code does not decide itself.  Each answer
    may depend on the whole world at the time of the call. *)
Record Env := mkEnv {
  HAS_WIN32COM : bool;
  env_cwd : string;
  env_clock : World -> Q;
  env_job_id : World -> string;
  env_mkdtemp : string -> World -> string;
  env_io_fault : FileOp -> World -> option exn;
  env_com : ComCall -> World -> ComAnswer;
  env_export : string -> World -> option bytes;
  env_proc : list string -> World -> ProcBehaviour
}.

(** ** The monad: state, exceptions and calls that never return *)

Inductive res (A : Type) :=
  | Ret (a : A)
  | Raise (e : exn)
  | Hang.
Arguments Ret {A} a.
Arguments Raise {A} e.
Arguments Hang {A}.

Definition M (A : Type) : Type := World -> res A * World.

Definition ret {A} (a : A) : M A := fun w => (Ret a, w).

Definition bind {A B} (m : M A) (k : A -> M B) : M B := fun w =>
  match m w with
  | (Ret a, w') => k a w'
  | (Raise e, w') => (Raise e, w')
  | (Hang, w') => (Hang, w')
  end.

Definition raise {A} (e : exn) : M A := fun w => (Raise e, w).

(** [try: m  except Exception as e: h e]. *)
Definition try_except {A} (m : M A) (h : exn -> M A) : M A := fun w =>
  match m w with
  | (Raise e, w') => h e w'
  | r => r
  end.

(** [try: m  finally: fin].  The exception of [fin], if any, replaces the
    outcome of [m]. *)
Definition try_finally {A} (m : M A) (fin : M unit) : M A := fun w =>
  match m w with
  | (Hang, w') => (Hang, w')
  | (r, w') =>
    match fin w' with
    | (Ret _, w'') => (r, w'')
    | (Raise e, w'') => (Raise e, w'')
    | (Hang, w'') => (Hang, w'')
    end
  end.

Declare Scope eng_scope.
Delimit Scope eng_scope with eng.
Notation "x <- m ;; k" := (bind m (fun x => k))
  (at level 20, m at level 99, k at level 200) : eng_scope.
Notation "m ;; k" := (bind m (fun _ => k))
  (at level 100, k at level 200, right associativity) : eng_scope.
#[local] Open Scope eng_scope.

(** [try: m  except: pass]. *)
Definition try_pass (m : M unit) : M unit := try_except m (fun _ => ret tt).

(** Runs [m] and hands back its exception as a value; used where the handler
    depends on how far the [try] block got. *)
Definition catch {A} (m : M A) : M (exn + A) :=
  try_except (a <- m ;; ret (inr a)) (fun e => ret (inl e)).

Fixpoint for_each {A} (xs : list A) (body : A -> M unit) : M unit :=
  match xs with
  | nil => ret tt
  | x :: rest => body x ;; for_each rest body
  end.

Definition log (e : Event) (w : World) : World :=
  mkWorld (fs w) (permits w) (e :: trace w).

Definition set_fs (f : gmap string bytes) (w : World) : World :=
  mkWorld f (permits w) (trace w).

Definition emit (e : Event) : M unit := fun w => (Ret tt, log e w).

Definition print (msg : string) : M unit := emit (EPrint msg).

(** ** Strings *)

Definition is_lower (c : ascii) : bool :=
  let n := nat_of_ascii c in (97 <=? n)%nat && (n <=? 122)%nat.
Definition is_upper (c : ascii) : bool :=
  let n := nat_of_ascii c in (65 <=? n)%nat && (n <=? 90)%nat.
Definition is_digit (c : ascii) : bool :=
  let n := nat_of_ascii c in (48 <=? n)%nat && (n <=? 57)%nat.

Definition ascii_upper (c : ascii) : ascii :=
  if is_lower c then ascii_of_nat (nat_of_ascii c - 32) else c.
Definition ascii_lower (c : ascii) : ascii :=
  if is_upper c then ascii_of_nat (nat_of_ascii c + 32) else c.

Fixpoint string_map (f : ascii -> ascii) (s : string) : string :=
  match s with
  | EmptyString => EmptyString
  | String c s' => String (f c) (string_map f s')
  end.

(** [str.upper()], [str.lower()] and [str.isalnum()] on ASCII text; the bytes
    of other characters are left as they are. *)
Definition upper (s : string) : string := string_map ascii_upper s.
Definition lower (s : string) : string := string_map ascii_lower s.
Definition isalnum (c : ascii) : bool := is_lower c || is_upper c || is_digit c.

Definition ascii_in (c : ascii) (s : string) : bool :=
  existsb (Ascii.eqb c) (list_ascii_of_string s).

(** [p.rfind(c)], with [-1] when [c] does not occur. *)
Fixpoint rfind_from (c : ascii) (s : string) (i : Z) (acc : Z) : Z :=
  match s with
  | EmptyString => acc
  | String a s' => rfind_from c s' (i + 1) (if Ascii.eqb a c then i else acc)
  end.
Definition rfind (c : ascii) (s : string) : Z := rfind_from c s 0 (-1).

(** The slice [s[i:j]] for [0 <= i <= j]. *)
Definition slice (s : string) (i j : Z) : string :=
  String.substring (Z.to_nat i) (Z.to_nat (j - i)) s.
Definition strlen (s : string) : Z := Z.of_nat (String.length s).

Fixpoint rstrip_slash (s : string) : string :=
  match s with
  | EmptyString => EmptyString
  | String a s' =>
    match rstrip_slash s' with
    | EmptyString => if Ascii.eqb a "/" then EmptyString else String a EmptyString
    | r => String a r
    end
  end.

(** posixpath: [join] of two parts, [dirname], [basename], [splitext],
    [abspath] (without the normalisation of [.] and [..]). *)
Definition os_path_join (a b : string) : string :=
  if String.prefix "/" b then b
  else if (String.eqb a "") || ascii_in "/" (slice a (strlen a - 1) (strlen a))
       then a +:+ b
       else a +:+ "/" +:+ b.

Definition os_path_dirname (p : string) : string :=
  let i := rfind "/" p + 1 in
  let head := slice p 0 i in
  match rstrip_slash head with
  | EmptyString => head
  | stripped => stripped
  end.

Definition os_path_basename (p : string) : string :=
  let i := rfind "/" p + 1 in
  slice p i (strlen p).

Definition os_path_splitext (p : string) : string * string :=
  let sepIndex := rfind "/" p in
  let dotIndex := rfind "." p in
  if dotIndex >? sepIndex then
    let lead := slice p (sepIndex + 1) dotIndex in
    if forallb (Ascii.eqb ".") (list_ascii_of_string lead)
    then (p, EmptyString)
    else (slice p 0 dotIndex, slice p dotIndex (strlen p))
  else (p, EmptyString).

(** [repr] of a list of plain strings, as it appears in [str(e)]. *)
Definition py_repr_list (l : list string) : string :=
  "[" +:+ String.concat ", " (map (fun s => "'" +:+ s +:+ "'") l) +:+ "]".

Definition str_of_Z (z : Z) : string := pretty z.

(** [int(x)]: truncation towards zero. *)
Definition py_int (q : Q) : Z := Z.quot (Qnum q) (Zpos (Qden q)).

(** [bytes.count(sub)]: occurrences of a non-empty [sub], not overlapping. *)
Fixpoint is_prefix (sub s : bytes) : bool :=
  match sub, s with
  | nil, _ => true
  | _ :: _, nil => false
  | a :: sub', b :: s' => Byte.eqb a b && is_prefix sub' s'
  end.

Fixpoint count_from (sub s : bytes) (skip : nat) : Z :=
  match s with
  | nil => 0
  | _ :: s' =>
    match skip with
    | S k => count_from sub s' k
    | O => if is_prefix sub s
           then 1 + count_from sub s' (List.length sub - 1)
           else count_from sub s' 0
    end
  end.

Definition bytes_count (s sub : bytes) : Z := count_from sub s 0.

Definition bytes_literal (s : string) : bytes := list_byte_of_string s.

(** The text [base64.b64encode(data).decode('utf-8')] yields, kept as the
    data it encodes. *)
Inductive base64_text := b64encode (data : bytes).

(** ** engine.py: constants and data *)

Definition XL_LANDSCAPE : Z := 2.
Definition XL_PORTRAIT : Z := 1.
Definition XL_PAPER_FOLIO : Z := 14.
Definition XL_PAPER_A3 : Z := 8.
Definition XL_PAPER_A4 : Z := 9.
Definition XL_PAPER_LETTER : Z := 1.
Definition XL_TYPE_PDF : Z := 0.
Definition XL_QUALITY_STANDARD : Z := 0.

Record ConversionOptions := mkOptions {
  paper_size : string;
  orientation : string;
  fit_to_page : bool;
  dpi : Z;
  center_horizontally : bool;
  margin_cm : Q
}.

(** [ConversionOptions()] with every argument left to its default. *)
Definition default_options : ConversionOptions :=
  mkOptions "F4" "Landscape" true 300 true 1.

(** [options or ConversionOptions()]. *)
Definition options_or_default (options : option ConversionOptions)
  : ConversionOptions :=
  match options with Some o => o | None => default_options end.

(** The engine object: [self.temp_dir]; [self.semaphore] is the [permits]
    field of the world. *)
Record ExcelMirrorEngine := mkEngine { temp_dir : string }.

(** The dictionary [convert_to_pdf] returns, by its two shapes. *)
Inductive ConversionResult :=
  | Success (pdfBase64 : base64_text) (pdfSize : Z) (pageCount : Z)
            (pageSize : string) (processingTimeMs : Z)
  | Failure (error : string) (processingTimeMs : Z).

(** The literal [paper_size_map] of [_configure_page_setup]. *)
Definition paper_size_map : gmap string Z :=
  <["F4" := XL_PAPER_FOLIO]> (<["A3" := XL_PAPER_A3]>
  (<["A4" := XL_PAPER_A4]> (<["LETTER" := XL_PAPER_LETTER]> ∅))).

(** [d.get(key, dflt)]. *)
Definition dict_get (d : gmap string Z) (key : string) (dflt : Z) : Z :=
  default dflt (d !! key).

(** The value assigned to [page_setup.PaperSize]. *)
Definition resolve_paper_size (options : ConversionOptions) : Z :=
  dict_get paper_size_map (upper (paper_size options)) XL_PAPER_FOLIO.

Definition as_nat (v : pyval) : nat :=
  match v with VInt z => Z.to_nat z | _ => O end.

Definition elapsed_ms (start_time now : Q) : Z :=
  py_int ((now - start_time) * 1000)%Q.

Section WithEnv.

Variable env : Env.

(** ** The external calls, answered by the environment *)

Definition time_time : M Q := fun w =>
  let t := env_clock env w in (Ret t, log (ETime t) w).

(** [datetime.now().strftime(...) + os.urandom(4).hex()]. *)
Definition new_job_id : M string := fun w =>
  let id := env_job_id env w in (Ret id, log (EJobId id) w).

(** [Semaphore.acquire()]: with no permit left the caller blocks; in a run of
    one thread nobody can release, so the call never returns. *)
Definition acquire : M unit := fun w =>
  match permits w with
  | O => (Hang, w)
  | S n => (Ret tt, log EAcquire (mkWorld (fs w) n (trace w)))
  end.

Definition release : M unit := fun w =>
  (Ret tt, log ERelease (mkWorld (fs w) (S (permits w)) (trace w))).

(** [with self.semaphore: m]. *)
Definition with_semaphore {A} (m : M A) : M A :=
  acquire ;; try_finally m release.

Definition open_write (path : string) (data : bytes) : M unit := fun w =>
  let op := OpenWrite path data in
  match env_io_fault env op w with
  | Some e => (Raise e, log (EFile op false) w)
  | None => (Ret tt, log (EFile op true) (set_fs (<[path := data]> (fs w)) w))
  end.

Definition no_such_file (path : string) : exn :=
  mkExn FileNotFoundError
        ("[Errno 2] No such file or directory: '" +:+ path +:+ "'").

Definition open_read (path : string) : M bytes := fun w =>
  let op := OpenRead path in
  match env_io_fault env op w with
  | Some e => (Raise e, log (EFile op false) w)
  | None =>
    match fs w !! path with
    | Some data => (Ret data, log (EFile op true) w)
    | None => (Raise (no_such_file path), log (EFile op false) w)
    end
  end.

(** [os.path.exists] does not raise. *)
Definition path_exists (path : string) : M bool := fun w =>
  let r := match fs w !! path with Some _ => true | None => false end in
  (Ret r, log (EFile (PathExists path) true) w).

Definition os_remove (path : string) : M unit := fun w =>
  let op := Remove path in
  match env_io_fault env op w with
  | Some e => (Raise e, log (EFile op false) w)
  | None =>
    match fs w !! path with
    | Some _ => (Ret tt, log (EFile op true) (set_fs (delete path (fs w)) w))
    | None => (Raise (no_such_file path), log (EFile op false) w)
    end
  end.

Definition shutil_move (src dst : string) : M unit := fun w =>
  let op := Move src dst in
  match env_io_fault env op w with
  | Some e => (Raise e, log (EFile op false) w)
  | None =>
    match fs w !! src with
    | Some data =>
      (Ret tt, log (EFile op true)
                   (set_fs (<[dst := data]> (delete src (fs w))) w))
    | None => (Raise (no_such_file src), log (EFile op false) w)
    end
  end.

Definition shutil_copy (src dst : string) : M unit := fun w =>
  let op := Copy src dst in
  match env_io_fault env op w with
  | Some e => (Raise e, log (EFile op false) w)
  | None =>
    match fs w !! src with
    | Some data =>
      (Ret tt, log (EFile op true) (set_fs (<[dst := data]> (fs w)) w))
    | None => (Raise (no_such_file src), log (EFile op false) w)
    end
  end.

Definition mkdtemp (prefix : string) : M string := fun w =>
  let op := MkDtemp prefix in
  match env_io_fault env op w with
  | Some e => (Raise e, log (EFile op false) w)
  | None => (Ret (env_mkdtemp env prefix w), log (EFile op true) w)
  end.

(** [shutil.rmtree(path, ignore_errors=True)]: the files below [path] go. *)
Definition rmtree_ignore_errors (path : string) : M unit := fun w =>
  let keep (kv : string * bytes) := String.prefix (path +:+ "/") (fst kv) = false in
  (Ret tt, log (EFile (RmTree path) true) (set_fs (filter keep (fs w)) w)).

Definition timeout_expired (cmd : list string) (timeout : Z) : exn :=
  mkExn TimeoutExpired
        ("Command '" +:+ py_repr_list cmd +:+ "' timed out after "
         +:+ str_of_Z timeout +:+ " seconds").

Definition write_files (writes : list (string * bytes)) (f : gmap string bytes)
  : gmap string bytes :=
  fold_left (fun acc kv => <[fst kv := snd kv]> acc) writes f.

(** [subprocess.run(cmd, capture_output=True, timeout=timeout)]: a process
    that outlives the timeout is killed and [TimeoutExpired] is raised;
    without a timeout the call waits for as long as the process runs. *)
Definition subprocess_run (cmd : list string) (timeout : option Z) : M unit :=
  fun w =>
  match env_proc env cmd w with
  | ProcMissing =>
      (Raise (no_such_file (hd EmptyString cmd)), log (ERun cmd timeout NotFound) w)
  | ProcRuns duration writes =>
      let finished :=
        (Ret tt, log (ERun cmd timeout Completed)
                     (set_fs (write_files writes (fs w)) w)) in
      match timeout, duration with
      | Some t, Some d =>
          if Qle_bool d (inject_Z t) then finished
          else (Raise (timeout_expired cmd t), log (ERun cmd timeout TimedOut) w)
      | Some t, None =>
          (Raise (timeout_expired cmd t), log (ERun cmd timeout TimedOut) w)
      | None, Some _ => finished
      | None, None => (Hang, log (ERun cmd timeout NeverReturned) w)
      end
  end.

(** A call on an automation object: it returns or raises, as the
    application decides. *)
Definition com (c : ComCall) : M pyval := fun w =>
  match env_com env c w with
  | ComOk v => (Ret v, log (ECom c true) w)
  | ComRaise e => (Raise e, log (ECom c false) w)
  end.

Definition com_ (c : ComCall) : M unit := com c ;; ret tt.

(** [workbook.ExportAsFixedFormat(Filename=path, ...)]: when the call
    returns, the application has left at [path] what it chose to write. *)
Definition export_as_fixed_format (path : string) : M unit := fun w =>
  let c := ExportAsFixedFormat path in
  match env_com env c w with
  | ComOk _ =>
      let f := match env_export env path w with
               | Some data => <[path := data]> (fs w)
               | None => fs w
               end in
      (Ret tt, log (ECom c true) (set_fs f w))
  | ComRaise e => (Raise e, log (ECom c false) w)
  end.

(** ** engine.py: [ExcelMirrorEngine] *)

Definition _configure_page_setup (sheet : nat) (options : ConversionOptions)
  : M unit :=
  try_except
    (com_ (SheetPageSetup sheet) ;;
     (* Disable automatic scaling *)
     com_ (PageSetupSet sheet Zoom (VBool false)) ;;
     (* Fit to page width *)
     (if fit_to_page options then
        com_ (PageSetupSet sheet FitToPagesWide (VInt 1)) ;;
        com_ (PageSetupSet sheet FitToPagesTall (VBool false))
      else ret tt) ;;
     (* Set orientation *)
     (if String.eqb (lower (orientation options)) "landscape"
      then com_ (PageSetupSet sheet Orientation (VInt XL_LANDSCAPE))
      else com_ (PageSetupSet sheet Orientation (VInt XL_PORTRAIT))) ;;
     (* Set paper size *)
     com_ (PageSetupSet sheet PaperSize (VInt (resolve_paper_size options))) ;;
     (* Center horizontally *)
     com_ (PageSetupSet sheet CenterHorizontally
                        (VBool (center_horizontally options))) ;;
     (* Set print area to used range; an automation object is truthy *)
     try_pass
       (com_ (SheetUsedRange sheet) ;;
        address <- com (UsedRangeAddress sheet) ;;
        com_ (PageSetupSet sheet PrintArea address)) ;;
     (* Set margins (1cm = 28.35 points) *)
     let margin_points := (margin_cm options * (2835 # 100))%Q in
     com_ (PageSetupSet sheet LeftMargin (VFloat margin_points)) ;;
     com_ (PageSetupSet sheet RightMargin (VFloat margin_points)) ;;
     com_ (PageSetupSet sheet TopMargin (VFloat margin_points)) ;;
     com_ (PageSetupSet sheet BottomMargin (VFloat margin_points)) ;;
     print ("[ExcelMirror] PageSetup configured: " +:+ paper_size options
            +:+ " " +:+ orientation options))
    (fun e => print ("[ExcelMirror] PageSetup warning: " +:+ exn_str e)).

(** The [finally] block of [_convert_with_com], given which of [workbook]
    and [excel_app] the [try] block had assigned. *)
Definition com_cleanup (has_workbook has_app : bool) : M unit :=
  (if has_workbook then
     try_pass (com_ WorkbookClose) ;;
     try_pass (com_ CoUninitialize)
   else ret tt) ;;
  (if has_app then try_pass (com_ AppQuit) else ret tt).

Definition com_error_handler (e : exn) : M bool :=
  print ("[ExcelMirror] COM Error: " +:+ exn_str e) ;; ret false.

Definition _convert_with_com (input_path output_path : string)
    (options : ConversionOptions) : M bool :=
  r1 <- catch (print "[ExcelMirror] Initializing Excel COM..." ;;
               com_ (Dispatch "Excel.Application")) ;;
  match r1 with
  | inl e => r <- com_error_handler e ;; com_cleanup false false ;; ret r
  | inr _ =>
    r2 <- catch (com_ (AppSet "Visible" (VBool false)) ;;
                 com_ (AppSet "DisplayAlerts" (VBool false)) ;;
                 com_ (AppSet "ScreenUpdating" (VBool false)) ;;
                 com_ (AppSet "EnableEvents" (VBool false)) ;;
                 print "[ExcelMirror] Opening workbook..." ;;
                 com_ (WorkbooksOpen input_path)) ;;
    match r2 with
    | inl e => r <- com_error_handler e ;; com_cleanup false true ;; ret r
    | inr _ =>
      r3 <- catch (n <- com WorkbookWorksheets ;;
                   for_each (seq 1 (as_nat n))
                            (fun sheet => _configure_page_setup sheet options) ;;
                   print "[ExcelMirror] Exporting to PDF..." ;;
                   export_as_fixed_format output_path ;;
                   com_ WorkbookClose ;;
                   print "[ExcelMirror] PDF created successfully" ;;
                   ret true) ;;
      r <- match r3 with
           | inl e => com_error_handler e
           | inr v => ret v
           end ;;
      com_cleanup true true ;; ret r
    end
  end.

Definition libreoffice_cmd (outdir input_path : string) : list string :=
  "libreoffice" :: "--headless" :: "--convert-to" :: "pdf"
  :: "--outdir" :: outdir :: input_path :: nil.

Definition _simulate_conversion (input_path output_path : string)
    (options : ConversionOptions) : M bool :=
  print "[ExcelMirror] ⚠️  SIMULATION MODE - pywin32 not available" ;;
  print "[ExcelMirror] This will NOT produce correct PDF output!" ;;
  try_except
    (subprocess_run (libreoffice_cmd (os_path_dirname output_path) input_path)
                    (Some 120) ;;
     let base_name := fst (os_path_splitext (os_path_basename input_path)) in
     let gen_pdf := os_path_join (os_path_dirname output_path)
                                 (base_name +:+ ".pdf") in
     found <- path_exists gen_pdf ;;
     if found then shutil_move gen_pdf output_path ;; ret true
     else ret false)
    (fun e => print ("[ExcelMirror] LibreOffice fallback failed: " +:+ exn_str e) ;;
              ret false).

Definition page_marker : bytes := bytes_literal "/Type /Page".

Definition _get_pdf_page_count (pdf_path : string) : M Z :=
  try_except
    (content <- open_read pdf_path ;;
     let count := bytes_count content page_marker in
     ret (Z.max 1 (count - 1)))
    (fun _ => ret 1).

Definition _cleanup_files (files : list string) : M unit :=
  for_each files (fun file_path =>
    try_pass (found <- path_exists file_path ;;
              if found then os_remove file_path else ret tt)).

Definition _force_gc : M unit := emit EGcCollect ;; emit EGcCollect.

Definition safe_char (c : ascii) : ascii :=
  if isalnum c || ascii_in c "._-" then c else "_"%char.

Definition job_input_path (self : ExcelMirrorEngine) (job_id file_name : string)
  : string :=
  os_path_join (temp_dir self) (job_id +:+ "_" +:+ string_map safe_char file_name).

Definition job_output_path (self : ExcelMirrorEngine) (job_id : string) : string :=
  os_path_join (temp_dir self) (job_id +:+ "_output.pdf").

(** The block of [convert_to_pdf] that runs under [with self.semaphore:],
    that is the [try] / [except Exception] / [finally] statement. *)
Definition convert_job (self : ExcelMirrorEngine) (excel_data : bytes)
    (file_name : string) (options : ConversionOptions) (start_time : Q)
  : M ConversionResult :=
  try_finally
    (try_except
       (job_id <- new_job_id ;;
        let input_path := job_input_path self job_id file_name in
        let output_path := job_output_path self job_id in
        open_write input_path excel_data ;;
        print ("[ExcelMirror] Starting conversion: " +:+ file_name) ;;
        print ("[ExcelMirror] Paper: " +:+ paper_size options
               +:+ ", Orientation: " +:+ orientation options) ;;
        success <- (if HAS_WIN32COM env
                    then _convert_with_com input_path output_path options
                    else _simulate_conversion input_path output_path options) ;;
        failed <- (if negb success then ret true
                   else found <- path_exists output_path ;; ret (negb found)) ;;
        if failed then
          now <- time_time ;;
          ret (Failure "PDF conversion failed" (elapsed_ms start_time now))
        else
          pdf_data <- open_read output_path ;;
          page_count <- _get_pdf_page_count output_path ;;
          _cleanup_files (input_path :: output_path :: nil) ;;
          now <- time_time ;;
          let processing_time := elapsed_ms start_time now in
          print ("[ExcelMirror] ✅ Complete: " +:+ str_of_Z page_count
                 +:+ " pages in " +:+ str_of_Z processing_time +:+ "ms") ;;
          ret (Success (b64encode pdf_data)
                       (Z.of_nat (List.length pdf_data))
                       page_count
                       (paper_size options +:+ " " +:+ orientation options)
                       processing_time))
       (fun e =>
          let error_msg := exn_str e in
          print ("[ExcelMirror] ❌ Error: " +:+ error_msg) ;;
          print "Traceback (most recent call last):" ;;
          now <- time_time ;;
          ret (Failure error_msg (elapsed_ms start_time now))))
    _force_gc.

Definition convert_to_pdf (self : ExcelMirrorEngine) (excel_data : bytes)
    (file_name : string) (options : option ConversionOptions)
  : M ConversionResult :=
  let options := options_or_default options in
  start_time <- time_time ;;
  with_semaphore (convert_job self excel_data file_name options start_time).

(** ** windows-com-strict/excel_to_pdf_strict.py *)

Definition xlLandscape : Z := 2.
Definition xlMoveAndSize : Z := 2.

Definition as_str (v : pyval) : string :=
  match v with VStr s => s | _ => EmptyString end.
Definition as_Z (v : pyval) : Z :=
  match v with VInt z => z | _ => 0 end.

Definition os_path_abspath (p : string) : string :=
  if String.prefix "/" p then p else os_path_join (env_cwd env) p.

Definition taskkill_cmd : list string :=
  "taskkill" :: "/F" :: "/IM" :: "EXCEL.EXE" :: nil.

(** [ws.PageSetup.<prop> = v]: the page setup object is fetched anew for
    every assignment. *)
Definition strict_set (sheet : nat) (prop : PageSetupProp) (v : pyval) : M unit :=
  com_ (SheetPageSetup sheet) ;; com_ (PageSetupSet sheet prop v).

(** The right-hand side [cm_to_points(1)] is evaluated before the target. *)
Definition strict_set_margin (sheet : nat) (prop : PageSetupProp) : M unit :=
  v <- com (AppCentimetersToPoints 1) ;; strict_set sheet prop v.

(** One round of the loop over the sheets (step 3 of the script). *)
Definition strict_process_sheet (sheet_index : nat) : M unit :=
  com_ (SheetItem sheet_index) ;;
  sheet_name <- com (SheetName sheet_index) ;;
  print ("\n  [Sheet " +:+ pretty sheet_index +:+ "] Processing: "
         +:+ as_str sheet_name) ;;
  (* 3a *)
  com_ (SheetActivate sheet_index) ;;
  print "    ✓ Worksheet ACTIVATED" ;;
  (* 3b *)
  com_ (SheetUsedRange sheet_index) ;;
  com_ (UsedRangeSelect sheet_index) ;;
  address <- com (UsedRangeAddress sheet_index) ;;
  print ("    ✓ UsedRange SELECTED: " +:+ as_str address) ;;
  (* 3c *)
  c1 <- com (ShapesCount sheet_index) ;;
  shape_count <- (if as_Z c1 >? 0
                  then c2 <- com (ShapesCount sheet_index) ;; ret (as_Z c2)
                  else ret 0) ;;
  (if shape_count >? 0 then
     n <- com (SheetShapes sheet_index) ;;
     for_each (seq 1 (as_nat n))
              (fun shape => com_ (ShapeSetPlacement sheet_index shape xlMoveAndSize)) ;;
     print ("    ✓ LOCKED " +:+ str_of_Z shape_count +:+ " shapes (xlMoveAndSize)")
   else print "    ✓ No shapes to lock") ;;
  (* 3d *)
  strict_set sheet_index Zoom (VBool false) ;;
  print "    ✓ Zoom: DISABLED" ;;
  strict_set sheet_index FitToPagesWide (VInt 1) ;;
  strict_set sheet_index FitToPagesTall (VBool false) ;;
  print "    ✓ FitToPagesWide: 1" ;;
  print "    ✓ FitToPagesTall: Auto" ;;
  strict_set sheet_index Orientation (VInt xlLandscape) ;;
  print "    ✓ Orientation: LANDSCAPE" ;;
  strict_set sheet_index CenterHorizontally (VBool true) ;;
  strict_set sheet_index CenterVertically (VBool false) ;;
  print "    ✓ Center: Horizontal" ;;
  strict_set_margin sheet_index LeftMargin ;;
  strict_set_margin sheet_index RightMargin ;;
  strict_set_margin sheet_index TopMargin ;;
  strict_set_margin sheet_index BottomMargin ;;
  print "    ✓ Margins: 1cm (all sides)" ;;
  try_pass
    (a <- com (UsedRangeAddress sheet_index) ;;
     strict_set sheet_index PrintArea a ;;
     a' <- com (UsedRangeAddress sheet_index) ;;
     print ("    ✓ PrintArea: " +:+ as_str a')).

(** The cleanup of the [except] block, given which of [workbook] and [excel]
    are set when the exception arrives. *)
Definition strict_error_handler (has_workbook has_excel : bool) (e : exn)
  : M bool :=
  print ("\n[Error] " +:+ exn_str e) ;;
  print "Traceback (most recent call last):" ;;
  try_pass (if has_workbook then com_ WorkbookClose else ret tt) ;;
  try_pass (if has_excel then com_ AppQuit else ret tt) ;;
  ret false.

Definition strict_finally : M unit :=
  try_pass (com_ CoUninitialize) ;;
  try_pass (subprocess_run taskkill_cmd (Some 10)).

Definition convert_excel_to_pdf_strict (input_path output_path : string)
  : M bool :=
  print "[STRICT COM Converter] Starting conversion..." ;;
  print ("  Input: " +:+ input_path) ;;
  print "  Strategy: STRICT LANDSCAPE + LAYOUT LOCK" ;;
  try_finally
    (r1 <- catch (print "\n[Step 1] Initializing Excel COM..." ;;
                  com_ CoInitialize ;;
                  com_ (Dispatch "Excel.Application")) ;;
     match r1 with
     | inl e => strict_error_handler false false e
     | inr _ =>
       r2 <- catch (com_ (AppSet "Visible" (VBool false)) ;;
                    com_ (AppSet "DisplayAlerts" (VBool false)) ;;
                    com_ (AppSet "ScreenUpdating" (VBool false)) ;;
                    com_ (AppSet "EnableEvents" (VBool false)) ;;
                    com_ (AppSet "PrintCommunication" (VBool false)) ;;
                    print "  ✓ Excel initialized" ;;
                    print "  ✓ PrintCommunication disabled" ;;
                    print "\n[Step 2] Opening workbook..." ;;
                    com_ (WorkbooksOpen (os_path_abspath input_path))) ;;
       match r2 with
       | inl e => strict_error_handler false true e
       | inr _ =>
         r3 <- catch (name <- com WorkbookName ;;
                      print ("  ✓ Workbook opened: " +:+ as_str name) ;;
                      shown <- com SheetsCount ;;
                      print ("  ✓ Sheets: " +:+ str_of_Z (as_Z shown)) ;;
                      n <- com SheetsCount ;;
                      for_each (seq 1 (as_nat n)) strict_process_sheet ;;
                      print "\n[Step 4] Enabling PrintCommunication..." ;;
                      com_ (AppSet "PrintCommunication" (VBool true)) ;;
                      print "  ✓ PrintCommunication enabled" ;;
                      print "\n[Step 5] Exporting to PDF..." ;;
                      export_as_fixed_format (os_path_abspath output_path) ;;
                      print ("  ✓ PDF exported: " +:+ output_path) ;;
                      print "\n[Step 6] Cleanup..." ;;
                      com_ WorkbookClose) ;;
         match r3 with
         | inl e => strict_error_handler true true e
         | inr _ =>
           r4 <- catch (print "  ✓ Workbook closed" ;; com_ AppQuit) ;;
           match r4 with
           | inl e => strict_error_handler false true e
           | inr _ =>
             print "  ✓ Excel quit" ;;
             emit EGcCollect ;;
             print "  ✓ COM objects released" ;;
             print "\n[Success] PDF created successfully!" ;;
             ret true
           end
         end
       end
     end)
    strict_finally.

(** ** scripts/export_to_pdf_f4.py: [setup_f4_page]

    The page setup of the scratch sheet that receives the captured picture. *)
Definition setup_f4_page (ws : nat) : M unit :=
  (* Paper size custom (xlPaperUser = 256) *)
  strict_set ws PaperSize (VInt 256) ;;
  strict_set ws PageWidth (VFloat Geometry.F4_WIDTH_PTS) ;;
  strict_set ws PageHeight (VFloat Geometry.F4_HEIGHT_PTS) ;;
  (* Orientation landscape *)
  strict_set ws Orientation (VInt 2) ;;
  (* Margins *)
  let margin_pts := (Geometry.MARGIN_CM * Geometry.PTS_PER_CM)%Q in
  strict_set ws LeftMargin (VFloat margin_pts) ;;
  strict_set ws RightMargin (VFloat margin_pts) ;;
  strict_set ws TopMargin (VFloat margin_pts) ;;
  strict_set ws BottomMargin (VFloat margin_pts) ;;
  (* Center *)
  strict_set ws CenterHorizontally (VBool true) ;;
  strict_set ws CenterVertically (VBool true) ;;
  (* Fit to page *)
  strict_set ws FitToPagesWide (VInt 1) ;;
  strict_set ws FitToPagesTall (VBool false) ;;
  strict_set ws Zoom (VBool false).

(** ** screen-render-preview/excel_screen_render_linux.py *)

(** What the converter and [pdfinfo] print is not part of the world, so the
    lines echoed from their output are left out. *)
Definition convert_excel_screen_render (input_path output_path : string)
  : M bool :=
  print "[Screen Render Linux] Starting conversion..." ;;
  print ("  Input: " +:+ input_path) ;;
  print "  Strategy: Default rendering (preserve original layout)" ;;
  temp_dir <- mkdtemp "excel_screen_" ;;
  try_except
    (print "\n[Step 1] Converting with default settings..." ;;
     print "  (No page setup modifications - preserves original layout)" ;;
     subprocess_run (libreoffice_cmd temp_dir input_path) (Some 180) ;;
     let base_name := fst (os_path_splitext (os_path_basename input_path)) in
     let gen_pdf := os_path_join temp_dir (base_name +:+ ".pdf") in
     found <- path_exists gen_pdf ;;
     if found then
       print "\n[Step 2] Checking PDF properties..." ;;
       try_pass (subprocess_run ("pdfinfo" :: gen_pdf :: nil) None) ;;
       shutil_copy gen_pdf output_path ;;
       print ("\n[Success] PDF created: " +:+ output_path) ;;
       rmtree_ignore_errors temp_dir ;;
       ret true
     else
       print "\n[Error] PDF not created" ;;
       rmtree_ignore_errors temp_dir ;;
       ret false)
    (fun e =>
       print ("\n[Error] " +:+ exn_str e) ;;
       print "Traceback (most recent call last):" ;;
       rmtree_ignore_errors temp_dir ;;
       ret false).

End WithEnv.

End Engine.

(* ===================================================================== *)
(** * Scenarios: concrete hosts, documents and options *)
(* ===================================================================== *)

Module Scenarios.
Import Engine.

Definition engine : ExcelMirrorEngine := mkEngine "/tmp/excel_mirror_k3".

Definition workbook_bytes : bytes := bytes_literal "PK-workbook".

Definition sample_pdf : bytes :=
  bytes_literal "%PDF-1.4 /Type /Catalog /Type /Pages /Type /Page %%EOF".

(** No file yet, the permit free, nothing called yet. *)
Definition idle_world : World := mkWorld ∅ 1 nil.

Definition job_id : string := "20240101_120000_0a1b2c3d".

(** A clock that advances by one second with every external call. *)
Definition tick_clock (w : World) : Q :=
  inject_Z (Z.of_nat (List.length (trace w))).

Definition host (has_com : bool)
    (com_answers : ComCall -> World -> ComAnswer)
    (exported : string -> World -> option bytes)
    (processes : list string -> World -> ProcBehaviour) : Env :=
  mkEnv has_com "/srv/app" tick_clock (fun _ => job_id)
        (fun prefix _ => "/tmp/" +:+ prefix +:+ "q7")
        (fun _ _ => None) com_answers exported processes.

Definition no_excel (c : ComCall) (w : World) : ComAnswer :=
  ComRaise (mkExn com_error "Invalid class string").

(** Excel answers every call; the workbook has two sheets. *)
Definition willing_excel (c : ComCall) (w : World) : ComAnswer :=
  match c with
  | WorkbookWorksheets | SheetsCount => ComOk (VInt 2)
  | UsedRangeAddress _ => ComOk (VStr "$A$1:$E$10")
  | _ => ComOk VNone
  end.

(** The same, but the left margin of the first sheet is rejected. *)
Definition excel_rejecting_margin (c : ComCall) (w : World) : ComAnswer :=
  match c with
  | PageSetupSet 1 LeftMargin _ =>
      ComRaise (mkExn com_error "Unable to set the LeftMargin property")
  | _ => willing_excel c w
  end.

(** The same, but the print area of the first sheet is rejected. *)
Definition excel_rejecting_print_area (c : ComCall) (w : World) : ComAnswer :=
  match c with
  | PageSetupSet 1 PrintArea _ =>
      ComRaise (mkExn com_error "Unable to set the PrintArea property")
  | _ => willing_excel c w
  end.

(** A host with neither Excel nor LibreOffice. *)
Definition env_no_converter : Env :=
  host false no_excel (fun _ _ => None) (fun _ _ => ProcMissing).

(** A host whose LibreOffice never finishes. *)
Definition env_converter_stuck : Env :=
  host false no_excel (fun _ _ => None) (fun _ _ => ProcRuns None nil).

(** A host whose LibreOffice converts in five seconds. *)
Definition env_converter_ok : Env :=
  host false no_excel (fun _ _ => None)
       (fun _ _ => ProcRuns (Some 5%Q)
          (("/tmp/excel_mirror_k3/20240101_120000_0a1b2c3d_report.pdf",
            sample_pdf) :: nil)).

(** Hosts with Excel. *)
Definition env_excel : Env :=
  host true willing_excel (fun _ _ => Some sample_pdf) (fun _ _ => ProcMissing).

Definition env_excel_margin_rejected : Env :=
  host true excel_rejecting_margin (fun _ _ => Some sample_pdf)
       (fun _ _ => ProcMissing).

Definition env_excel_print_area_rejected : Env :=
  host true excel_rejecting_print_area (fun _ _ => Some sample_pdf)
       (fun _ _ => ProcMissing).

(** A paper size the engine does not know. *)
Definition b5_options : ConversionOptions :=
  mkOptions "B5" "Landscape" true 300 true 1.

(** ** The result label as the design states it *)



(** ** Telling a timeout from the error text *)

Fixpoint contains (needle hay : string) : bool :=
  String.prefix needle hay
  || match hay with
     | EmptyString => false
     | String _ rest => contains needle rest
     end.

(** The error text names a timeout, as [str(TimeoutExpired)] does. *)
Definition timeout_classified (r : res ConversionResult) : bool :=
  match r with
  | Ret (Failure error _) =>
      contains "timed out" (lower error) || contains "timeout" (lower error)
  | _ => false
  end.

Definition error_of (r : res ConversionResult) : option string :=
  match r with
  | Ret (Failure error _) => Some error
  | _ => None
  end.

(** ** Paper-size tags, compared without regard to case *)




End Scenarios.

(* ===================================================================== *)
(** * Gate: jobs that share the semaphore of one engine *)
(* ===================================================================== *)

Module Gate.
Import Engine.

(** An event that is neither an acquire nor a release. *)
Definition not_gate (e : Event) : Prop := e <> EAcquire /\ e <> ERelease.

(** A call on the automation session or on the headless converter. *)
Definition automation (e : Event) : bool :=
  match e with
  | ECom _ _ | ERun _ _ _ => true
  | _ => false
  end.

(** The events [m] adds to the trace of [w], newest first, and the same in
    the order in which they happen. *)
Definition new_events {A} (m : M A) (w : World) : list Event :=
  firstn (List.length (trace (snd (m w))) - List.length (trace w))
         (trace (snd (m w))).

Definition program_of {A} (m : M A) (w : World) : list Event :=
  rev (new_events m w).

(** The shape of what one call of [convert_to_pdf] does: a prefix without
    automation, the acquire, the body, the release. *)
Definition job_program (p : list Event) : Prop :=
  exists pre body,
    p = pre ++ EAcquire :: body ++ ERelease :: nil
    /\ Forall not_gate pre
    /\ Forall (fun e => automation e = false) pre
    /\ Forall not_gate body.

(** Several calls on one engine: the permits left in [self.semaphore] and,
    for every thread, what it still has to do. *)
Record State := mkState {
  sem : nat;
  threads : list (list Event)
}.

(** One thread performs its next event.  [acquire] needs a permit and takes
    it (a thread that finds none waits); [release] gives it back. *)
Inductive step : State -> State -> Prop :=
  | step_acquire i rest n ts :
      ts !! i = Some (EAcquire :: rest) ->
      step (mkState (S n) ts) (mkState n (<[i := rest]> ts))
  | step_release i rest n ts :
      ts !! i = Some (ERelease :: rest) ->
      step (mkState n ts) (mkState (S n) (<[i := rest]> ts))
  | step_call i e rest n ts :
      ts !! i = Some (e :: rest) ->
      not_gate e ->
      step (mkState n ts) (mkState n (<[i := rest]> ts)).

Definition is_acquire (e : Event) : bool :=
  match e with EAcquire => true | _ => false end.
Definition is_release (e : Event) : bool :=
  match e with ERelease => true | _ => false end.

(** A thread holds the permit when its acquire is behind it and its release
    ahead of it. *)
Definition holding (p : list Event) : bool :=
  negb (existsb is_acquire p) && existsb is_release p.

Definition weight (p : list Event) : nat := if holding p then 1 else 0.

Definition holders (ts : list (list Event)) : nat :=
  List.length (List.filter holding ts).

(** Where a thread can be: before its acquire, between acquire and release,
    or done. *)
Inductive phase : list Event -> Prop :=
  | phase_before p : job_program p -> phase p
  | phase_holding body :
      Forall not_gate body -> phase (body ++ ERelease :: nil)
  | phase_done : phase nil.

Definition invariant (st : State) : Prop :=
  Forall phase (threads st) /\ (sem st + holders (threads st) = 1)%nat.

End Gate.

(* ===================================================================== *)
(** * Judgements on computations and on traces *)
(* ===================================================================== *)

Module Judgements.
Import Engine.
Export Gate.

(** ** Relations between the world before and after a computation *)

Record preorder (R : World -> World -> Prop) : Prop := mkPreorder {
  pre_refl : forall w, R w w;
  pre_trans : forall w1 w2 w3, R w1 w2 -> R w2 w3 -> R w1 w3
}.

(** Whatever the world and the outcome, [m] moves the world along [R]. *)
Definition steps {A} (R : World -> World -> Prop) (m : M A) : Prop :=
  forall w, R w (snd (m w)).

(** [m] comes back, with a value or with an exception. *)
Definition returns {A} (m : M A) : Prop :=
  forall w, fst (m w) <> Hang.

(** [m] comes back with a value. *)
Definition total {A} (m : M A) : Prop :=
  forall w, exists a, fst (m w) = Ret a.

(** The trace grows by events (newest first) that satisfy [P]. *)
Definition extends (P : list Event -> Prop) (w w' : World) : Prop :=
  exists evs, trace w' = evs ++ trace w /\ P evs.

Definition same_permits (w w' : World) : Prop := permits w' = permits w.
Definition same_files (w w' : World) : Prop := fs w' = fs w.

(** A property of event lists that holds of the empty list and of the
    concatenation of two runs that have it. *)
Record closed (P : list Event -> Prop) : Prop := mkClosed {
  closed_nil : P nil;
  closed_app : forall older newer, P older -> P newer -> P (newer ++ older)
}.

Definition emits {A} (P : list Event -> Prop) (m : M A) : Prop :=
  steps (extends P) m.

(** A computation that adds exactly one event, one of [outcomes]. *)
Definition one_event {A} (m : M A) (outcomes : Event -> Prop) : Prop :=
  forall w, exists e, trace (snd (m w)) = e :: trace w /\ outcomes e.


(** ** The order of the zoom and fit-to-width assignments *)

(** In a run (newest event first): every assignment to [FitToPagesWide] of a
    sheet comes after a successful [Zoom = False] on that sheet, and [Zoom]
    is never assigned anything but [False]. *)
Definition zoom_before_fit (evs : list Event) : Prop :=
  (forall newer older s v ok,
      evs = newer ++ ECom (PageSetupSet s FitToPagesWide v) ok :: older ->
      In (ECom (PageSetupSet s Zoom (VBool false)) true) older)
  /\ (forall s v ok,
        In (ECom (PageSetupSet s Zoom v) ok) evs -> v = VBool false).


(** ** Running forward *)

(** From [w], [m] comes back with a value, and value and world satisfy [Q]. *)
Definition reaches {A} (m : M A) (w : World) (Q : A -> World -> Prop) : Prop :=
  exists a w', m w = (Ret a, w') /\ Q a w'.

(** When [m] comes back with a value, the events it added satisfy [S]. *)
Definition on_return {A} (S : Event -> Prop) (m : M A) : Prop :=
  forall w, exists evs,
    trace (snd (m w)) = evs ++ trace w
    /\ ((exists a, fst (m w) = Ret a) -> Forall S evs).

(** ** The page setup of a sheet *)

(** The calls of the block that sets the print area, which has its own
    [try] / [except: pass]. *)
Definition print_area_call (c : ComCall) : bool :=
  match c with
  | SheetUsedRange _ | UsedRangeAddress _ | PageSetupSet _ PrintArea _ => true
  | _ => false
  end.

(** The calls [_configure_page_setup] makes. *)
Definition page_setup_call (c : ComCall) : bool :=
  match c with
  | SheetPageSetup _ | PageSetupSet _ _ _
  | SheetUsedRange _ | UsedRangeAddress _ => true
  | _ => false
  end.

(** No call failed, the print-area block apart. *)
Definition no_open_failure (e : Event) : Prop :=
  forall c, e = ECom c false -> print_area_call c = true.

Definition page_setup_warning (msg : string) : Event :=
  EPrint ("[ExcelMirror] PageSetup warning: " +:+ msg).

(** ** The headless converter and its timeout *)

(** The process outlives a timeout of [timeout] seconds. *)
Definition exceeds (timeout : Z) (p : ProcBehaviour) : Prop :=
  match p with
  | ProcMissing => False
  | ProcRuns None _ => True
  | ProcRuns (Some d) _ => (inject_Z timeout < d)%Q
  end.

(** A run of the converter is under a timeout, of 120 or of 180 seconds. *)
Definition converter_timed (e : Event) : Prop :=
  forall cmd timeout outcome,
    e = ERun cmd timeout outcome ->
    hd EmptyString cmd = "libreoffice" ->
    timeout = Some 120 \/ timeout = Some 180.

End Judgements.

(* ===================================================================== *)
(** * Layout: the printable area of the fixed page *)
(* ===================================================================== *)

Module Layout.
Import Geometry.

#[local] Open Scope Q_scope.

(** [scale_image_to_fit]: the locals [margin_pts], [max_width] and
    [max_height]. *)
Definition margin_pts : Q := MARGIN_CM * PTS_PER_CM.
Definition max_width : Q := F4_WIDTH_PTS - 2 * margin_pts.
Definition max_height : Q := F4_HEIGHT_PTS - 2 * margin_pts.

(** [create_f4_pdf_from_images]: the locals [f4_width], [f4_height] and
    [margin]. *)
Definition f4_width : Q := F4_WIDTH_CM * rl_cm.
Definition f4_height : Q := F4_HEIGHT_CM * rl_cm.
Definition margin : Q := MARGIN_CM * rl_cm.



(** The drawn rectangle has the proportions of an image of [w] by [h]
    pixels. *)
Definition keeps_aspect (w h : Z) (p : Placement) : Prop :=
  draw_w p * inject_Z h == draw_h p * inject_Z w.

(** An image [Image.open] reports with a zero width or height. *)
Definition degenerate (img : Z * Z) : Prop := fst img = 0%Z \/ snd img = 0%Z.

End Layout.
(* ===================================================================== *)
(** * Scripts: the other entry points of scripts/export_to_pdf_f4.py *)
(* ===================================================================== *)

Module Scripts.
Import Engine.

#[local] Open Scope eng_scope.

(** What the script needs of [pypdf]: whether a document can be read (the
    exception [PdfMerger.append] raises when it cannot) and the document that
    [PdfMerger.write] makes of the documents appended. *)
Record PdfMerger := mkPdfMerger {
  append_error : bytes -> option exn;
  merged : list bytes -> bytes
}.

(** [x or '.']. *)
Definition or_dot (s : string) : string :=
  match s with EmptyString => "." | _ => s end.

(** [f"{x / 1024:.1f}"] for a file size [x]: the quotient is exact in
    floating point, and the format rounds it to the nearest tenth, a tie to
    the even digit. *)
Definition format_kb (size : Z) : string :=
  let n := size * 10 in
  let q := n / 1024 in
  let r := n mod 1024 in
  let tenths := if 2 * r <? 1024 then q
                else if 1024 <? 2 * r then q + 1
                else if Z.even q then q else q + 1 in
  str_of_Z (tenths / 10) +:+ "." +:+ str_of_Z (tenths mod 10).

(** [os.path.getsize]: the size of the file, [OSError] when there is none;
    the call leaves no event. *)
Definition os_path_getsize (path : string) : M Z := fun w =>
  match fs w !! path with
  | Some data => (Ret (Z.of_nat (List.length data)), w)
  | None => (Raise (mkExn OSError
                      ("[Errno 2] No such file or directory: '" +:+ path
                       +:+ "'")), w)
  end.

Section WithHost.

Variable env : Env.

(** ** [export_with_libreoffice] *)

Definition export_with_libreoffice (input_path output_path : string)
  : M bool :=
  let cmd := libreoffice_cmd (or_dot (os_path_dirname output_path)) input_path in
  subprocess_run env cmd (Some 120) ;;
  let expected_pdf := fst (os_path_splitext input_path) +:+ ".pdf" in
  found <- path_exists expected_pdf ;;
  (if found && negb (String.eqb expected_pdf output_path)
   then shutil_move env expected_pdf output_path
   else ret tt) ;;
  path_exists output_path.

(** ** [merge_pdfs] *)

(** The loop over [pdf_list]: the documents appended so far. *)
Fixpoint append_existing (lib : PdfMerger) (pdf_list : list string)
    (appended : list bytes) : M (list bytes) :=
  match pdf_list with
  | nil => ret appended
  | pdf :: rest =>
    found <- path_exists pdf ;;
    if found then
      data <- open_read env pdf ;;
      match append_error lib data with
      | Some e => raise e
      | None => append_existing lib rest (appended ++ data :: nil)
      end
    else append_existing lib rest appended
  end.

(** [pypdf] is [None] when the import fails. *)
Definition merge_pdfs (pypdf : option PdfMerger) (pdf_list : list string)
    (output_path : string) : M bool :=
  match pypdf with
  | Some lib =>
      appended <- append_existing lib pdf_list nil ;;
      open_write env output_path (merged lib appended) ;;
      ret true
  | None =>
      match pdf_list with
      | first :: _ =>
          found <- path_exists first ;;
          if found then shutil_copy env first output_path ;; ret true
          else ret false
      | nil => ret false
      end
  end.

(** ** [export_excel_to_pdf_f4] *)

(** [sys.platform], and the two approaches the function tries, whatever they
    do.  [export_with_excel_com] returns [True], [False] or, when no sheet
    was captured, [None]. *)
Variable platform : string.
Variable export_with_excel_com : string -> string -> M (option bool).
Variable export_with_screenshot_approach : string -> string -> M bool.

(** [bool(x)] of what [export_with_excel_com] returned. *)
Definition truthy (r : option bool) : bool :=
  match r with Some true => true | _ => false end.

Definition default_output_path (input_path : string) : string :=
  fst (os_path_splitext input_path) +:+ "_F4_Landscape.pdf".

Definition export_excel_to_pdf_f4 (input_path : string)
    (output_path : option string) : M bool :=
  let input_path := os_path_abspath env input_path in
  found <- path_exists input_path ;;
  if negb found then
    print ("Error: File tidak ditemukan: " +:+ input_path) ;;
    ret false
  else
    let output_path := match output_path with
                       | None => default_output_path input_path
                       | Some p => p
                       end in
    print ("Input: " +:+ input_path) ;;
    print ("Output: " +:+ output_path) ;;
    print "Paper: F4 Landscape (33.0cm x 21.5cm)" ;;
    print "DPI: 300" ;;
    print "" ;;
    (* Approach 1: MS Excel COM (Windows only) *)
    success <- (if String.eqb platform "win32" then
                  print "Mencoba dengan MS Excel..." ;;
                  try_except
                    (r <- export_with_excel_com input_path output_path ;;
                     ret (truthy r))
                    (fun e => print ("MS Excel gagal: " +:+ exn_str e) ;;
                              ret false)
                else ret false) ;;
    (* Approach 2: Screenshot + LibreOffice *)
    success <- (if negb success then
                  print "Mencoba dengan Screenshot approach..." ;;
                  try_except
                    (export_with_screenshot_approach input_path output_path)
                    (fun e => print ("Screenshot approach gagal: " +:+ exn_str e) ;;
                              ret success)
                else ret success) ;;
    ok <- (if success then path_exists output_path else ret false) ;;
    if ok then
      print ("\n✅ Export berhasil: " +:+ output_path) ;;
      size <- os_path_getsize output_path ;;
      print ("   File size: " +:+ format_kb size +:+ " KB") ;;
      ret true
    else
      print "\n❌ Export gagal" ;;
      ret false.

End WithHost.

End Scripts.
(* ===================================================================== *)
(** * Housekeeping: the maintenance methods of [ExcelMirrorEngine] *)
(* ===================================================================== *)

Module Housekeeping.
Import Engine.

#[local] Open Scope eng_scope.

Section WithHost.

Variable env : Env.

(** [shutil.rmtree(path)] without [ignore_errors]: when the file system
    refuses, the call raises; what it had removed before is not modelled,
    the files are then taken to be as they were. *)
Definition shutil_rmtree (path : string) : M unit := fun w =>
  match env_io_fault env (RmTree path) w with
  | Some e => (Raise e, log (EFile (RmTree path) false) w)
  | None => rmtree_ignore_errors path w
  end.

(** [ExcelMirrorEngine.cleanup]. *)
Definition cleanup (self : ExcelMirrorEngine) : M unit :=
  try_pass (shutil_rmtree (temp_dir self)).

End WithHost.

(** ** [kill_orphan_excel_processes] *)

(** A process as [psutil.process_iter(['pid', 'name', 'create_time'])]
    yields it: [name] and [create_time] are [None] when the system does not
    tell; [kill_refused] says whether [proc.kill()] raises. *)
Record ProcInfo := mkProcInfo {
  pid : Z;
  name : option string;
  create_time : option Q;
  kill_refused : bool
}.

(** What the method does, in the order in which it does it. *)
Inductive Action :=
  | Say (msg : string)
  | Kill (target : Z) (ok : bool).

(** [proc.info['name'] and 'EXCEL' in proc.info['name'].upper()]. *)
Definition named_excel (proc : ProcInfo) : bool :=
  match name proc with
  | Some n => negb (String.eqb n "") && Scenarios.contains "EXCEL" (upper n)
  | None => false
  end.

(** [datetime.now() - timedelta(minutes=older_than_minutes)], in seconds. *)
Definition cutoff (now : Q) (older_than_minutes : Z) : Q :=
  (now - inject_Z (60 * older_than_minutes))%Q.

(** [create_time < cutoff]; [datetime.fromtimestamp(None)] raises, which the
    bare [except] of the loop passes over. *)
Definition created_before (proc : ProcInfo) (limit : Q) : bool :=
  match create_time proc with
  | Some t => negb (Qle_bool limit t)
  | None => false
  end.

(** One round of the loop over the processes. *)
Definition visit (limit : Q) (proc : ProcInfo) : list Action :=
  if named_excel proc then
    if created_before proc limit then
      Say ("[ExcelMirror] Killing orphan Excel: PID " +:+ str_of_Z (pid proc))
      :: Kill (pid proc) (negb (kill_refused proc)) :: nil
    else nil
  else nil.

(** [psutil] is [None] when the import fails, and the processes of the host
    otherwise; [now] is what [datetime.now()] returns. *)
Definition kill_orphan_excel_processes (env : Env)
    (psutil : option (list ProcInfo)) (now : Q) (older_than_minutes : Z)
  : list Action :=
  if negb (HAS_WIN32COM env) then nil
  else
    match psutil with
    | None => Say "[ExcelMirror] psutil not available for process cleanup" :: nil
    | Some procs => flat_map (visit (cutoff now older_than_minutes)) procs
    end.

End Housekeeping.
(* ===================================================================== *)
(** * Server: [ExcelMirrorRequestHandler] of python-engine/engine.py *)
(* ===================================================================== *)

Module Server.
Import Engine.

#[local] Open Scope eng_scope.

(** A value as [json.loads] returns it; a [dict] is kept as its items, every
    key once.  Numbers are finite. *)
#[warnings="-register-all"]
Inductive Json :=
  | JNull
  | JBool (b : bool)
  | JInt (z : Z)
  | JFloat (q : Q)
  | JStr (s : string)
  | JList (items : list Json)
  | JDict (fields : list (string * Json)).

(** [type(v).__name__]. *)
Definition type_name (v : Json) : string :=
  match v with
  | JNull => "NoneType"
  | JBool _ => "bool"
  | JInt _ => "int"
  | JFloat _ => "float"
  | JStr _ => "str"
  | JList _ => "list"
  | JDict _ => "dict"
  end.

(** [bool(v)]. *)
Definition truthy (v : Json) : bool :=
  match v with
  | JNull => false
  | JBool b => b
  | JInt z => negb (z =? 0)
  | JFloat q => negb (Qeq_bool q 0)
  | JStr s => negb (String.eqb s "")
  | JList items => match items with nil => false | _ => true end
  | JDict fields => match fields with nil => false | _ => true end
  end.

Fixpoint lookup_field (key : string) (fields : list (string * Json))
  : option Json :=
  match fields with
  | nil => None
  | (k, v) :: rest => if String.eqb k key then Some v else lookup_field key rest
  end.

(** The [AttributeError] of [v.get] on a value that is not a [dict]. *)
Definition no_get (v : Json) : exn :=
  mkExn OtherException
        ("'" +:+ type_name v +:+ "' object has no attribute 'get'").

(** [v.get(key, dflt)]. *)
Definition py_get (v : Json) (key : string) (dflt : Json) : exn + Json :=
  match v with
  | JDict fields => inr (default dflt (lookup_field key fields))
  | _ => inl (no_get v)
  end.

(** What the first three statements of [do_POST] make of the request: the
    length header, the body read and decoded, and [json.loads], which either
    raise ([JSONDecodeError] apart), raise [JSONDecodeError], or yield the
    document. *)
Inductive Body :=
  | BodyFails (e : exn)
  | BodyNotJson
  | BodyJson (data : Json).

Record Request := mkRequest {
  requestline : string;
  path : string;
  body : Body
}.

(** The body of [GET /health]. *)
Record HealthReport := mkHealthReport {
  health_status : string;
  health_engine : string;
  health_paperSize : string;
  health_features : list string;
  health_pywin32Available : bool
}.

(** The dictionary handed to [json.dumps]. *)
Inductive Payload :=
  | Result (r : ConversionResult)
  | Error (msg : string)
  | Health (report : HealthReport).

(** What the handler sends: the status, the headers it adds itself (the
    [Server] and [Date] headers of [send_response] are left out) and the
    body.  Writing to the client is taken to succeed. *)
Record Response := mkResponse {
  status : Z;
  headers : list (string * string);
  payload : option Payload
}.

Definition cors_headers : list (string * string) :=
  ("Access-Control-Allow-Origin", "*")
  :: ("Access-Control-Allow-Methods", "GET, POST, OPTIONS")
  :: ("Access-Control-Allow-Headers", "Content-Type") :: nil.

Definition json_headers : list (string * string) :=
  ("Content-Type", "application/json") :: cors_headers.

(** [send_response] logs the request through [log_message], which the
    handler overrides to print the request line. *)
Definition send_response (req : Request) : M unit :=
  print ("[HTTP] " +:+ requestline req).

Definition _send_json_response (req : Request) (data : Payload) (code : Z)
  : M Response :=
  send_response req ;;
  ret (mkResponse code json_headers (Some data)).

Definition not_found (req : Request) : M Response :=
  send_response req ;; ret (mkResponse 404 nil None).

Definition do_OPTIONS (req : Request) : M Response :=
  send_response req ;; ret (mkResponse 200 cors_headers None).

Definition features : list string :=
  "100% Mirror Imaging" :: "Shape Anchor Preservation"
  :: "Connector Glue Points" :: "Object-to-Cell Alignment"
  :: "DPI Scaling Consistency" :: nil.

(** The values the engine model gives a type to. *)
Definition as_string (v : Json) : option string :=
  match v with JStr s => Some s | _ => None end.
Definition as_bool (v : Json) : option bool :=
  match v with JBool b => Some b | _ => None end.
Definition as_int (v : Json) : option Z :=
  match v with JInt z => Some z | _ => None end.

(** [ConversionOptions(paper_size=..., orientation=..., fit_to_page=...,
    dpi=..., center_horizontally=...)]: the margin is not passed and keeps
    its default.  [None] when a value has another type than the one the
    engine is modelled for. *)
Definition conversion_options (paper_size orientation fit_to_page dpi
    center_horizontally : Json) : option ConversionOptions :=
  match as_string paper_size, as_string orientation, as_bool fit_to_page,
        as_int dpi, as_bool center_horizontally with
  | Some p, Some o, Some f, Some d, Some c => Some (mkOptions p o f d c 1)
  | _, _, _, _, _ => None
  end.

Section WithHost.

Variable env : Env.

(** [ExcelMirrorRequestHandler.engine]. *)
Variable engine : ExcelMirrorEngine.

(** [base64.b64decode] on a text: the bytes, or [None] when it raises. *)
Variable b64decode : string -> option bytes.

Definition do_GET (req : Request) : M Response :=
  if String.eqb (path req) "/health" then
    _send_json_response req
      (Health (mkHealthReport
                 "ok"
                 (if HAS_WIN32COM env then "Windows COM Automation"
                  else "Simulation Mode")
                 "F4 Landscape (33.0cm x 21.5cm)"
                 features
                 (HAS_WIN32COM env)))
      200
  else not_found req.

(** The handler of [except Exception as e] of [do_POST]. *)
Definition server_error (req : Request) (e : exn) : M (option Response) :=
  r <- _send_json_response req (Error (exn_str e)) 500 ;; ret (Some r).

Definition bad_request (req : Request) (msg : string) : M (option Response) :=
  r <- _send_json_response req (Error msg) 400 ;; ret (Some r).

(** [do_POST].  The result is [None] for a request that the engine model
    does not cover: one whose [fileName] is not a text or whose option
    values do not have the types of [ConversionOptions]. *)
Definition do_POST (req : Request) : M (option Response) :=
  if String.eqb (path req) "/convert" then
    match body req with
    | BodyFails e => server_error req e
    | BodyNotJson => bad_request req "Invalid JSON"
    | BodyJson data =>
      (* Validate request *)
      match py_get data "fileBase64" JNull with
      | inl e => server_error req e
      | inr file =>
        if negb (truthy file) then bad_request req "fileBase64 is required"
        else
          (* Decode base64; a value that is not a text raises TypeError *)
          match as_string file ≫= b64decode with
          | None => bad_request req "Invalid base64 encoding"
          | Some excel_data =>
            (* Parse options *)
            match py_get data "options" (JDict nil) with
            | inl e => server_error req e
            | inr opts =>
              match py_get opts "paperSize" (JStr "F4"),
                    py_get opts "orientation" (JStr "Landscape"),
                    py_get opts "fitToPage" (JBool true),
                    py_get opts "dpi" (JInt 300),
                    py_get opts "centerHorizontally" (JBool true),
                    py_get data "fileName" (JStr "document.xlsx") with
              | inr paper_size, inr orientation, inr fit_to_page, inr dpi,
                inr center_horizontally, inr file_name =>
                match conversion_options paper_size orientation fit_to_page
                                         dpi center_horizontally,
                      as_string file_name with
                | Some options, Some name =>
                  (* Convert *)
                  try_except
                    (result <- convert_to_pdf env engine excel_data name
                                              (Some options) ;;
                     r <- _send_json_response req (Result result) 200 ;;
                     ret (Some r))
                    (server_error req)
                | _, _ => ret None
                end
              | inl e, _, _, _, _, _ => server_error req e
              | _, inl e, _, _, _, _ => server_error req e
              | _, _, inl e, _, _, _ => server_error req e
              | _, _, _, inl e, _, _ => server_error req e
              | _, _, _, _, inl e, _ => server_error req e
              | _, _, _, _, _, inl e => server_error req e
              end
            end
          end
      end
    end
  else
    r <- not_found req ;; ret (Some r).

End WithHost.

(** ** What a request asks for *)

(** The file name and the options with which [do_POST] calls the engine for
    a document with these items, when they have the types the engine is
    modelled for. *)
Definition request_parameters (fields : list (string * Json))
  : option (string * ConversionOptions) :=
  match default (JDict nil) (lookup_field "options" fields) with
  | JDict opts =>
    match conversion_options
            (default (JStr "F4") (lookup_field "paperSize" opts))
            (default (JStr "Landscape") (lookup_field "orientation" opts))
            (default (JBool true) (lookup_field "fitToPage" opts))
            (default (JInt 300) (lookup_field "dpi" opts))
            (default (JBool true) (lookup_field "centerHorizontally" opts)),
          as_string (default (JStr "document.xlsx")
                             (lookup_field "fileName" fields)) with
    | Some options, Some name => Some (name, options)
    | _, _ => None
    end
  | _ => None
  end.

(** The value of [fileBase64], [None] when the key is absent. *)
Definition file_field (fields : list (string * Json)) : Json :=
  default JNull (lookup_field "fileBase64" fields).

Definition is_dict (v : Json) : bool :=
  match v with JDict _ => true | _ => false end.



(** The world after the handler has logged the request. *)
Definition logged (req : Request) (w : World) : World :=
  log (EPrint ("[HTTP] " +:+ requestline req)) w.

End Server.
(* ===================================================================== *)
(** * Observations: further predicates on runs *)
(* ===================================================================== *)

Module Observations.
Import Engine.

(** The world in which a call of [convert_to_pdf] started from [w] enters
    the block under the semaphore: the clock has been read and the permit
    taken. *)
Definition job_world (env : Env) (w : World) : World :=
  let w0 := log (ETime (env_clock env w)) w in
  log EAcquire (mkWorld (fs w0) (Nat.pred (permits w0)) (trace w0)).

(** The job id that call draws. *)
Definition drawn_job_id (env : Env) (w : World) : string :=
  env_job_id env (job_world env w).

(** No removal of a file fails on this host. *)
Definition removals_succeed (env : Env) : Prop :=
  forall path w, env_io_fault env (Remove path) w = None.

(** ** Paths *)

(** The text has no path separator. *)
Definition no_slash (s : string) : Prop := ascii_in "/" s = false.

(** A directory path as [tempfile.mkdtemp] returns it: not empty and not
    ending in a separator. *)
Definition plain_directory (d : string) : Prop :=
  exists front last, d = front +:+ String last EmptyString /\ last <> "/"%char.

(** ** Which converter a run uses *)

Definition no_subprocess (e : Event) : Prop :=
  forall cmd timeout outcome, e <> ERun cmd timeout outcome.

Definition no_automation (e : Event) : Prop :=
  forall c ok, e <> ECom c ok.

(** The converter that the import of [win32com] did not select stays
    unused. *)
Definition other_converter_unused (env : Env) (e : Event) : Prop :=
  if HAS_WIN32COM env then no_subprocess e else no_automation e.

(** ** How a run ends *)

(** [m] comes back with a value, and the last thing it did satisfies [P]. *)
Definition finishes_with {A} (P : Event -> Prop) (m : M A) : Prop :=
  forall w, exists a w' e rest,
    m w = (Ret a, w') /\ trace w' = e :: rest /\ P e.

Definition quit_call (e : Event) : Prop := exists ok, e = ECom AppQuit ok.

Definition init_message : string := "[ExcelMirror] Initializing Excel COM...".

(** ** The strict converter *)

(** What the strict converter asks of the page setup: never a paper size,
    always landscape, one page wide and any number of pages tall. *)
Definition strict_layout (e : Event) : Prop :=
  (forall s v ok, e <> ECom (PageSetupSet s PaperSize v) ok)
  /\ (forall s v ok,
        e = ECom (PageSetupSet s Orientation v) ok -> v = VInt xlLandscape)
  /\ (forall s v ok,
        e = ECom (PageSetupSet s FitToPagesWide v) ok -> v = VInt 1)
  /\ (forall s v ok,
        e = ECom (PageSetupSet s FitToPagesTall v) ok -> v = VBool false).

(** The calls whose failure the strict converter passes over: those of the
    print-area block, which has its own [try] / [except: pass], and the
    [CoUninitialize] of the [finally] block. *)
Definition passed_over (c : ComCall) : bool :=
  match c with
  | UsedRangeAddress _ | SheetPageSetup _ | PageSetupSet _ PrintArea _
  | CoUninitialize => true
  | _ => false
  end.

(** No automation call failed, those passed over apart. *)
Definition no_hard_failure (e : Event) : Prop :=
  forall c, e = ECom c false -> passed_over c = true.

(** When [m] returns [True], the events it added satisfy [S]. *)
Definition when_true (S : Event -> Prop) (m : M bool) : Prop :=
  forall w w', m w = (Ret true, w') ->
    exists evs, trace w' = evs ++ trace w /\ Forall S evs.

(** The trace after [m] is the trace before it, grown. *)
Definition grows {A} (m : M A) : Prop :=
  forall w, exists evs, trace (snd (m w)) = evs ++ trace w.

Definition grown (w w' : World) : Prop :=
  exists evs, trace w' = evs ++ trace w.

(** ** The Linux screen-render script *)


(** Where the script looks for the PDF that LibreOffice wrote. *)
Definition generated_pdf (temp_dir input_path : string) : string :=
  os_path_join temp_dir
    (fst (os_path_splitext (os_path_basename input_path)) +:+ ".pdf").

Definition pdfinfo_cmd (temp_dir input_path : string) : list string :=
  "pdfinfo" :: generated_pdf temp_dir input_path :: nil.

(** A host on which no file operation fails, the temporary directory is
    [temp_dir], and LibreOffice converts [input_path] within the timeout of
    180 seconds, leaving [pdf] in the temporary directory. *)
Definition converter_delivers (env : Env) (temp_dir input_path : string)
    (pdf : bytes) : Prop :=
  (forall op w, env_io_fault env op w = None)
  /\ (forall w, env_mkdtemp env "excel_screen_" w = temp_dir)
  /\ exists seconds,
       Qle_bool seconds 180 = true
       /\ forall w,
            env_proc env (libreoffice_cmd temp_dir input_path) w
            = ProcRuns (Some seconds)
                       ((generated_pdf temp_dir input_path, pdf) :: nil).

(** [m] started from [w] never comes back. *)
Definition hangs {A} (m : M A) (w : World) : Prop := fst (m w) = Hang.

(** ** Files *)

(** No file operation fails on this host. *)
Definition no_io_fault (env : Env) : Prop :=
  forall op w, env_io_fault env op w = None.

(** The contents of those of [paths] that exist, in the order of [paths]. *)
Definition existing_contents (files : gmap string bytes) (paths : list string)
  : list bytes :=
  omap (fun path => files !! path) paths.

End Observations.
(* ===================================================================== *)
(** * Hosts: further concrete environments *)
(* ===================================================================== *)

Module Hosts.
Import Engine Scenarios.

Definition is_libreoffice (cmd : list string) : bool :=
  String.eqb (hd EmptyString cmd) "libreoffice".

(** A Linux host: LibreOffice converts [report.xlsx] in five seconds into
    the temporary directory of the script; every other program behaves as
    [other]. *)
Definition linux_host (other : ProcBehaviour) : Env :=
  host false no_excel (fun _ _ => None)
       (fun cmd _ =>
          if is_libreoffice cmd
          then ProcRuns (Some 5%Q)
                 (("/tmp/excel_screen_q7/report.pdf", sample_pdf) :: nil)
          else other).

(** [pdfinfo] is not installed. *)
Definition env_without_pdfinfo : Env := linux_host ProcMissing.

(** [pdfinfo] starts and never exits. *)
Definition env_pdfinfo_stuck : Env := linux_host (ProcRuns None nil).

End Hosts.
(* ===================================================================== *)
(** * Properties of the geometry calculations *)
(* ===================================================================== *)

Module GeometryProofs.
Import Geometry.

#[local] Open Scope Q_scope.

Lemma py_div_pos (a b : Q) : 0 < b -> py_div a b = Some (a / b).
Proof.
  intros Hb. unfold py_div.
  destruct (Qeq_bool b 0) eqn:E; [|reflexivity].
  apply Qeq_bool_eq in E. rewrite E in Hb. exfalso. revert Hb. apply Qlt_irrefl.
Qed.

Lemma py_div_zero (a b : Q) : b == 0 -> py_div a b = None.
Proof.
  intros Hb. unfold py_div.
  destruct (Qeq_bool b 0) eqn:E; [reflexivity|].
  apply Qeq_bool_neq in E. contradiction.
Qed.

Lemma py_min_Qmin (a b : Q) : py_min a b == Qmin a b.
Proof.
  unfold py_min. destruct (Qlt_le_dec b a) as [H|H].
  - symmetry. apply Q.min_r. apply Qlt_le_weak. exact H.
  - symmetry. apply Q.min_l. exact H.
Qed.

(** The clamp [if r > 1: r = 1] is [min 1 r]. *)
Lemma clamp_Qmin (r : Q) : (if py_gt r 1 then 1 else r) == Qmin 1 r.
Proof.
  unfold py_gt. destruct (Qlt_le_dec 1 r) as [H|H].
  - symmetry. apply Q.min_l. apply Qlt_le_weak. exact H.
  - symmetry. apply Q.min_r. exact H.
Qed.

Lemma clamped_min (x y : Q) :
  (if py_gt (py_min x y) 1 then 1 else py_min x y) == Qmin 1 (Qmin x y).
Proof.
  rewrite clamp_Qmin. rewrite py_min_Qmin. reflexivity.
Qed.

Lemma Qmin_pos (x y : Q) : 0 < x -> 0 < y -> 0 < Qmin x y.
Proof.
  intros Hx Hy. apply Q.min_glb_lt; assumption.
Qed.

Lemma Qdiv_pos (a b : Q) : 0 < a -> 0 < b -> 0 < a / b.
Proof.
  intros Ha Hb. unfold Qdiv. apply Qmult_lt_0_compat; [exact Ha|].
  apply Qinv_lt_0_compat. exact Hb.
Qed.

Lemma script_available_width_pos :
  0 < F4_WIDTH_PTS - 2 * (MARGIN_CM * PTS_PER_CM).
Proof. reflexivity. Qed.

Lemma script_available_height_pos :
  0 < F4_HEIGHT_PTS - 2 * (MARGIN_CM * PTS_PER_CM).
Proof. reflexivity. Qed.

Lemma rl_available_width_pos :
  0 < F4_WIDTH_CM * rl_cm - 2 * (MARGIN_CM * rl_cm).
Proof. reflexivity. Qed.

Lemma rl_available_height_pos :
  0 < F4_HEIGHT_CM * rl_cm - 2 * (MARGIN_CM * rl_cm).
Proof. reflexivity. Qed.

(** [scale_image_to_fit] computes the clamped minimum of the two ratios. *)
Lemma scale_image_to_fit_ratio_spec (pic : Picture) :
  0 < Width pic -> 0 < Height pic ->
  exists s, scale_image_to_fit_ratio pic = Some s
    /\ s == fit_scale F4_WIDTH_PTS F4_HEIGHT_PTS (MARGIN_CM * PTS_PER_CM)
                      (Width pic) (Height pic)
    /\ 0 < s /\ s <= 1.
Proof.
  intros Hw Hh. unfold scale_image_to_fit_ratio.
  rewrite (py_div_pos _ _ Hw), (py_div_pos _ _ Hh).
  eexists. split; [reflexivity|].
  assert (E := clamped_min
    ((F4_WIDTH_PTS - 2 * (MARGIN_CM * PTS_PER_CM)) / Width pic)
    ((F4_HEIGHT_PTS - 2 * (MARGIN_CM * PTS_PER_CM)) / Height pic)).
  split; [exact E|]. rewrite E. split.
  - apply Qmin_pos; [reflexivity|]. apply Qmin_pos; apply Qdiv_pos;
      auto using script_available_width_pos, script_available_height_pos.
  - apply Q.le_min_l.
Qed.

(** [create_f4_pdf_from_images] does the same for every image it places. *)
Lemma f4_image_scale_spec (img_width img_height : Z) :
  (0 < img_width)%Z -> (0 < img_height)%Z ->
  exists s, f4_image_scale img_width img_height = Some s
    /\ s == fit_scale (F4_WIDTH_CM * rl_cm) (F4_HEIGHT_CM * rl_cm)
                      (MARGIN_CM * rl_cm)
                      (inject_Z img_width) (inject_Z img_height)
    /\ 0 < s /\ s <= 1.
Proof.
  intros Hw Hh.
  assert (Hw' : 0 < inject_Z img_width)
    by (change 0 with (inject_Z 0); rewrite <- Zlt_Qlt; exact Hw).
  assert (Hh' : 0 < inject_Z img_height)
    by (change 0 with (inject_Z 0); rewrite <- Zlt_Qlt; exact Hh).
  unfold f4_image_scale.
  rewrite (py_div_pos _ _ Hw'), (py_div_pos _ _ Hh').
  eexists. split; [reflexivity|].
  assert (E := clamped_min
    ((F4_WIDTH_CM * rl_cm - 2 * (MARGIN_CM * rl_cm)) / inject_Z img_width)
    ((F4_HEIGHT_CM * rl_cm - 2 * (MARGIN_CM * rl_cm)) / inject_Z img_height)).
  split; [exact E|]. rewrite E. split.
  - apply Qmin_pos; [reflexivity|]. apply Qmin_pos; apply Qdiv_pos;
      auto using rl_available_width_pos, rl_available_height_pos.
  - apply Q.le_min_l.
Qed.

(** The capture path scales to the page width alone. *)
Lemma screen_image_scale_spec (img_width : Z) :
  (0 < img_width)%Z ->
  screen_image_scale img_width
  = Some (fst (landscape A4) / inject_Z img_width).
Proof.
  intros Hw. unfold screen_image_scale. apply py_div_pos.
  change 0 with (inject_Z 0). rewrite <- Zlt_Qlt. exact Hw.
Qed.

(** C2, as the code has it.  For a source of positive width and height, the
    two fixed-page calculations ([scale_image_to_fit] and
    [create_f4_pdf_from_images]) compute
    [min(availableWidth / sourceWidth, availableHeight / sourceHeight)] with
    the available size the page size minus twice the margin, clamped to at
    most 1, so they never upscale; the flexible-height capture path
    ([create_pdf_from_images]) scales by [pageWidth / imageWidth] alone. *)
Theorem C2_fixed_page_paths_shrink_to_fit
    (pic : Picture) (img_width img_height : Z) :
  0 < Width pic -> 0 < Height pic ->
  (0 < img_width)%Z -> (0 < img_height)%Z ->
  (exists s, scale_image_to_fit_ratio pic = Some s
     /\ s == fit_scale F4_WIDTH_PTS F4_HEIGHT_PTS (MARGIN_CM * PTS_PER_CM)
                       (Width pic) (Height pic)
     /\ 0 < s /\ s <= 1)
  /\ (exists s, f4_image_scale img_width img_height = Some s
     /\ s == fit_scale (F4_WIDTH_CM * rl_cm) (F4_HEIGHT_CM * rl_cm)
                       (MARGIN_CM * rl_cm)
                       (inject_Z img_width) (inject_Z img_height)
     /\ 0 < s /\ s <= 1)
  /\ screen_image_scale img_width
     = Some (fst (landscape A4) / inject_Z img_width).
Proof.
  intros Hw Hh Hiw Hih. split; [|split].
  - apply scale_image_to_fit_ratio_spec; assumption.
  - apply f4_image_scale_spec; assumption.
  - apply screen_image_scale_spec; assumption.
Qed.

Lemma C2_fixed_page_paths_shrink_to_fit_witness :
  (exists s, scale_image_to_fit_ratio (mkPicture 2000 1000) = Some s
     /\ s == fit_scale F4_WIDTH_PTS F4_HEIGHT_PTS (MARGIN_CM * PTS_PER_CM)
                       2000 1000
     /\ 0 < s /\ s <= 1)
  /\ (exists s, f4_image_scale 4000 3000 = Some s
     /\ s == fit_scale (F4_WIDTH_CM * rl_cm) (F4_HEIGHT_CM * rl_cm)
                       (MARGIN_CM * rl_cm) (inject_Z 4000) (inject_Z 3000)
     /\ 0 < s /\ s <= 1)
  /\ screen_image_scale 4000 = Some (fst (landscape A4) / inject_Z 4000).
Proof.
  apply (C2_fixed_page_paths_shrink_to_fit (mkPicture 2000 1000) 4000 3000);
    reflexivity.
Defined.

(** C2 does not extend to the capture path: an image 100 pixels wide is
    scaled by more than 8, which no clamped ratio equals, and is drawn wider
    than it is. *)
Lemma C2_capture_path_upscales :
  exists s p,
    screen_image_scale 100 = Some s
    /\ 1 < s
    /\ (forall page_height margin,
          ~ s == fit_scale (fst (landscape A4)) page_height margin 100 100)
    /\ screen_place_image (100%Z, 100%Z) = Some p
    /\ inject_Z 100 < draw_w p.
Proof.
  eexists. eexists. split; [reflexivity|]. split; [reflexivity|].
  split; [|split; [reflexivity|reflexivity]].
  intros page_height margin E.
  assert (Hle : fit_scale (fst (landscape A4)) page_height margin 100 100 <= 1)
    by (unfold fit_scale; apply Q.le_min_l).
  rewrite <- E in Hle. revert Hle. apply Qlt_not_le. reflexivity.
Qed.

End GeometryProofs.

(* ===================================================================== *)
(** * Properties of the bounding region *)
(* ===================================================================== *)

Module UsedRangeProofs.
Import UsedRange.

(** What the loop over the shapes computes, from any starting bounds. *)
Lemma fold_expand_shape (shapes : list Shape) :
  forall a0 b0 c0 d0 a b c d,
  fold_left expand_shape shapes (a0, b0, c0, d0) = (a, b, c, d) ->
  (a <= a0 /\ (forall s, In s shapes -> a <= Row (TopLeftCell s))
     /\ (a = a0 \/ exists s, In s shapes /\ a = Row (TopLeftCell s)))
  /\ (b <= b0 /\ (forall s, In s shapes -> b <= Column (TopLeftCell s))
     /\ (b = b0 \/ exists s, In s shapes /\ b = Column (TopLeftCell s)))
  /\ (c0 <= c /\ (forall s, In s shapes -> Row (BottomRightCell s) <= c)
     /\ (c = c0 \/ exists s, In s shapes /\ c = Row (BottomRightCell s)))
  /\ (d0 <= d /\ (forall s, In s shapes -> Column (BottomRightCell s) <= d)
     /\ (d = d0 \/ exists s, In s shapes /\ d = Column (BottomRightCell s))).
Proof.
  induction shapes as [|s shapes IH]; intros a0 b0 c0 d0 a b c d H.
  - simpl in H. inversion H; subst.
    repeat split; try lia; try (intros ? []); left; reflexivity.
  - simpl in H. apply IH in H.
    destruct H as ((Ha1 & Ha2 & Ha3) & (Hb1 & Hb2 & Hb3)
                   & (Hc1 & Hc2 & Hc3) & (Hd1 & Hd2 & Hd3)).
    repeat split.
    + lia.
    + intros s' [<-|Hin]; [lia | auto].
    + destruct Ha3 as [->|(s' & Hin & ->)].
      * destruct (Z.min_spec a0 (Row (TopLeftCell s))) as [[_ ->]|[_ ->]];
          [left; reflexivity | right; exists s; simpl; auto].
      * right; exists s'; simpl; auto.
    + lia.
    + intros s' [<-|Hin]; [lia | auto].
    + destruct Hb3 as [->|(s' & Hin & ->)].
      * destruct (Z.min_spec b0 (Column (TopLeftCell s))) as [[_ ->]|[_ ->]];
          [left; reflexivity | right; exists s; simpl; auto].
      * right; exists s'; simpl; auto.
    + lia.
    + intros s' [<-|Hin]; [lia | auto].
    + destruct Hc3 as [->|(s' & Hin & ->)].
      * destruct (Z.max_spec c0 (Row (BottomRightCell s))) as [[_ ->]|[_ ->]];
          [right; exists s; simpl; auto | left; reflexivity].
      * right; exists s'; simpl; auto.
    + lia.
    + intros s' [<-|Hin]; [lia | auto].
    + destruct Hd3 as [->|(s' & Hin & ->)].
      * destruct (Z.max_spec d0 (Column (BottomRightCell s))) as [[_ ->]|[_ ->]];
          [right; exists s; simpl; auto | left; reflexivity].
      * right; exists s'; simpl; auto.
Qed.

Lemma shape_cells_in (ws : Worksheet) (s : Shape) :
  In s (Shapes ws) ->
  In (TopLeftCell s) (content_cells ws)
  /\ In (BottomRightCell s) (content_cells ws).
Proof.
  intros Hin. unfold content_cells. split; apply in_or_app; right;
    apply in_flat_map; exists s; simpl; auto.
Qed.

(** A sheet with neither a used range nor a shape has no region. *)
Lemma no_content_no_region (ws : Worksheet) :
  content_cells ws = nil -> get_used_range_with_shapes ws = None.
Proof.
  intros H. unfold content_cells in H.
  apply app_eq_nil in H. destruct H as [Hu Hs].
  destruct (UsedRange ws) as [used|] eqn:Eu; [discriminate|].
  destruct (Shapes ws) as [|s l] eqn:Es; [|discriminate].
  unfold get_used_range_with_shapes, used_bounds. rewrite Eu, Es. reflexivity.
Qed.

(** Such a sheet contributes nothing to the fitted pages. *)
Lemma empty_sheet_skipped (ws : Worksheet) (rest : list Worksheet) :
  content_cells ws = nil ->
  fitted_regions (ws :: rest) = fitted_regions rest.
Proof.
  intros H. unfold fitted_regions. simpl.
  rewrite (no_content_no_region ws H). destruct (Visible ws); reflexivity.
Qed.

(** While every content cell lies in rows and columns 1..1000000, the result
    is the least rectangle around the used range and the shape anchors. *)
Lemma region_minimal_below_sentinel (ws : Worksheet) :
  well_formed ws ->
  content_cells ws <> nil ->
  (forall c, In c (content_cells ws) -> Row c <= 1000000) ->
  exists r, get_used_range_with_shapes ws = Some r /\ minimal_region r ws.
Proof.
  intros (Hgrid & Hused & Hshape) Hne Hrow.
  assert (Hcol : forall c, In c (content_cells ws) -> Column c <= 1000000).
  { intros c Hc. destruct (Hgrid c Hc) as [_ Hc']. unfold MAX_COLUMNS in Hc'. lia. }
  assert (Hlo : forall c, In c (content_cells ws) -> 1 <= Row c /\ 1 <= Column c).
  { intros c Hc. destruct (Hgrid c Hc) as [? ?]. lia. }
  unfold get_used_range_with_shapes.
  destruct (used_bounds ws) as [[[a b] c] d] eqn:E.
  unfold used_bounds in E.
  (* the bounds cover the content and each is the coordinate of some cell *)
  assert (Hcov : forall x, In x (content_cells ws) ->
            a <= Row x <= c /\ b <= Column x <= d).
  { destruct (UsedRange ws) as [used|] eqn:Eu.
    - simpl in E. apply fold_expand_shape in E.
      destruct E as ((Ha1 & Ha2 & _) & (Hb1 & Hb2 & _)
                     & (Hc1 & Hc2 & _) & (Hd1 & Hd2 & _)).
      destruct (Hused used eq_refl) as [Hr Hc].
      intros x Hx. unfold content_cells in Hx. rewrite Eu in Hx.
      simpl in Hx. destruct Hx as [<-|[<-|Hx]]; simpl; try lia.
      apply in_flat_map in Hx. destruct Hx as (s & Hs & Hx).
      specialize (Ha2 s Hs); specialize (Hb2 s Hs);
      specialize (Hc2 s Hs); specialize (Hd2 s Hs).
      destruct (Hshape s Hs) as [? ?].
      simpl in Hx. destruct Hx as [<-|[<-|[]]]; lia.
    - apply fold_expand_shape in E.
      destruct E as ((Ha1 & Ha2 & _) & (Hb1 & Hb2 & _)
                     & (Hc1 & Hc2 & _) & (Hd1 & Hd2 & _)).
      intros x Hx. unfold content_cells in Hx. rewrite Eu in Hx.
      simpl in Hx.
      apply in_flat_map in Hx. destruct Hx as (s & Hs & Hx).
      specialize (Ha2 s Hs); specialize (Hb2 s Hs);
      specialize (Hc2 s Hs); specialize (Hd2 s Hs).
      destruct (Hshape s Hs) as [? ?].
      simpl in Hx. destruct Hx as [<-|[<-|[]]]; lia. }
  assert (Hatt : (a = 1000000 \/ exists x, In x (content_cells ws) /\ a = Row x)
              /\ (b = 1000000 \/ exists x, In x (content_cells ws) /\ b = Column x)
              /\ (c = 1 \/ exists x, In x (content_cells ws) /\ c = Row x)
              /\ (d = 1 \/ exists x, In x (content_cells ws) /\ d = Column x)).
  { destruct (UsedRange ws) as [used|] eqn:Eu.
    - simpl in E. apply fold_expand_shape in E.
      destruct E as ((_ & _ & Ha3) & (_ & _ & Hb3)
                     & (_ & _ & Hc3) & (_ & _ & Hd3)).
      assert (H1 : In (mkCell (RangeRow used) (RangeColumn used)) (content_cells ws))
        by (unfold content_cells; rewrite Eu; simpl; auto).
      assert (H2 : In (mkCell (RangeRow used + RowsCount used - 1)
                              (RangeColumn used + ColumnsCount used - 1))
                      (content_cells ws))
        by (unfold content_cells; rewrite Eu; simpl; auto).
      repeat split.
      + destruct Ha3 as [->|(s & Hs & ->)].
        * destruct (Z.min_spec 1000000 (RangeRow used)) as [[_ ->]|[_ ->]];
            [left; reflexivity | right; eexists; split; [exact H1|reflexivity]].
        * right. exists (TopLeftCell s). split; [apply shape_cells_in, Hs | reflexivity].
      + destruct Hb3 as [->|(s & Hs & ->)].
        * destruct (Z.min_spec 1000000 (RangeColumn used)) as [[_ ->]|[_ ->]];
            [left; reflexivity | right; eexists; split; [exact H1|reflexivity]].
        * right. exists (TopLeftCell s). split; [apply shape_cells_in, Hs | reflexivity].
      + destruct Hc3 as [->|(s & Hs & ->)].
        * destruct (Z.max_spec 1 (RangeRow used + RowsCount used - 1)) as [[_ ->]|[_ ->]];
            [right; eexists; split; [exact H2|reflexivity] | left; reflexivity].
        * right. exists (BottomRightCell s). split; [apply shape_cells_in, Hs | reflexivity].
      + destruct Hd3 as [->|(s & Hs & ->)].
        * destruct (Z.max_spec 1 (RangeColumn used + ColumnsCount used - 1)) as [[_ ->]|[_ ->]];
            [right; eexists; split; [exact H2|reflexivity] | left; reflexivity].
        * right. exists (BottomRightCell s). split; [apply shape_cells_in, Hs | reflexivity].
    - apply fold_expand_shape in E.
      destruct E as ((_ & _ & Ha3) & (_ & _ & Hb3)
                     & (_ & _ & Hc3) & (_ & _ & Hd3)).
      repeat split.
      + destruct Ha3 as [->|(s & Hs & ->)]; [left; reflexivity|].
        right. exists (TopLeftCell s). split; [apply shape_cells_in, Hs | reflexivity].
      + destruct Hb3 as [->|(s & Hs & ->)]; [left; reflexivity|].
        right. exists (TopLeftCell s). split; [apply shape_cells_in, Hs | reflexivity].
      + destruct Hc3 as [->|(s & Hs & ->)]; [left; reflexivity|].
        right. exists (BottomRightCell s). split; [apply shape_cells_in, Hs | reflexivity].
      + destruct Hd3 as [->|(s & Hs & ->)]; [left; reflexivity|].
        right. exists (BottomRightCell s). split; [apply shape_cells_in, Hs | reflexivity]. }
  clear E.
  (* some content cell exists; with the bounds on the grid, every bound is
     the coordinate of a content cell *)
  destruct (content_cells ws) as [|x0 xs] eqn:Ecells; [congruence|].
  assert (Hx0 : In x0 (x0 :: xs)) by (simpl; auto).
  destruct Hatt as (Ha & Hb & Hc & Hd).
  assert (Ha' : exists x, In x (x0 :: xs) /\ a = Row x).
  { destruct Ha as [->|?]; [|assumption]. exists x0. split; [assumption|].
    specialize (Hcov x0 Hx0). specialize (Hrow x0 Hx0). lia. }
  assert (Hb' : exists x, In x (x0 :: xs) /\ b = Column x).
  { destruct Hb as [->|?]; [|assumption]. exists x0. split; [assumption|].
    specialize (Hcov x0 Hx0). specialize (Hcol x0 Hx0). lia. }
  assert (Hc' : exists x, In x (x0 :: xs) /\ c = Row x).
  { destruct Hc as [->|?]; [|assumption]. exists x0. split; [assumption|].
    specialize (Hcov x0 Hx0). destruct (Hlo x0 Hx0). lia. }
  assert (Hd' : exists x, In x (x0 :: xs) /\ d = Column x).
  { destruct Hd as [->|?]; [|assumption]. exists x0. split; [assumption|].
    specialize (Hcov x0 Hx0). destruct (Hlo x0 Hx0). lia. }
  assert (Hge : (c >=? a) && (d >=? b) = true).
  { specialize (Hcov x0 Hx0). apply andb_true_intro. split; apply Z.geb_le; lia. }
  rewrite Hge. eexists. split; [reflexivity|].
  unfold minimal_region, covers. rewrite Ecells.
  split.
  - intros x Hx. unfold inside. simpl. apply Hcov. exact Hx.
  - intros r' Hr'. unfold covers in Hr'.
    destruct Ha' as (xa & Hxa & ->). destruct Hb' as (xb & Hxb & ->).
    destruct Hc' as (xc & Hxc & ->). destruct Hd' as (xd & Hxd & ->).
    pose proof (Hr' xa Hxa) as [? ?]. pose proof (Hr' xb Hxb) as [? ?].
    pose proof (Hr' xc Hxc) as [? ?]. pose proof (Hr' xd Hxd) as [? ?].
    unfold inside. simpl. repeat split; lia.
Qed.

(** A shape anchored outside the used range widens the region. *)
Example shape_outside_used_range_expands :
  get_used_range_with_shapes
    (mkWorksheet true (Some (mkRange 1 1 10 5))
                 (mkShape (mkCell 12 7) (mkCell 15 9) :: nil))
  = Some (mkCell 1 1, mkCell 15 9).
Proof. reflexivity. Qed.

Lemma deep_sheet_well_formed : well_formed deep_sheet.
Proof.
  unfold well_formed, deep_sheet, cell_on_grid, MAX_ROWS, MAX_COLUMNS. simpl.
  split; [|split].
  - intros c [<-|[<-|[]]]; simpl; lia.
  - intros used E. inversion E; subst; simpl. lia.
  - intros s [].
Qed.

(** C4.  The region is meant to be the least rectangle around the used range
    and the shape anchors.  For a sheet whose only used cell is A1000500 the
    code returns rows 1000000 to 1000500: the starting value of [min_row],
    1000000, lies inside the grid of 1048576 rows and wins the minimum. *)
Theorem C4_region_not_minimal_past_row_1000000 :
  well_formed deep_sheet
  /\ get_used_range_with_shapes deep_sheet
     = Some (mkCell 1000000 1, mkCell 1000500 1)
  /\ ~ minimal_region (mkCell 1000000 1, mkCell 1000500 1) deep_sheet
  /\ minimal_region (mkCell 1000500 1, mkCell 1000500 1) deep_sheet.
Proof.
  split; [exact deep_sheet_well_formed|].
  split; [reflexivity|]. split.
  - intros [_ Hmin].
    assert (Hc : covers (mkCell 1000500 1, mkCell 1000500 1) deep_sheet).
    { intros c Hc. simpl in Hc. destruct Hc as [<-|[<-|[]]];
        unfold inside; simpl; lia. }
    destruct (Hmin _ Hc) as [[Hrow _] _]. simpl in Hrow. lia.
  - split.
    + intros c Hc. simpl in Hc. destruct Hc as [<-|[<-|[]]];
        unfold inside; simpl; lia.
    + intros r' Hr'.
      assert (Hin : In (mkCell 1000500 1) (content_cells deep_sheet))
        by (simpl; auto).
      specialize (Hr' _ Hin). unfold inside in *. simpl in *. lia.
Qed.

End UsedRangeProofs.

(* ===================================================================== *)
(** * Properties of the engine *)
(* ===================================================================== *)

Module EngineProofs.
Import Engine Judgements.

#[local] Open Scope eng_scope.

(** ** The string and byte helpers on concrete inputs *)

Example safe_name_example :
  string_map safe_char "Q3 plan (final).xlsx" = "Q3_plan__final_.xlsx".
Proof. reflexivity. Qed.

Example splitext_example :
  os_path_splitext "20240101_ab_report.v2.xlsx"
  = ("20240101_ab_report.v2", ".xlsx").
Proof. reflexivity. Qed.

Example dirname_basename_example :
  os_path_dirname "/tmp/excel_mirror_k3/j_output.pdf" = "/tmp/excel_mirror_k3"
  /\ os_path_basename "/tmp/excel_mirror_k3/j_output.pdf" = "j_output.pdf".
Proof. split; reflexivity. Qed.

(** [b'/Type /Pages /Type /Page /Type /Page'.count(b'/Type /Page')] is 3:
    the marker also matches the page-tree object. *)
Example bytes_count_example :
  bytes_count (bytes_literal "/Type /Pages /Type /Page /Type /Page") page_marker
  = 3.
Proof. reflexivity. Qed.

Example upper_example : upper "Letter" = "LETTER".
Proof. reflexivity. Qed.

Example py_int_example : py_int (-(7 # 2)) = -3.
Proof. reflexivity. Qed.

Lemma closed_Forall (S : Event -> Prop) : closed (Forall S).
Proof.
  split; [constructor|]. intros older newer Ho Hn.
  apply Forall_app. split; assumption.
Qed.

Lemma preorder_extends (P : list Event -> Prop) :
  closed P -> preorder (extends P).
Proof.
  intros HP. split.
  - intros w. exists nil. split; [reflexivity | apply HP].
  - intros w1 w2 w3 (e1 & E1 & P1) (e2 & E2 & P2).
    exists (e2 ++ e1). rewrite E2, E1, app_assoc. split; [reflexivity|].
    apply HP; assumption.
Qed.

Lemma preorder_same_permits : preorder same_permits.
Proof. split; unfold same_permits; intros; congruence. Qed.

Lemma preorder_same_files : preorder same_files.
Proof. split; unfold same_files; intros; congruence. Qed.

Section Combinators.

Context {A B : Type}.
Variable R : World -> World -> Prop.
Hypothesis HR : preorder R.

Lemma steps_ret (a : A) : steps R (ret a).
Proof. intros w. apply HR. Qed.

Lemma steps_raise (e : exn) : steps R (@raise A e).
Proof. intros w. apply HR. Qed.

Lemma steps_bind (m : M A) (k : A -> M B) :
  steps R m -> (forall a, steps R (k a)) -> steps R (bind m k).
Proof.
  intros Hm Hk w. unfold bind. specialize (Hm w).
  destruct (m w) as [[a|e|] w1]; simpl in *; try exact Hm.
  eapply pre_trans; [exact HR | exact Hm | apply Hk].
Qed.

Lemma steps_try_except (m : M A) (h : exn -> M A) :
  steps R m -> (forall e, steps R (h e)) -> steps R (try_except m h).
Proof.
  intros Hm Hh w. unfold try_except. specialize (Hm w).
  destruct (m w) as [[a|e|] w1]; simpl in *; try exact Hm.
  eapply pre_trans; [exact HR | exact Hm | apply Hh].
Qed.

Lemma steps_try_finally (m : M A) (fin : M unit) :
  steps R m -> steps R fin -> steps R (try_finally m fin).
Proof.
  intros Hm Hf w. unfold try_finally. specialize (Hm w).
  destruct (m w) as [[a|e|] w1]; simpl in *; try exact Hm;
    specialize (Hf w1); destruct (fin w1) as [[[]|e'|] w2]; simpl in *;
    (eapply pre_trans; [exact HR | exact Hm | exact Hf]).
Qed.

Lemma steps_catch (m : M A) : steps R m -> steps R (catch m).
Proof.
  intros Hm w. unfold catch, try_except, bind, ret. specialize (Hm w).
  destruct (m w) as [[a|e|] w1]; simpl in *; exact Hm.
Qed.

Lemma steps_for_each (xs : list A) (body : A -> M unit) :
  (forall x, steps R (body x)) -> steps R (for_each xs body).
Proof.
  intros Hb. induction xs as [|x xs IH]; simpl.
  - intros w. apply HR.
  - intros w. unfold bind. specialize (Hb x w).
    destruct (body x w) as [[a|e|] w1]; simpl in *; try exact Hb.
    eapply pre_trans; [exact HR | exact Hb | apply IH].
Qed.

End Combinators.

Lemma steps_try_pass (R : World -> World -> Prop) (HR : preorder R)
    (m : M unit) :
  steps R m -> steps R (try_pass m).
Proof.
  intros Hm. unfold try_pass. apply steps_try_except; [exact HR | exact Hm |].
  intros e. apply steps_ret. exact HR.
Qed.

Section Returns.

Context {A B : Type}.

Lemma returns_ret (a : A) : returns (ret a).
Proof. intros w. discriminate. Qed.

Lemma returns_bind (m : M A) (k : A -> M B) :
  returns m -> (forall a, returns (k a)) -> returns (bind m k).
Proof.
  intros Hm Hk w. unfold bind. specialize (Hm w).
  destruct (m w) as [[a|e|] w1]; simpl in *;
    [apply Hk | discriminate | contradiction].
Qed.

Lemma returns_try_except (m : M A) (h : exn -> M A) :
  returns m -> (forall e, returns (h e)) -> returns (try_except m h).
Proof.
  intros Hm Hh w. unfold try_except. specialize (Hm w).
  destruct (m w) as [[a|e|] w1]; simpl in *;
    [discriminate | apply Hh | contradiction].
Qed.

Lemma returns_try_finally (m : M A) (fin : M unit) :
  returns m -> returns fin -> returns (try_finally m fin).
Proof.
  intros Hm Hf w. unfold try_finally. specialize (Hm w).
  destruct (m w) as [[a|e|] w1]; simpl in *; try contradiction;
    specialize (Hf w1); destruct (fin w1) as [[[]|e'|] w2]; simpl in *;
    try discriminate; contradiction.
Qed.

Lemma returns_catch (m : M A) : returns m -> returns (catch m).
Proof.
  intros Hm w. unfold catch, try_except, bind, ret. specialize (Hm w).
  destruct (m w) as [[a|e|] w1]; simpl in *; try discriminate; contradiction.
Qed.

Lemma returns_for_each (xs : list A) (body : A -> M unit) :
  (forall x, returns (body x)) -> returns (for_each xs body).
Proof.
  intros Hb. induction xs as [|x xs IH]; simpl.
  - intros w. discriminate.
  - intros w. unfold bind. specialize (Hb x w).
    destruct (body x w) as [[a|e|] w1]; simpl in *;
      [apply IH | discriminate | contradiction].
Qed.

(** A [try] whose handlers all come back with a value never raises. *)
Lemma total_try_except (m : M A) (h : exn -> M A) :
  returns m -> (forall e, total (h e)) -> total (try_except m h).
Proof.
  intros Hm Hh w. unfold try_except. specialize (Hm w).
  destruct (m w) as [[a|e|] w1]; simpl in *;
    [eauto | apply Hh | contradiction].
Qed.

Lemma total_ret (a : A) : total (ret a).
Proof. intros w. eexists. reflexivity. Qed.

Lemma total_bind (m : M A) (k : A -> M B) :
  total m -> (forall a, total (k a)) -> total (bind m k).
Proof.
  intros Hm Hk w. unfold bind. destruct (Hm w) as (a & Ha).
  destruct (m w) as [[a'|e|] w1]; simpl in *; try discriminate. apply Hk.
Qed.

Lemma total_try_finally (m : M A) (fin : M unit) :
  total m -> total fin -> total (try_finally m fin).
Proof.
  intros Hm Hf w. unfold try_finally. destruct (Hm w) as (a & Ha).
  destruct (m w) as [[a'|e|] w1]; simpl in *; try discriminate.
  destruct (Hf w1) as (u & Hu).
  destruct (fin w1) as [[[]|e'|] w2]; simpl in *; try discriminate. eauto.
Qed.

End Returns.

Lemma returns_try_pass (m : M unit) : returns m -> returns (try_pass m).
Proof.
  intros Hm. unfold try_pass. apply returns_try_except; [exact Hm|].
  intros e. apply returns_ret.
Qed.

Lemma total_try_pass (m : M unit) : returns m -> total (try_pass m).
Proof.
  intros Hm. unfold try_pass. apply total_try_except; [exact Hm|].
  intros e. apply total_ret.
Qed.

(** ** The external calls *)

Lemma emits_one_event {A} (P : list Event -> Prop) (m : M A)
    (outcomes : Event -> Prop) :
  one_event m outcomes ->
  (forall e, outcomes e -> P (e :: nil)) ->
  emits P m.
Proof.
  intros H1 HP w. destruct (H1 w) as (e & E & He).
  exists (e :: nil). split; [exact E | auto].
Qed.

Ltac crush_call :=
  intros w;
  unfold com_, com, export_as_fixed_format, print, emit, time_time,
    new_job_id, open_write, open_read, path_exists, os_remove, shutil_move,
    shutil_copy, mkdtemp, rmtree_ignore_errors, subprocess_run, bind, ret,
    same_permits, same_files, log, set_fs;
  repeat match goal with
         | |- context [match ?x with _ => _ end] =>
             lazymatch x with
             | context [match _ with _ => _ end] => fail
             | _ => destruct x; simpl
             end
         end;
  simpl;
  first [ reflexivity | discriminate
        | eexists; split; [reflexivity | eauto]
        | eexists; reflexivity ].

Section Primitives.

Variable env : Env.

Lemma one_emit (e : Event) : one_event (emit e) (eq e).
Proof. crush_call. Qed.

Lemma one_print (s : string) : one_event (print s) (eq (EPrint s)).
Proof. crush_call. Qed.

Lemma one_time_time : one_event (time_time env) (fun e => exists t, e = ETime t).
Proof. crush_call. Qed.

Lemma one_new_job_id :
  one_event (new_job_id env) (fun e => exists id, e = EJobId id).
Proof. crush_call. Qed.

Lemma one_open_write (p : string) (d : bytes) :
  one_event (open_write env p d) (fun e => exists ok, e = EFile (OpenWrite p d) ok).
Proof. crush_call. Qed.

Lemma one_open_read (p : string) :
  one_event (open_read env p) (fun e => exists ok, e = EFile (OpenRead p) ok).
Proof. crush_call. Qed.

Lemma one_path_exists (p : string) :
  one_event (path_exists p) (eq (EFile (PathExists p) true)).
Proof. crush_call. Qed.

Lemma one_os_remove (p : string) :
  one_event (os_remove env p) (fun e => exists ok, e = EFile (Remove p) ok).
Proof. crush_call. Qed.

Lemma one_shutil_move (s d : string) :
  one_event (shutil_move env s d) (fun e => exists ok, e = EFile (Move s d) ok).
Proof. crush_call. Qed.

Lemma one_shutil_copy (s d : string) :
  one_event (shutil_copy env s d) (fun e => exists ok, e = EFile (Copy s d) ok).
Proof. crush_call. Qed.

Lemma one_mkdtemp (p : string) :
  one_event (mkdtemp env p) (fun e => exists ok, e = EFile (MkDtemp p) ok).
Proof. crush_call. Qed.

Lemma one_rmtree (p : string) :
  one_event (rmtree_ignore_errors p) (eq (EFile (RmTree p) true)).
Proof. crush_call. Qed.

Lemma one_subprocess_run (cmd : list string) (timeout : option Z) :
  one_event (subprocess_run env cmd timeout)
            (fun e => exists o, e = ERun cmd timeout o).
Proof. crush_call. Qed.

Lemma one_com (c : ComCall) :
  one_event (com env c) (fun e => exists ok, e = ECom c ok).
Proof. crush_call. Qed.

Lemma one_com_ (c : ComCall) :
  one_event (com_ env c) (fun e => exists ok, e = ECom c ok).
Proof. crush_call. Qed.

Lemma one_export (p : string) :
  one_event (export_as_fixed_format env p)
            (fun e => exists ok, e = ECom (ExportAsFixedFormat p) ok).
Proof. crush_call. Qed.

(** None of the calls below touches the semaphore. *)
Lemma permits_emit e : steps same_permits (emit e).
Proof. crush_call. Qed.
Lemma permits_print s : steps same_permits (print s).
Proof. crush_call. Qed.
Lemma permits_time_time : steps same_permits (time_time env).
Proof. crush_call. Qed.
Lemma permits_new_job_id : steps same_permits (new_job_id env).
Proof. crush_call. Qed.
Lemma permits_open_write p d : steps same_permits (open_write env p d).
Proof. crush_call. Qed.
Lemma permits_open_read p : steps same_permits (open_read env p).
Proof. crush_call. Qed.
Lemma permits_path_exists p : steps same_permits (path_exists p).
Proof. crush_call. Qed.
Lemma permits_os_remove p : steps same_permits (os_remove env p).
Proof. crush_call. Qed.
Lemma permits_shutil_move s d : steps same_permits (shutil_move env s d).
Proof. crush_call. Qed.
Lemma permits_shutil_copy s d : steps same_permits (shutil_copy env s d).
Proof. crush_call. Qed.
Lemma permits_mkdtemp p : steps same_permits (mkdtemp env p).
Proof. crush_call. Qed.
Lemma permits_rmtree p : steps same_permits (rmtree_ignore_errors p).
Proof. crush_call. Qed.
Lemma permits_subprocess_run c t : steps same_permits (subprocess_run env c t).
Proof. crush_call. Qed.
Lemma permits_com c : steps same_permits (com env c).
Proof. crush_call. Qed.
Lemma permits_com_ c : steps same_permits (com_ env c).
Proof. crush_call. Qed.
Lemma permits_export p : steps same_permits (export_as_fixed_format env p).
Proof. crush_call. Qed.

(** The calls that leave the files alone. *)
Lemma files_emit e : steps same_files (emit e).
Proof. crush_call. Qed.
Lemma files_print s : steps same_files (print s).
Proof. crush_call. Qed.
Lemma files_time_time : steps same_files (time_time env).
Proof. crush_call. Qed.
Lemma files_new_job_id : steps same_files (new_job_id env).
Proof. crush_call. Qed.
Lemma files_open_read p : steps same_files (open_read env p).
Proof. crush_call. Qed.
Lemma files_path_exists p : steps same_files (path_exists p).
Proof. crush_call. Qed.
Lemma files_com c : steps same_files (com env c).
Proof. crush_call. Qed.
Lemma files_com_ c : steps same_files (com_ env c).
Proof. crush_call. Qed.

(** The calls that always come back. *)
Lemma returns_emit e : returns (emit e).
Proof. crush_call. Qed.
Lemma returns_print s : returns (print s).
Proof. crush_call. Qed.
Lemma returns_time_time : returns (time_time env).
Proof. crush_call. Qed.
Lemma returns_new_job_id : returns (new_job_id env).
Proof. crush_call. Qed.
Lemma returns_open_write p d : returns (open_write env p d).
Proof. crush_call. Qed.
Lemma returns_open_read p : returns (open_read env p).
Proof. crush_call. Qed.
Lemma returns_path_exists p : returns (path_exists p).
Proof. crush_call. Qed.
Lemma returns_os_remove p : returns (os_remove env p).
Proof. crush_call. Qed.
Lemma returns_shutil_move s d : returns (shutil_move env s d).
Proof. crush_call. Qed.
Lemma returns_shutil_copy s d : returns (shutil_copy env s d).
Proof. crush_call. Qed.
Lemma returns_mkdtemp p : returns (mkdtemp env p).
Proof. crush_call. Qed.
Lemma returns_rmtree p : returns (rmtree_ignore_errors p).
Proof. crush_call. Qed.
(** With a timeout, [subprocess.run] comes back however long the process
    would run. *)
Lemma returns_subprocess_run c t : returns (subprocess_run env c (Some t)).
Proof. crush_call. Qed.
Lemma returns_com c : returns (com env c).
Proof. crush_call. Qed.
Lemma returns_com_ c : returns (com_ env c).
Proof. crush_call. Qed.
Lemma returns_export p : returns (export_as_fixed_format env p).
Proof. crush_call. Qed.

Lemma total_emit e : total (emit e).
Proof. crush_call. Qed.
Lemma total_print s : total (print s).
Proof. crush_call. Qed.
Lemma total_time_time : total (time_time env).
Proof. crush_call. Qed.
Lemma total_path_exists p : total (path_exists p).
Proof. crush_call. Qed.
Lemma total_rmtree p : total (rmtree_ignore_errors p).
Proof. crush_call. Qed.

End Primitives.

(** ** Automation: walking through a computation *)

Ltac one_call :=
  first [ apply one_print | apply one_emit | apply one_time_time
        | apply one_new_job_id | apply one_open_write | apply one_open_read
        | apply one_path_exists | apply one_os_remove | apply one_shutil_move
        | apply one_shutil_copy | apply one_mkdtemp | apply one_rmtree
        | apply one_subprocess_run | apply one_com_ | apply one_com
        | apply one_export ].

(** [side] proves [P [e]] for the event [e] of the call at hand. *)
Ltac emits_call side :=
  eapply emits_one_event;
  [ one_call
  | let e := fresh "e" in
    let Hout := fresh "Hout" in
    intros e Hout; cbv beta in Hout;
    lazymatch type of Hout with
    | ex _ => destruct Hout as [? ->]
    | _ => subst e
    end; side ].

Ltac permits_call :=
  first [ apply permits_print | apply permits_emit | apply permits_time_time
        | apply permits_new_job_id | apply permits_open_write
        | apply permits_open_read | apply permits_path_exists
        | apply permits_os_remove | apply permits_shutil_move
        | apply permits_shutil_copy | apply permits_mkdtemp
        | apply permits_rmtree | apply permits_subprocess_run
        | apply permits_com_ | apply permits_com | apply permits_export ].

Ltac files_call :=
  first [ apply files_print | apply files_emit | apply files_time_time
        | apply files_new_job_id | apply files_open_read
        | apply files_path_exists | apply files_com_ | apply files_com ].

Ltac returns_call :=
  first [ apply returns_print | apply returns_emit | apply returns_time_time
        | apply returns_new_job_id | apply returns_open_write
        | apply returns_open_read | apply returns_path_exists
        | apply returns_os_remove | apply returns_shutil_move
        | apply returns_shutil_copy | apply returns_mkdtemp
        | apply returns_rmtree | apply returns_subprocess_run
        | apply returns_com_ | apply returns_com | apply returns_export ].

Ltac run_steps HR call :=
  unfold emits; cbv zeta;
  repeat
    (lazymatch goal with
     | |- steps _ (ret _) => apply (steps_ret _ HR)
     | |- steps _ (try_pass _) => apply (steps_try_pass _ HR)
     | |- steps _ (catch _) => apply steps_catch
     | |- steps _ (for_each _ _) => apply (steps_for_each _ HR); intros ?
     | |- steps _ (bind _ _) =>
         first [ call | apply (steps_bind _ HR); [|intros ?] ]
     | |- steps _ (try_except _ _) => apply (steps_try_except _ HR); [|intros ?]
     | |- steps _ (try_finally _ _) => apply (steps_try_finally _ HR)
     | |- steps _ (if ?c then _ else _) => destruct c
     | |- steps _ (match ?x with _ => _ end) => destruct x
     | |- steps _ _ => call
     end).

Ltac run_returns :=
  cbv zeta;
  repeat
    (lazymatch goal with
     | |- returns (ret _) => apply returns_ret
     | |- returns (try_pass _) => apply returns_try_pass
     | |- returns (catch _) => apply returns_catch
     | |- returns (for_each _ _) => apply returns_for_each; intros ?
     | |- returns (bind _ _) => apply returns_bind; [|intros ?]
     | |- returns (try_except _ _) => apply returns_try_except; [|intros ?]
     | |- returns (try_finally _ _) => apply returns_try_finally
     | |- returns (if ?c then _ else _) => destruct c
     | |- returns (match ?x with _ => _ end) => destruct x
     | |- returns _ => returns_call
     end).

Ltac unfold_engine :=
  unfold convert_job, _convert_with_com, _simulate_conversion,
    _get_pdf_page_count, _cleanup_files, _force_gc, com_cleanup,
    com_error_handler, _configure_page_setup.

(** ** The block under the semaphore *)

Section Job.

Variable env : Env.
Variables (self : ExcelMirrorEngine) (excel_data : bytes) (file_name : string).
Variables (options : ConversionOptions) (start_time : Q).

Lemma convert_job_no_gate :
  emits (Forall not_gate)
        (convert_job env self excel_data file_name options start_time).
Proof.
  unfold emits. unfold_engine.
  run_steps (preorder_extends _ (closed_Forall not_gate))
            ltac:(emits_call ltac:(repeat constructor; discriminate)).
Qed.

Lemma convert_job_permits :
  steps same_permits
        (convert_job env self excel_data file_name options start_time).
Proof.
  unfold_engine. run_steps preorder_same_permits permits_call.
Qed.

Lemma convert_job_returns :
  returns (convert_job env self excel_data file_name options start_time).
Proof.
  unfold_engine. run_returns.
Qed.

(** The job always comes back with a result: whatever is raised inside the
    [try] block is turned into a failure result by the handler. *)
Lemma convert_job_total :
  total (convert_job env self excel_data file_name options start_time).
Proof.
  unfold convert_job. apply total_try_finally.
  - apply total_try_except.
    + unfold_engine. run_returns.
    + intros e. cbv zeta.
      apply total_bind; [apply total_print | intros _].
      apply total_bind; [apply total_print | intros _].
      apply total_bind; [apply total_time_time | intros now].
      apply total_ret.
  - unfold _force_gc.
    apply total_bind; [apply total_emit | intros _]. apply total_emit.
Qed.

End Job.

(** ** Reading a result backwards *)

Lemma bind_Ret_inv {A B} (m : M A) (k : A -> M B) w b w' :
  bind m k w = (Ret b, w') ->
  exists a w1, m w = (Ret a, w1) /\ k a w1 = (Ret b, w').
Proof.
  unfold bind. destruct (m w) as [[a|e|] w1]; intros H; try discriminate.
  exists a, w1. split; [reflexivity | exact H].
Qed.

Lemma try_except_Ret_inv {A} (m : M A) (h : exn -> M A) w a w' :
  try_except m h w = (Ret a, w') ->
  m w = (Ret a, w')
  \/ exists e w1, m w = (Raise e, w1) /\ h e w1 = (Ret a, w').
Proof.
  unfold try_except. destruct (m w) as [[a'|e|] w1]; intros H;
    try discriminate; [left; exact H | right; eauto].
Qed.

Lemma try_finally_Ret_inv {A} (m : M A) (fin : M unit) w a w' :
  try_finally m fin w = (Ret a, w') ->
  exists w1, m w = (Ret a, w1) /\ fin w1 = (Ret tt, w').
Proof.
  unfold try_finally. destruct (m w) as [[a'|e|] w1]; intros H;
    try discriminate;
    destruct (fin w1) as [[[]|e'|] w2] eqn:Ef; simpl in H; try discriminate.
  inversion H; subst. exists w1. split; [reflexivity | exact Ef].
Qed.

Lemma ret_inv {A} (a b : A) w w' : ret a w = (Ret b, w') -> a = b /\ w = w'.
Proof. unfold ret. intros H. inversion H. auto. Qed.

Lemma open_read_Ret_inv env p w data w' :
  open_read env p w = (Ret data, w') -> fs w !! p = Some data.
Proof.
  unfold open_read. destruct (env_io_fault _ _ _); [discriminate|].
  destruct (fs w !! p); intros H; inversion H; reflexivity.
Qed.

Lemma time_time_inv env w t w' :
  time_time env w = (Ret t, w') -> t = env_clock env w.
Proof. unfold time_time. intros H. inversion H. reflexivity. Qed.

(** Peels the binds of a hypothesis [H : (m1 ;; m2 ;; ...) w = (Ret _, _)]. *)
Ltac peel H :=
  repeat
    (apply bind_Ret_inv in H;
     let a := fresh "a" in
     let w := fresh "w" in
     let E := fresh "E" in
     destruct H as (a & w & E & H)).

(** ** The page-count estimate *)

Section PageCount.

Variable env : Env.

Lemma get_pdf_page_count_cases (pdf_path : string) (w : World) :
  (exists content w',
      open_read env pdf_path w = (Ret content, w')
      /\ _get_pdf_page_count env pdf_path w
         = (Ret (Z.max 1 (bytes_count content page_marker - 1)), w'))
  \/ (exists e w',
      open_read env pdf_path w = (Raise e, w')
      /\ _get_pdf_page_count env pdf_path w = (Ret 1, w')).
Proof.
  unfold _get_pdf_page_count, try_except, bind, ret.
  destruct (open_read env pdf_path w) as [[content|e|] w'] eqn:E.
  - left. eauto.
  - right. eauto.
  - exfalso. revert E. unfold open_read.
    destruct (env_io_fault _ _ _); [discriminate|].
    destruct (fs w !! pdf_path); discriminate.
Qed.

Lemma get_pdf_page_count_ge_1 (pdf_path : string) (w : World) n w' :
  _get_pdf_page_count env pdf_path w = (Ret n, w') -> 1 <= n.
Proof.
  intros H.
  destruct (get_pdf_page_count_cases pdf_path w)
    as [(c & w1 & _ & E)|(e & w1 & _ & E)];
    rewrite E in H; inversion H; subst; lia.
Qed.

End PageCount.

(** ** What a successful result holds *)

Section SuccessfulResult.

Variable env : Env.
Variables (self : ExcelMirrorEngine) (excel_data : bytes) (file_name : string).

(** The fields of a [Success] that [convert_job] returns: the label is built
    from the two option strings; the bytes are those read from the output
    path of the job; the count is an estimate for that path. *)
Lemma convert_job_success_inv (options : ConversionOptions) (start_time : Q)
    w pdf size count label ms w' :
  convert_job env self excel_data file_name options start_time w
  = (Ret (Success pdf size count label ms), w') ->
  label = paper_size options +:+ " " +:+ orientation options
  /\ (exists job_id w1 w2 w3 pdf_data now,
        fs w1 !! job_output_path self job_id = Some pdf_data
        /\ pdf = b64encode pdf_data
        /\ size = Z.of_nat (List.length pdf_data)
        /\ _get_pdf_page_count env (job_output_path self job_id) w2
           = (Ret count, w3)
        /\ ms = elapsed_ms start_time now)
  /\ 1 <= count.
Proof.
  unfold convert_job. intros H.
  apply try_finally_Ret_inv in H. destruct H as (wf & H & _).
  apply try_except_Ret_inv in H. destruct H as [H|(e & w1 & _ & H)].
  2:{ cbv zeta in H. peel H. apply ret_inv in H. destruct H as [H _].
      discriminate. }
  cbv zeta in H.
  apply bind_Ret_inv in H. destruct H as (job_id & w1 & _ & H).
  apply bind_Ret_inv in H. destruct H as (? & w2 & _ & H).
  apply bind_Ret_inv in H. destruct H as (? & w3 & _ & H).
  apply bind_Ret_inv in H. destruct H as (? & w4 & _ & H).
  apply bind_Ret_inv in H. destruct H as (success & w5 & _ & H).
  apply bind_Ret_inv in H. destruct H as (failed & w6 & _ & H).
  destruct failed.
  - peel H. apply ret_inv in H. destruct H as [H _]. discriminate.
  - apply bind_Ret_inv in H. destruct H as (pdf_data & w7 & Eread & H).
    apply bind_Ret_inv in H. destruct H as (page_count & w8 & Ecount & H).
    apply bind_Ret_inv in H. destruct H as (? & w9 & _ & H).
    apply bind_Ret_inv in H. destruct H as (now & w10 & _ & H).
    apply bind_Ret_inv in H. destruct H as (? & w11 & _ & H).
    apply ret_inv in H. destruct H as [H _]. inversion H; subst.
    split; [reflexivity|]. split.
    + exists job_id, w6, w7, w8, pdf_data, now.
      repeat split; try reflexivity; try assumption.
      eapply open_read_Ret_inv. exact Eread.
    + eapply get_pdf_page_count_ge_1. exact Ecount.
Qed.

Lemma with_semaphore_Ret_inv {A} (m : M A) w a w' :
  with_semaphore m w = (Ret a, w') ->
  exists w1 w2, m w1 = (Ret a, w2).
Proof.
  unfold with_semaphore. intros H.
  apply bind_Ret_inv in H. destruct H as (? & w1 & _ & H).
  apply try_finally_Ret_inv in H. destruct H as (w2 & H & _). eauto.
Qed.

Lemma convert_to_pdf_success_inv (options : option ConversionOptions)
    w pdf size count label ms w' :
  convert_to_pdf env self excel_data file_name options w
  = (Ret (Success pdf size count label ms), w') ->
  label = paper_size (options_or_default options) +:+ " "
          +:+ orientation (options_or_default options)
  /\ (exists pdf_data start_time now,
        pdf = b64encode pdf_data
        /\ size = Z.of_nat (List.length pdf_data)
        /\ ms = elapsed_ms start_time now)
  /\ 1 <= count.
Proof.
  unfold convert_to_pdf. cbv zeta. intros H.
  apply bind_Ret_inv in H. destruct H as (t0 & w1 & _ & H).
  apply with_semaphore_Ret_inv in H. destruct H as (w2 & w3 & H).
  apply convert_job_success_inv in H.
  destruct H as (Hl & (job_id & wa & wb & wc & pdf_data & now & _ & Hp & Hs & _ & Hm) & Hc).
  split; [exact Hl|]. split; [|exact Hc].
  exists pdf_data, t0, now. auto.
Qed.

End SuccessfulResult.

(** ** The result of a conversion *)

Section ResultProperties.
Import Scenarios.

(** C1.  The temporary files of the job are meant to be gone on every
    exit path.  On this host (no Excel, no LibreOffice) the conversion fails,
    [convert_to_pdf] returns the failure result through the early [return],
    and the input file of the job is still in the workspace: [_cleanup_files]
    is called on the success path only. *)
Theorem C1_failed_conversion_leaves_input_file :
  let run := convert_to_pdf env_no_converter engine workbook_bytes
                            "report.xlsx" None idle_world in
  fst run = Ret (Failure "PDF conversion failed" 10000)
  /\ fs (snd run) !! job_input_path engine job_id "report.xlsx"
     = Some workbook_bytes
  /\ permits (snd run) = 1%nat.
Proof. vm_compute. repeat split; reflexivity. Qed.

(** On the path that succeeds both files are removed. *)
Lemma successful_conversion_removes_files :
  let run := convert_to_pdf env_converter_ok engine workbook_bytes
                            "report.xlsx" None idle_world in
  fs (snd run) !! job_input_path engine job_id "report.xlsx" = None
  /\ fs (snd run) !! job_output_path engine job_id = None.
Proof. vm_compute. split; reflexivity. Qed.




(** C10.  The estimate is [max(1, occurrences - 1)] when the file can be
    read and [1] when it cannot; it is never below one, and so is the page
    count of every successful result. *)
Theorem C10_page_count_at_least_one
    (env : Env) (pdf_path : string) (w0 : World)
    (self : ExcelMirrorEngine) (excel_data : bytes) (file_name : string)
    (options : option ConversionOptions) (w : World)
    pdf size count label ms w' :
  (exists n w1,
     _get_pdf_page_count env pdf_path w0 = (Ret n, w1) /\ 1 <= n
     /\ ((exists content,
            open_read env pdf_path w0 = (Ret content, w1)
            /\ n = Z.max 1 (bytes_count content page_marker - 1))
         \/ ((exists e, open_read env pdf_path w0 = (Raise e, w1)) /\ n = 1)))
  /\ (convert_to_pdf env self excel_data file_name options w
      = (Ret (Success pdf size count label ms), w') ->
      1 <= count).
Proof.
  split.
  - destruct (get_pdf_page_count_cases env pdf_path w0)
      as [(c & w1 & Er & E)|(e & w1 & Er & E)].
    + exists (Z.max 1 (bytes_count c page_marker - 1)), w1.
      split; [exact E|]. split; [lia|]. left. exists c. auto.
    + exists 1, w1. split; [exact E|]. split; [lia|]. right. split; eauto.
  - intros H. apply convert_to_pdf_success_inv in H. apply H.
Qed.

Lemma C10_page_count_at_least_one_witness :
  exists pdf size count label ms w',
    convert_to_pdf env_converter_ok engine workbook_bytes "report.xlsx" None
                   idle_world
    = (Ret (Success pdf size count label ms), w')
    /\ 1 <= count.
Proof.
  pose (run := convert_to_pdf env_converter_ok engine workbook_bytes
                              "report.xlsx" None idle_world).
  assert (E : run = (Ret (Success (b64encode sample_pdf) 54 1 "F4 Landscape"
                                  18000), snd run))
    by (vm_compute; reflexivity).
  unfold run in E.
  exists (b64encode sample_pdf), 54, 1, "F4 Landscape", 18000, (snd run).
  split; [exact E|].
  exact (proj2 (C10_page_count_at_least_one env_converter_ok "x.pdf" idle_world
                  _ _ _ _ _ _ _ _ _ _ _) E).
Defined.

End ResultProperties.

(** ** The page setup of one sheet *)

Section PageSetup.
Import Scenarios.




Variable env : Env.
Variables (sheet : nat) (options : ConversionOptions).

(** The page setup of a sheet never raises and never blocks. *)
Lemma configure_total : total (_configure_page_setup env sheet options).
Proof.
  unfold _configure_page_setup. apply total_try_except.
  - run_returns.
  - intros e. apply total_print.
Qed.

Lemma configure_returns : returns (_configure_page_setup env sheet options).
Proof.
  intros w. destruct (configure_total w) as (a & E). rewrite E. discriminate.
Qed.


End PageSetup.

Section PaperSizeProperties.
Import Scenarios.



End PaperSizeProperties.

(** ** Zoom is disabled before fit-to-width is set *)

Section ZoomOrder.




Variable env : Env.

Lemma com__cases (c : ComCall) (w : World) :
  com_ env c w = (Ret tt, log (ECom c true) w)
  \/ exists e, com_ env c w = (Raise e, log (ECom c false) w).
Proof.
  unfold com_, bind, com, ret. destruct (env_com env c w); eauto.
Qed.









End ZoomOrder.

Section ZoomOrderProperties.
Import Scenarios.

Lemma emits_new_events {A} (P : list Event -> Prop) (m : M A) (w : World) :
  emits P m -> P (new_events m w).
Proof.
  intros H. destruct (H w) as (evs & Et & HP). unfold new_events.
  rewrite Et, length_app, Nat.add_sub.
  rewrite firstn_app, Nat.sub_diag, firstn_all. simpl.
  rewrite app_nil_r. exact HP.
Qed.


(** The order is not kept for want of assignments: with a willing Excel and
    the default options the page setup of sheet 1 assigns both. *)
Example page_setup_assigns_zoom_then_fit :
  let evs := rev (new_events (_configure_page_setup Scenarios.env_excel 1
                                                    default_options)
                             Scenarios.idle_world) in
  firstn 3 evs
  = ECom (SheetPageSetup 1) true
    :: ECom (PageSetupSet 1 Zoom (VBool false)) true
    :: ECom (PageSetupSet 1 FitToPagesWide (VInt 1)) true :: nil.
Proof. vm_compute. reflexivity. Qed.

(** The scratch sheet of the capture script ([setup_f4_page], which is not
    the page setup of a sheet of the document) is prepared the other way
    round: fit-to-width first, [Zoom = False] last. *)
Remark scratch_page_sets_fit_first :
  ~ zoom_before_fit (new_events (setup_f4_page env_excel 1) idle_world).
Proof.
  intros [H _].
  pose (evs := new_events (setup_f4_page env_excel 1) idle_world).
  assert (E : evs = firstn 4 evs
                    ++ ECom (PageSetupSet 1 FitToPagesWide (VInt 1)) true
                    :: skipn 5 evs)
    by (vm_compute; reflexivity).
  apply H in E. vm_compute in E.
  repeat (destruct E as [E|E]; [discriminate|]). exact E.
Qed.

End ZoomOrderProperties.

(** ** Rules for running forward *)

Section Reaches.

Context {A B : Type}.

Lemma reaches_mono (m : M A) w (Q Q' : A -> World -> Prop) :
  reaches m w Q -> (forall a w', Q a w' -> Q' a w') -> reaches m w Q'.
Proof. intros (a & w' & E & HQ) H. exists a, w'. auto. Qed.

Lemma reaches_ret (a : A) w (Q : A -> World -> Prop) :
  Q a w -> reaches (ret a) w Q.
Proof. intros H. exists a, w. auto. Qed.

Lemma reaches_bind (m : M A) (k : A -> M B) w (Q : B -> World -> Prop) :
  reaches m w (fun a w1 => reaches (k a) w1 Q) -> reaches (bind m k) w Q.
Proof.
  intros (a & w1 & E & b & w2 & E2 & HQ). exists b, w2.
  unfold bind. rewrite E. auto.
Qed.

Lemma reaches_try_except (m : M A) (h : exn -> M A) w (Q : A -> World -> Prop) :
  reaches m w Q -> reaches (try_except m h) w Q.
Proof.
  intros (a & w1 & E & HQ). exists a, w1. unfold try_except. rewrite E. auto.
Qed.

Lemma reaches_try_finally (m : M A) (fin : M unit) w (Q : A -> World -> Prop) :
  reaches m w (fun a w1 => reaches fin w1 (fun _ w2 => Q a w2)) ->
  reaches (try_finally m fin) w Q.
Proof.
  intros (a & w1 & E & [] & w2 & E2 & HQ). exists a, w2.
  unfold try_finally. rewrite E, E2. auto.
Qed.

Lemma reaches_catch (m : M A) w (Q : exn + A -> World -> Prop) :
  reaches m w (fun a w1 => Q (inr a) w1) -> reaches (catch m) w Q.
Proof.
  intros (a & w1 & E & HQ). exists (inr a), w1.
  unfold catch, try_except, bind, ret. rewrite E. auto.
Qed.

(** A computation that always comes back with a value and moves the world
    along [R]. *)
Lemma reaches_total (R : World -> World -> Prop) (m : M A) w
    (Q : A -> World -> Prop) :
  total m -> steps R m -> (forall a w', R w w' -> Q a w') -> reaches m w Q.
Proof.
  intros Ht Hs HQ. destruct (Ht w) as (a & E). specialize (Hs w).
  unfold reaches.
  destruct (m w) as [r w']. simpl in *. subst r. exists a, w'.
  split; [reflexivity | apply HQ; exact Hs].
Qed.

End Reaches.

Lemma reaches_try_pass (m : M unit) w (Q : unit -> World -> Prop) :
  reaches m w Q -> reaches (try_pass m) w Q.
Proof. apply reaches_try_except. Qed.

Lemma reaches_print (s : string) w (Q : unit -> World -> Prop) :
  Q tt (log (EPrint s) w) -> reaches (print s) w Q.
Proof. intros H. exists tt, (log (EPrint s) w). auto. Qed.

Lemma reaches_emit (e : Event) w (Q : unit -> World -> Prop) :
  Q tt (log e w) -> reaches (emit e) w Q.
Proof. intros H. exists tt, (log e w). auto. Qed.

Lemma reaches_path_exists (p : string) w (Q : bool -> World -> Prop) :
  Q (match fs w !! p with Some _ => true | None => false end)
    (log (EFile (PathExists p) true) w) ->
  reaches (path_exists p) w Q.
Proof. intros H. eexists _, _. split; [reflexivity | exact H]. Qed.

Lemma reaches_acquire w n (Q : unit -> World -> Prop) :
  permits w = S n ->
  Q tt (log EAcquire (mkWorld (fs w) n (trace w))) ->
  reaches acquire w Q.
Proof.
  intros Hp H. eexists _, _. unfold acquire. rewrite Hp.
  split; [reflexivity | exact H].
Qed.

Lemma reaches_release w (Q : unit -> World -> Prop) :
  Q tt (log ERelease (mkWorld (fs w) (S (permits w)) (trace w))) ->
  reaches release w Q.
Proof. intros H. eexists _, _. split; [reflexivity | exact H]. Qed.

Lemma total_for_each {A} (xs : list A) (body : A -> M unit) :
  (forall x, total (body x)) -> total (for_each xs body).
Proof.
  intros Hb. induction xs as [|x xs IH]; simpl.
  - apply total_ret.
  - apply total_bind; [apply Hb | intros _; exact IH].
Qed.

Section ReachesCalls.

Variable env : Env.

Lemma reaches_time_time w (Q : Q -> World -> Prop) :
  Q (env_clock env w) (log (ETime (env_clock env w)) w) ->
  reaches (time_time env) w Q.
Proof. intros H. eexists _, _. split; [reflexivity | exact H]. Qed.

Lemma reaches_new_job_id w (Q : string -> World -> Prop) :
  Q (env_job_id env w) (log (EJobId (env_job_id env w)) w) ->
  reaches (new_job_id env) w Q.
Proof. intros H. eexists _, _. split; [reflexivity | exact H]. Qed.

Lemma reaches_open_write p d w (Q : unit -> World -> Prop) :
  env_io_fault env (OpenWrite p d) w = None ->
  Q tt (log (EFile (OpenWrite p d) true) (set_fs (<[p := d]> (fs w)) w)) ->
  reaches (open_write env p d) w Q.
Proof.
  intros Hf H. eexists _, _. unfold open_write. rewrite Hf.
  split; [reflexivity | exact H].
Qed.

Lemma reaches_open_read p d w (Q : bytes -> World -> Prop) :
  env_io_fault env (OpenRead p) w = None ->
  fs w !! p = Some d ->
  Q d (log (EFile (OpenRead p) true) w) ->
  reaches (open_read env p) w Q.
Proof.
  intros Hf Hd H. eexists _, _. unfold open_read. rewrite Hf, Hd.
  split; [reflexivity | exact H].
Qed.

Lemma reaches_com c v w (Q : pyval -> World -> Prop) :
  env_com env c w = ComOk v ->
  Q v (log (ECom c true) w) ->
  reaches (com env c) w Q.
Proof.
  intros Hc H. eexists _, _. unfold com. rewrite Hc.
  split; [reflexivity | exact H].
Qed.

Lemma reaches_com_ c v w (Q : unit -> World -> Prop) :
  env_com env c w = ComOk v ->
  Q tt (log (ECom c true) w) ->
  reaches (com_ env c) w Q.
Proof.
  intros Hc H. eexists _, _. unfold com_, bind, com, ret. rewrite Hc.
  split; [reflexivity | exact H].
Qed.

Lemma reaches_export p v d w (Q : unit -> World -> Prop) :
  env_com env (ExportAsFixedFormat p) w = ComOk v ->
  env_export env p w = Some d ->
  Q tt (log (ECom (ExportAsFixedFormat p) true)
            (set_fs (<[p := d]> (fs w)) w)) ->
  reaches (export_as_fixed_format env p) w Q.
Proof.
  intros Hc Hd H. eexists _, _. unfold export_as_fixed_format.
  rewrite Hc, Hd. split; [reflexivity | exact H].
Qed.

End ReachesCalls.

(** ** Failures of the page setup are absorbed *)

Section OnReturn.

Context {A B : Type}.
Variable S : Event -> Prop.

Lemma on_return_ret (a : A) : on_return S (ret a).
Proof. intros w. exists nil. split; [reflexivity | constructor]. Qed.

Lemma on_return_bind (m : M A) (k : A -> M B) :
  on_return S m -> (forall a, on_return S (k a)) -> on_return S (bind m k).
Proof.
  intros Hm Hk w. unfold bind. destruct (Hm w) as (e1 & E1 & H1).
  destruct (m w) as [[a|e|] w1]; simpl in *.
  - destruct (Hk a w1) as (e2 & E2 & H2).
    exists (e2 ++ e1). rewrite E2, E1, app_assoc. split; [reflexivity|].
    intros Hret. apply Forall_app. split; [apply H2; exact Hret|].
    apply H1. eauto.
  - exists e1. split; [exact E1|]. intros (b & Hb). discriminate.
  - exists e1. split; [exact E1|]. intros (b & Hb). discriminate.
Qed.

Lemma on_return_emits (m : M A) : emits (Forall S) m -> on_return S m.
Proof.
  intros H w. destruct (H w) as (evs & E & Hall). exists evs. auto.
Qed.

End OnReturn.

Section PageSetupAbsorbed.

Variable env : Env.

Lemma on_return_com_ (S : Event -> Prop) (c : ComCall) :
  S (ECom c true) -> on_return S (com_ env c).
Proof.
  intros HS w. destruct (com__cases env c w) as [E|(e & E)]; rewrite E; simpl.
  - exists (ECom c true :: nil). split; [reflexivity|].
    intros _. constructor; [exact HS | constructor].
  - exists (ECom c false :: nil). split; [reflexivity|].
    intros (a & Ha). discriminate.
Qed.

Lemma on_return_print (S : Event -> Prop) (s : string) :
  S (EPrint s) -> on_return S (print s).
Proof.
  intros HS w. exists (EPrint s :: nil). split; [reflexivity|].
  intros _. constructor; [exact HS | constructor].
Qed.

Ltac run_on_return side :=
  cbv zeta;
  repeat
    (lazymatch goal with
     | |- on_return _ (ret _) => apply on_return_ret
     | |- on_return _ (bind _ _) => apply on_return_bind; [|intros ?]
     | |- on_return _ (if ?c then _ else _) => destruct c
     | |- on_return _ (com_ _ _) => apply on_return_com_; side
     | |- on_return _ (print _) => apply on_return_print; side
     end).

Variables (options : ConversionOptions).

(** The page setup of a sheet comes back with [None]; when a call outside
    the print-area block failed, the last thing it did was to print the
    warning. *)
Lemma configure_logged (sheet : nat) (w : World) :
  exists w' evs,
    _configure_page_setup env sheet options w = (Ret tt, w')
    /\ trace w' = evs ++ trace w
    /\ ((exists c, In (ECom c false) evs /\ print_area_call c = false) ->
        exists msg, hd_error evs = Some (page_setup_warning msg)).
Proof.
  unfold _configure_page_setup.
  match goal with |- context [try_except ?m ?h] => set (body := m) end.
  assert (Hb : on_return no_open_failure body).
  { subst body.
    run_on_return ltac:(intros ? Hc; discriminate Hc).
    apply on_return_emits.
    run_steps (preorder_extends _ (closed_Forall no_open_failure))
              ltac:(emits_call
                      ltac:(constructor;
                            [ intros ? Hc; inversion Hc; subst; reflexivity
                            | constructor ])). }
  assert (Hr : returns body) by (subst body; run_returns).
  unfold try_except. destruct (Hb w) as (evs & Et & Hall). specialize (Hr w).
  destruct (body w) as [[[]|e|] w1]; simpl in *.
  - exists w1, evs. split; [reflexivity|]. split; [exact Et|].
    intros (c & Hin & Hc). exfalso.
    assert (Hf : Forall no_open_failure evs) by (apply Hall; eauto).
    rewrite List.Forall_forall in Hf. specialize (Hf _ Hin c eq_refl).
    congruence.
  - eexists _, (_ :: evs). split; [reflexivity|]. split.
    + simpl. rewrite Et. reflexivity.
    + intros _. exists (exn_str e). reflexivity.
  - contradiction.
Qed.

Lemma configure_files (sheet : nat) :
  steps same_files (_configure_page_setup env sheet options).
Proof.
  unfold _configure_page_setup. run_steps preorder_same_files files_call.
Qed.

Lemma configure_permits (sheet : nat) :
  steps same_permits (_configure_page_setup env sheet options).
Proof.
  unfold _configure_page_setup. run_steps preorder_same_permits permits_call.
Qed.

(** A [try] block that begins with a call logs that call first. *)
Lemma first_call_logged {X} (c : ComCall) (k : unit -> M X) (h : exn -> M X)
    (w : World) :
  (forall a, emits (Forall (fun _ => True)) (k a)) ->
  (forall e, emits (Forall (fun _ => True)) (h e)) ->
  exists evs ok,
    trace (snd (try_except (bind (com_ env c) k) h w))
    = evs ++ ECom c ok :: trace w.
Proof.
  intros Hk Hh. unfold try_except, bind.
  destruct (com__cases env c w) as [E|(e & E)]; rewrite E.
  - destruct (Hk tt (log (ECom c true) w)) as (evs & Et & _).
    destruct (k tt (log (ECom c true) w)) as [[b|e'|] w2]; simpl in *.
    + exists evs, true. exact Et.
    + destruct (Hh e' w2) as (evs2 & Et2 & _).
      exists (evs2 ++ evs), true. rewrite Et2, Et, <- app_assoc. reflexivity.
    + exists evs, true. exact Et.
  - destruct (Hh e (log (ECom c false) w)) as (evs2 & Et2 & _).
    exists evs2, false. rewrite Et2. reflexivity.
Qed.

(** The page setup of a sheet begins by fetching [sheet.PageSetup]. *)
Lemma configure_first_call (sheet : nat) (w : World) :
  exists evs ok,
    trace (snd (_configure_page_setup env sheet options w))
    = evs ++ ECom (SheetPageSetup sheet) ok :: trace w.
Proof.
  unfold _configure_page_setup. apply first_call_logged.
  - intros a.
    run_steps (preorder_extends _ (closed_Forall (fun _ : Event => True)))
              ltac:(emits_call ltac:(repeat constructor)).
  - intros e.
    run_steps (preorder_extends _ (closed_Forall (fun _ : Event => True)))
              ltac:(emits_call ltac:(repeat constructor)).
Qed.

(** The loop over the sheets visits every sheet, whatever is rejected on the
    way, and hands over to what follows it. *)
Lemma configure_loop (sheets : list nat) (w : World) :
  exists w' evs,
    for_each sheets (fun sheet => _configure_page_setup env sheet options) w
    = (Ret tt, w')
    /\ trace w' = evs ++ trace w
    /\ fs w' = fs w /\ permits w' = permits w
    /\ forall sheet, In sheet sheets ->
         exists ok, In (ECom (SheetPageSetup sheet) ok) evs.
Proof.
  revert w. induction sheets as [|s sheets IH]; intros w; simpl.
  - exists w, nil. repeat split; try reflexivity. intros ? [].
  - unfold bind.
    destruct (configure_first_call s w) as (evs1 & ok1 & Et1).
    pose proof (configure_files s w) as Hf1.
    pose proof (configure_permits s w) as Hp1.
    destruct (configure_total env s options w) as ([] & E1).
    destruct (_configure_page_setup env s options w) as [r w1].
    simpl in *. subst r.
    destruct (IH w1) as (w' & evs & E & Et & Hf & Hp & Hall).
    rewrite E. exists w', (evs ++ evs1 ++ ECom (SheetPageSetup s) ok1 :: nil).
    split; [reflexivity|]. split.
    { rewrite Et, Et1, <- !app_assoc. reflexivity. }
    unfold same_files, same_permits in *.
    split; [congruence|]. split; [congruence|].
    intros sheet [<-|Hin].
    + exists ok1. apply in_or_app. right. apply in_or_app. right.
      left. reflexivity.
    + destruct (Hall sheet Hin) as (ok & Hok). exists ok.
      apply in_or_app. left. exact Hok.
Qed.

End PageSetupAbsorbed.

(** ** A job in which only the page setup is rejected *)

Section OnlyPageSetupFails.

Variable env : Env.
Hypothesis Hcom : HAS_WIN32COM env = true.
Hypothesis Hgood :
  forall c w, page_setup_call c = false -> exists v, env_com env c w = ComOk v.
Hypothesis Hexp : forall p w, exists d, env_export env p w = Some d.
Hypothesis Hio : forall op w, env_io_fault env op w = None.

Variable options : ConversionOptions.

Lemma loop_reaches (sheets : list nat) w (Q : unit -> World -> Prop) :
  (forall w', fs w' = fs w -> permits w' = permits w -> Q tt w') ->
  reaches (for_each sheets (fun sheet => _configure_page_setup env sheet options))
          w Q.
Proof.
  intros HQ.
  destruct (configure_loop env options sheets w) as (w' & evs & E & _ & Hf & Hp & _).
  exists tt, w'. split; [exact E | apply HQ; assumption].
Qed.

Ltac fwd :=
  cbv beta iota zeta;
  lazymatch goal with
  | |- reaches (bind _ _) _ _ => apply reaches_bind
  | |- reaches (catch _) _ _ => apply reaches_catch
  | |- reaches (try_pass _) _ _ => apply reaches_try_pass
  | |- reaches (try_except _ _) _ _ => apply reaches_try_except
  | |- reaches (try_finally _ _) _ _ => apply reaches_try_finally
  | |- reaches (print _) _ _ => apply reaches_print
  | |- reaches (emit _) _ _ => apply reaches_emit
  | |- reaches (ret _) _ _ => apply reaches_ret
  | |- reaches (time_time _) _ _ => apply reaches_time_time
  | |- reaches (new_job_id _) _ _ => apply reaches_new_job_id
  | |- reaches (path_exists _) _ _ => apply reaches_path_exists
  | |- reaches release _ _ => apply reaches_release
  | |- reaches (for_each _ _) _ _ => apply loop_reaches; intros ? ? ?
  | |- reaches (com_ _ ?c) ?w _ =>
      let v := fresh "v" in
      let Hv := fresh "Hv" in
      destruct (Hgood c w eq_refl) as (v & Hv);
      apply (reaches_com_ env c v w _ Hv)
  | |- reaches (com _ ?c) ?w _ =>
      let v := fresh "v" in
      let Hv := fresh "Hv" in
      destruct (Hgood c w eq_refl) as (v & Hv);
      apply (reaches_com env c v w _ Hv)
  | |- reaches (export_as_fixed_format _ ?p) ?w _ =>
      let v := fresh "v" in
      let Hv := fresh "Hv" in
      let d := fresh "d" in
      let Hd := fresh "Hd" in
      destruct (Hgood (ExportAsFixedFormat p) w eq_refl) as (v & Hv);
      destruct (Hexp p w) as (d & Hd);
      apply (reaches_export env p v d w _ Hv Hd)
  | |- reaches (open_write _ ?p ?d) ?w _ =>
      apply (reaches_open_write env p d w _ (Hio _ _))
  end.

Lemma convert_with_com_reaches (input_path output_path : string) (w : World) :
  reaches (_convert_with_com env input_path output_path options) w
          (fun r w' => r = true
                       /\ (exists d, fs w' !! output_path = Some d)
                       /\ permits w' = permits w).
Proof.
  unfold _convert_with_com, com_cleanup, com_error_handler.
  repeat fwd.
  cbv beta iota. simpl. split; [reflexivity|]. split.
  - eexists. apply lookup_insert_eq.
  - assumption.
Qed.

Lemma page_count_total (pdf_path : string) :
  total (_get_pdf_page_count env pdf_path).
Proof.
  intros w. destruct (get_pdf_page_count_cases env pdf_path w)
    as [(c & w1 & _ & E)|(e & w1 & _ & E)]; rewrite E; eauto.
Qed.

Lemma cleanup_total (files : list string) : total (_cleanup_files env files).
Proof.
  unfold _cleanup_files. apply total_for_each. intros f.
  apply total_try_pass. run_returns.
Qed.

Lemma anything_steps {A} (m : M A) : steps (fun _ _ => True) m.
Proof. intros w. exact I. Qed.

Variables (self : ExcelMirrorEngine) (excel_data : bytes) (file_name : string).

(** With Excel present, the files readable and the export written, the job
    succeeds whatever the page setup rejects. *)
Lemma job_succeeds_despite_page_setup (w : World) :
  (0 < permits w)%nat ->
  exists pdf size count label ms w',
    convert_to_pdf env self excel_data file_name (Some options) w
    = (Ret (Success pdf size count label ms), w').
Proof.
  intros Hp. destruct (permits w) as [|n] eqn:En; [lia|].
  assert (H : reaches (convert_to_pdf env self excel_data file_name
                                      (Some options)) w
                      (fun r _ => exists pdf size count label ms,
                                    r = Success pdf size count label ms)).
  { unfold convert_to_pdf, with_semaphore.
    repeat fwd.
    apply (reaches_acquire _ n); [exact En|].
    fwd. unfold convert_job, _force_gc.
    repeat fwd.
    rewrite Hcom.
    eapply reaches_mono; [apply convert_with_com_reaches|].
    intros r w1 (-> & (d & Hd) & _).
    cbn [negb].
    repeat fwd. rewrite Hd. cbn [negb].
    repeat fwd.
    apply (reaches_open_read env _ d); [apply Hio | exact Hd |].
    fwd.
    apply (reaches_total (fun _ _ => True));
      [apply page_count_total | apply anything_steps | intros count w2 _].
    fwd.
    apply (reaches_total (fun _ _ => True));
      [apply cleanup_total | apply anything_steps | intros [] w3 _].
    repeat fwd. cbv beta. eauto 10. }
  destruct H as (r & w' & E & (pdf & size & count & label & ms & ->)).
  exists pdf, size, count, label, ms, w'. exact E.
Qed.

End OnlyPageSetupFails.

Section PageSetupProperties.
Import Scenarios.

(** C5, as the code has it.  The page setup of a sheet never raises to its
    caller: a failure while applying a property is absorbed, and it is logged
    as a warning unless it occurs in the block that sets the print area,
    which passes over it silently; the loop visits every sheet whatever was
    rejected; and a job in which only page-setup calls fail succeeds. *)
Theorem C5_page_setup_failures_absorbed
    (env : Env) (options : ConversionOptions) :
  (forall sheet w,
     exists w' evs,
       _configure_page_setup env sheet options w = (Ret tt, w')
       /\ trace w' = evs ++ trace w
       /\ ((exists c, In (ECom c false) evs /\ print_area_call c = false) ->
           exists msg, hd_error evs = Some (page_setup_warning msg)))
  /\ (forall n w,
        exists w' evs,
          for_each (seq 1 n)
                   (fun sheet => _configure_page_setup env sheet options) w
          = (Ret tt, w')
          /\ trace w' = evs ++ trace w
          /\ forall sheet, (1 <= sheet <= n)%nat ->
               exists ok, In (ECom (SheetPageSetup sheet) ok) evs)
  /\ (HAS_WIN32COM env = true ->
      (forall c w, page_setup_call c = false ->
                   exists v, env_com env c w = ComOk v) ->
      (forall p w, exists d, env_export env p w = Some d) ->
      (forall op w, env_io_fault env op w = None) ->
      forall self excel_data file_name w,
        (0 < permits w)%nat ->
        exists pdf size count label ms w',
          convert_to_pdf env self excel_data file_name (Some options) w
          = (Ret (Success pdf size count label ms), w')).
Proof.
  split; [|split].
  - intros sheet w. apply configure_logged.
  - intros n w.
    destruct (configure_loop env options (seq 1 n) w)
      as (w' & evs & E & Et & _ & _ & Hall).
    exists w', evs. split; [exact E|]. split; [exact Et|].
    intros sheet Hs. apply Hall. apply in_seq. lia.
  - intros Hcom Hgood Hexp Hio self excel_data file_name w Hp.
    apply job_succeeds_despite_page_setup; assumption.
Qed.

Lemma C5_page_setup_failures_absorbed_witness :
  In (ECom (PageSetupSet 1 LeftMargin (VFloat (2835 # 100))) false)
     (trace (snd (convert_to_pdf env_excel_margin_rejected engine
                                 workbook_bytes "report.xlsx"
                                 (Some default_options) idle_world)))
  /\ exists pdf size count label ms w',
       convert_to_pdf env_excel_margin_rejected engine workbook_bytes
                      "report.xlsx" (Some default_options) idle_world
       = (Ret (Success pdf size count label ms), w').
Proof.
  split.
  - vm_compute. repeat (first [left; reflexivity | right]).
  - apply (proj2 (proj2 (C5_page_setup_failures_absorbed
                           env_excel_margin_rejected default_options))).
    + reflexivity.
    + intros c w H. destruct c; try discriminate H; simpl; eauto.
    + intros p w. eexists. reflexivity.
    + intros op w. reflexivity.
    + simpl. lia.
Defined.

(** C5 does not hold of the print area: its rejection is a failure while
    applying a page-setup property, and nothing is logged for it. *)
Lemma C5_print_area_failure_not_logged :
  let evs := new_events (_configure_page_setup env_excel_print_area_rejected
                                               1 default_options) idle_world in
  In (ECom (PageSetupSet 1 PrintArea (VStr "$A$1:$E$10")) false) evs
  /\ forall msg, ~ In (page_setup_warning msg) evs.
Proof.
  split.
  - vm_compute. repeat (first [left; reflexivity | right]).
  - intros msg H. vm_compute in H.
    repeat (destruct H as [H|H]; [discriminate H|]). exact H.
Qed.

End PageSetupProperties.

(** ** The headless converter runs under a timeout *)

Section ConverterTimeout.

Variable env : Env.

Lemma subprocess_run_timeout (cmd : list string) (t : Z) (w : World) :
  exceeds t (env_proc env cmd w) ->
  subprocess_run env cmd (Some t) w
  = (Raise (timeout_expired cmd t), log (ERun cmd (Some t) TimedOut) w).
Proof.
  unfold exceeds, subprocess_run.
  destruct (env_proc env cmd w) as [|[d|] writes]; intros H;
    [contradiction | | reflexivity].
  destruct (Qle_bool d (inject_Z t)) eqn:E; [|reflexivity].
  apply Qle_bool_iff in E. exfalso. eapply Qlt_not_le; eassumption.
Qed.

Lemma reaches_try_except_raise {A} (m : M A) (h : exn -> M A) e w w1
    (Q : A -> World -> Prop) :
  m w = (Raise e, w1) -> reaches (h e) w1 Q -> reaches (try_except m h) w Q.
Proof.
  intros E (a & w2 & E2 & HQ). exists a, w2.
  unfold try_except. rewrite E. auto.
Qed.

Lemma bind_raise {A B} (m : M A) (k : A -> M B) e w w1 :
  m w = (Raise e, w1) -> bind m k w = (Raise e, w1).
Proof. intros E. unfold bind. rewrite E. reflexivity. Qed.

Ltac timed_side :=
  constructor;
  [ intros ? ? ? Heq Hhd; inversion Heq; subst;
    first [ left; reflexivity | right; reflexivity | discriminate Hhd ]
  | constructor ].

Lemma simulate_converter_timed input_path output_path options :
  emits (Forall converter_timed)
        (_simulate_conversion env input_path output_path options).
Proof.
  unfold _simulate_conversion.
  run_steps (preorder_extends _ (closed_Forall converter_timed))
            ltac:(emits_call timed_side).
Qed.

Lemma screen_render_converter_timed input_path output_path :
  emits (Forall converter_timed)
        (convert_excel_screen_render env input_path output_path).
Proof.
  unfold convert_excel_screen_render.
  run_steps (preorder_extends _ (closed_Forall converter_timed))
            ltac:(emits_call timed_side).
Qed.

(** A converter that outlives the timeout makes the simulation path return
    [False], with the files as they were. *)
Lemma simulate_timeout input_path output_path options w :
  (forall cmd w', exceeds 120 (env_proc env cmd w')) ->
  reaches (_simulate_conversion env input_path output_path options) w
          (fun r w' => r = false /\ fs w' = fs w /\ permits w' = permits w).
Proof.
  intros Hslow. unfold _simulate_conversion.
  apply reaches_bind, reaches_print. apply reaches_bind, reaches_print.
  eapply reaches_try_except_raise.
  - apply bind_raise. apply subprocess_run_timeout. apply Hslow.
  - apply reaches_bind, reaches_print. apply reaches_ret. auto.
Qed.

Variables (self : ExcelMirrorEngine) (excel_data : bytes) (file_name : string).

Lemma convert_to_pdf_timeout (options : option ConversionOptions) (w : World) :
  HAS_WIN32COM env = false ->
  (forall cmd w', exceeds 120 (env_proc env cmd w')) ->
  (forall op w', env_io_fault env op w' = None) ->
  (0 < permits w)%nat ->
  exists ms w',
    convert_to_pdf env self excel_data file_name options w
    = (Ret (Failure "PDF conversion failed" ms), w').
Proof.
  intros Hcom Hslow Hio Hp. destruct (permits w) as [|n] eqn:En; [lia|].
  assert (H : reaches (convert_to_pdf env self excel_data file_name options) w
                      (fun r _ => exists ms,
                                    r = Failure "PDF conversion failed" ms)).
  { unfold convert_to_pdf, with_semaphore. cbv zeta.
    apply reaches_bind, reaches_time_time.
    apply reaches_bind. apply (reaches_acquire _ n); [exact En|].
    apply reaches_try_finally. unfold convert_job, _force_gc.
    apply reaches_try_finally. apply reaches_try_except. cbv zeta.
    apply reaches_bind, reaches_new_job_id.
    apply reaches_bind. apply reaches_open_write; [apply Hio|].
    apply reaches_bind, reaches_print. apply reaches_bind, reaches_print.
    apply reaches_bind. rewrite Hcom.
    eapply reaches_mono; [apply simulate_timeout; exact Hslow|].
    intros r w1 (-> & _). cbn [negb].
    apply reaches_bind, reaches_ret.
    apply reaches_bind, reaches_time_time. apply reaches_ret.
    apply reaches_bind, reaches_emit. apply reaches_emit.
    apply reaches_release. eauto. }
  destruct H as (r & w' & E & (ms & ->)). eauto.
Qed.

Lemma screen_render_timeout input_path output_path (w : World) :
  (forall cmd w', exceeds 180 (env_proc env cmd w')) ->
  (forall op w', env_io_fault env op w' = None) ->
  exists w', convert_excel_screen_render env input_path output_path w
             = (Ret false, w').
Proof.
  intros Hslow Hio.
  assert (H : reaches (convert_excel_screen_render env input_path output_path)
                      w (fun r _ => r = false)).
  { unfold convert_excel_screen_render.
    apply reaches_bind, reaches_print. apply reaches_bind, reaches_print.
    apply reaches_bind, reaches_print. apply reaches_bind.
    exists (env_mkdtemp env "excel_screen_" (log (EPrint
              "  Strategy: Default rendering (preserve original layout)")
              (log (EPrint ("  Input: " +:+ input_path))
                 (log (EPrint "[Screen Render Linux] Starting conversion...") w)))).
    eexists. split; [unfold mkdtemp; rewrite Hio; reflexivity|].
    eapply reaches_try_except_raise.
    - unfold bind at 1. unfold print at 1, emit at 1.
      unfold bind at 1. unfold print at 1, emit at 1.
      apply bind_raise. apply subprocess_run_timeout. apply Hslow.
    - apply reaches_bind, reaches_print. apply reaches_bind, reaches_print.
      apply reaches_bind.
      { eexists _, _. split; [reflexivity|]. apply reaches_ret. reflexivity. } }
  destruct H as (r & w' & E & ->). eauto.
Qed.

End ConverterTimeout.

Section TimeoutProperties.
Import Scenarios.

(** C9, as the code has it.  Every run of the converter, in the engine's
    simulation path (120 seconds) and in the Linux screen-render script (180
    seconds), is under a timeout; when the converter outlives it (and no file
    operation fails), the job ends in a failure: the engine returns the
    result with the error "PDF conversion failed", the script returns
    [False].  The failure does not say that it was a timeout. *)
Theorem C9_converter_timeout_is_failure (env : Env) :
  (forall input_path output_path options w,
     Forall converter_timed
            (new_events (_simulate_conversion env input_path output_path options) w))
  /\ (forall input_path output_path w,
        Forall converter_timed
               (new_events (convert_excel_screen_render env input_path output_path) w))
  /\ ((forall op w, env_io_fault env op w = None) ->
      (HAS_WIN32COM env = false ->
       (forall cmd w, exceeds 120 (env_proc env cmd w)) ->
       forall self excel_data file_name options w,
         (0 < permits w)%nat ->
         exists ms w',
           convert_to_pdf env self excel_data file_name options w
           = (Ret (Failure "PDF conversion failed" ms), w'))
      /\ ((forall cmd w, exceeds 180 (env_proc env cmd w)) ->
          forall input_path output_path w,
            exists w', convert_excel_screen_render env input_path output_path w
                       = (Ret false, w'))).
Proof.
  split; [|split].
  - intros. apply emits_new_events. apply simulate_converter_timed.
  - intros. apply emits_new_events. apply screen_render_converter_timed.
  - intros Hio. split.
    + intros Hcom Hslow self excel_data file_name options w Hp.
      apply convert_to_pdf_timeout; assumption.
    + intros Hslow input_path output_path w.
      apply screen_render_timeout; assumption.
Qed.

Lemma C9_converter_timeout_is_failure_witness :
  (exists ms w',
     convert_to_pdf env_converter_stuck engine workbook_bytes "report.xlsx"
                    None idle_world
     = (Ret (Failure "PDF conversion failed" ms), w'))
  /\ (exists w',
        convert_excel_screen_render env_converter_stuck "/data/report.xlsx"
                                    "/data/report.pdf" idle_world
        = (Ret false, w')).
Proof.
  assert (Hio : forall op w, env_io_fault env_converter_stuck op w = None)
    by reflexivity.
  destruct (proj2 (proj2 (C9_converter_timeout_is_failure env_converter_stuck))
                  Hio) as [Hengine Hscript].
  split.
  - apply Hengine; [reflexivity | intros; exact I | simpl; lia].
  - apply Hscript. intros; exact I.
Defined.

(** C9 does not hold of the classification: after the timeout the result
    carries the same error text as on a host without any converter, and
    nothing in it names a timeout. *)
Lemma C9_timeout_not_classified :
  let slow := convert_to_pdf env_converter_stuck engine workbook_bytes
                             "report.xlsx" None idle_world in
  let missing := convert_to_pdf env_no_converter engine workbook_bytes
                                "report.xlsx" None idle_world in
  (exists cmd, In (ERun cmd (Some 120) TimedOut) (trace (snd slow)))
  /\ error_of (fst slow) = Some "PDF conversion failed"
  /\ timeout_classified (fst slow) = false
  /\ error_of (fst slow) = error_of (fst missing).
Proof.
  split; [|vm_compute; repeat split; reflexivity].
  eexists. vm_compute. repeat (first [left; reflexivity | right]).
Qed.

End TimeoutProperties.

End EngineProofs.
(* ===================================================================== *)
(** * Properties of the gate *)
(* ===================================================================== *)

Module GateProofs.
Import Engine Judgements EngineProofs.

(** ** What one call of [convert_to_pdf] does, in order *)

Lemma new_events_of_trace {A} (m : M A) (w : World) (evs : list Event) :
  trace (snd (m w)) = evs ++ trace w -> new_events m w = evs.
Proof.
  intros Et. unfold new_events.
  rewrite Et, length_app, Nat.add_sub.
  rewrite firstn_app, Nat.sub_diag, firstn_all. simpl. apply app_nil_r.
Qed.

Section OneCall.

Variable env : Env.
Variables (self : ExcelMirrorEngine) (excel_data : bytes) (file_name : string).
Variable options : option ConversionOptions.

Lemma convert_to_pdf_unfold (w : World) :
  convert_to_pdf env self excel_data file_name options w
  = with_semaphore
      (convert_job env self excel_data file_name (options_or_default options)
                   (env_clock env w))
      (log (ETime (env_clock env w)) w).
Proof. reflexivity. Qed.

Lemma with_semaphore_unfold {A} (m : M A) (w : World) (n : nat) :
  permits w = S n ->
  with_semaphore m w
  = try_finally m release (log EAcquire (mkWorld (fs w) n (trace w))).
Proof.
  intros Hp. unfold with_semaphore, bind, acquire. rewrite Hp. reflexivity.
Qed.

(** With a permit free, the call reads the clock, acquires, runs the job
    (which touches the semaphore no more) and releases, in this order; the
    permit is back when it returns. *)
Lemma convert_to_pdf_trace (w : World) :
  (0 < permits w)%nat ->
  exists body,
    trace (snd (convert_to_pdf env self excel_data file_name options w))
    = ERelease :: body ++ EAcquire :: ETime (env_clock env w) :: trace w
    /\ Forall not_gate body
    /\ permits (snd (convert_to_pdf env self excel_data file_name options w))
       = permits w
    /\ fst (convert_to_pdf env self excel_data file_name options w) <> Hang.
Proof.
  intros Hp. destruct (permits w) as [|n] eqn:En; [lia|].
  rewrite convert_to_pdf_unfold.
  rewrite (with_semaphore_unfold _ _ n) by exact En.
  set (job := convert_job env self excel_data file_name
                          (options_or_default options) (env_clock env w)).
  set (w2 := log EAcquire _).
  destruct (convert_job_no_gate env self excel_data file_name
              (options_or_default options) (env_clock env w) w2)
    as (body & Et & Hbody).
  pose proof (convert_job_permits env self excel_data file_name
              (options_or_default options) (env_clock env w) w2) as Hperm.
  pose proof (convert_job_returns env self excel_data file_name
              (options_or_default options) (env_clock env w) w2) as Hret.
  fold job in Et, Hperm, Hret. unfold same_permits in Hperm.
  unfold try_finally.
  destruct (job w2) as [[r|e|] w3]; simpl in *; try contradiction;
    (exists body; split; [rewrite Et; reflexivity|];
     split; [exact Hbody|]; split; [rewrite Hperm; reflexivity | discriminate]).
Qed.

(** With a permit free, the call returns a result dictionary and the permit
    is back. *)
Lemma convert_to_pdf_returns_result (w : World) :
  (0 < permits w)%nat ->
  exists r w',
    convert_to_pdf env self excel_data file_name options w = (Ret r, w')
    /\ permits w' = permits w.
Proof.
  intros Hp. destruct (permits w) as [|n] eqn:En; [lia|].
  rewrite convert_to_pdf_unfold.
  rewrite (with_semaphore_unfold _ _ n) by exact En.
  set (w2 := log EAcquire _).
  destruct (convert_job_total env self excel_data file_name
              (options_or_default options) (env_clock env w) w2) as (r & E).
  pose proof (convert_job_permits env self excel_data file_name
              (options_or_default options) (env_clock env w) w2) as Hperm.
  unfold same_permits in Hperm. unfold try_finally.
  destruct (convert_job env self excel_data file_name
              (options_or_default options) (env_clock env w) w2) as [res w3].
  simpl in *. subst res. simpl.
  eexists _, _. split; [reflexivity|]. simpl. rewrite Hperm. reflexivity.
Qed.

Lemma convert_to_pdf_program (w : World) :
  (0 < permits w)%nat ->
  job_program (program_of (convert_to_pdf env self excel_data file_name options) w).
Proof.
  intros Hp. destruct (convert_to_pdf_trace w Hp) as (body & Et & Hbody & _).
  unfold program_of.
  rewrite (new_events_of_trace _ w
             (ERelease :: body ++ EAcquire :: ETime (env_clock env w) :: nil)).
  2:{ rewrite Et. simpl. rewrite <- app_assoc. reflexivity. }
  exists (ETime (env_clock env w) :: nil), (rev body).
  split.
  - simpl. rewrite rev_app_distr. simpl. reflexivity.
  - split; [repeat constructor; discriminate|].
    split; [repeat constructor|].
    apply Forall_rev. exact Hbody.
Qed.

End OneCall.

(** ** Who holds the permit *)

Lemma not_gate_no_acquire (l : list Event) :
  Forall not_gate l -> existsb is_acquire l = false.
Proof.
  induction 1 as [|e l [Ha _] _ IH]; simpl; [reflexivity|].
  rewrite IH. destruct e; try reflexivity. congruence.
Qed.

Lemma not_gate_no_release (l : list Event) :
  Forall not_gate l -> existsb is_release l = false.
Proof.
  induction 1 as [|e l [_ Hr] _ IH]; simpl; [reflexivity|].
  rewrite IH. destruct e; try reflexivity. congruence.
Qed.

Lemma holding_before (p : list Event) : job_program p -> holding p = false.
Proof.
  intros (pre & body & -> & _). unfold holding.
  rewrite existsb_app. simpl. rewrite orb_true_r. reflexivity.
Qed.

Lemma holding_between (body : list Event) :
  Forall not_gate body -> holding (body ++ ERelease :: nil) = true.
Proof.
  intros Hb. unfold holding. rewrite !existsb_app. simpl.
  rewrite (not_gate_no_acquire body Hb), orb_true_r. reflexivity.
Qed.

Lemma holders_cons (p : list Event) (ts : list (list Event)) :
  holders (p :: ts) = (weight p + holders ts)%nat.
Proof. unfold holders, weight. simpl. destruct (holding p); reflexivity. Qed.

Lemma holders_insert (ts : list (list Event)) :
  forall i p p',
    ts !! i = Some p ->
    (holders (<[i := p']> ts) + weight p = holders ts + weight p')%nat.
Proof.
  induction ts as [|q ts IH]; intros i p p' Hl; [discriminate|].
  destruct i as [|i]; simpl in *.
  - inversion Hl; subst. rewrite !holders_cons. lia.
  - rewrite !holders_cons. specialize (IH i p p' Hl). lia.
Qed.

Lemma one_holder (ts : list (list Event)) :
  forall i p, ts !! i = Some p -> holding p = true -> (1 <= holders ts)%nat.
Proof.
  induction ts as [|q ts IH]; intros i p Hl Hh; [discriminate|].
  rewrite holders_cons. destruct i as [|i]; simpl in *.
  - inversion Hl; subst. unfold weight. rewrite Hh. lia.
  - specialize (IH i p Hl Hh). lia.
Qed.

Lemma two_holders (ts : list (list Event)) :
  forall i j p q,
    i <> j -> ts !! i = Some p -> ts !! j = Some q ->
    holding p = true -> holding q = true -> (2 <= holders ts)%nat.
Proof.
  induction ts as [|r ts IH]; intros i j p q Hne Hi Hj Hp Hq; [discriminate|].
  rewrite holders_cons. destruct i as [|i], j as [|j]; simpl in *.
  - congruence.
  - inversion Hi; subst. unfold weight. rewrite Hp.
    pose proof (one_holder ts j q Hj Hq). lia.
  - inversion Hj; subst. unfold weight. rewrite Hq.
    pose proof (one_holder ts i p Hi Hp). lia.
  - assert (i <> j) by congruence.
    specialize (IH i j p q H Hi Hj Hp Hq). lia.
Qed.

(** ** The phases of a thread *)

Lemma phase_acquire (rest : list Event) :
  phase (EAcquire :: rest) ->
  exists body, rest = body ++ ERelease :: nil /\ Forall not_gate body.
Proof.
  intros H. remember (EAcquire :: rest) as p eqn:Ep.
  destruct H as [p (pre & body & E & Hpre & _ & Hbody)|body Hbody|].
  - subst p. destruct pre as [|x pre]; simpl in E; inversion E; subst.
    + exists body. split; [reflexivity | assumption].
    + inversion Hpre as [|? ? [Hx _]]. congruence.
  - destruct body as [|x body]; simpl in Ep; inversion Ep; subst.
    inversion Hbody as [|? ? [Hx _]]. congruence.
  - discriminate.
Qed.

Lemma phase_release (rest : list Event) :
  phase (ERelease :: rest) -> rest = nil.
Proof.
  intros H. remember (ERelease :: rest) as p eqn:Ep.
  destruct H as [p (pre & body & E & Hpre & _ & Hbody)|body Hbody|].
  - subst p. destruct pre as [|x pre]; simpl in E; inversion E; subst.
    inversion Hpre as [|? ? [_ Hx]]. congruence.
  - destruct body as [|x body]; simpl in Ep; inversion Ep; subst.
    + reflexivity.
    + inversion Hbody as [|? ? [_ Hx]]. congruence.
  - discriminate.
Qed.

Lemma phase_call (e : Event) (rest : list Event) :
  not_gate e -> phase (e :: rest) ->
  phase rest /\ holding rest = holding (e :: rest).
Proof.
  intros [Ha Hr] H. remember (e :: rest) as p eqn:Ep.
  destruct H as [p (pre & body & E & Hpre & Hquiet & Hbody)|body Hbody|].
  - subst p. destruct pre as [|x pre]; simpl in E; inversion E; subst;
      [congruence|].
    assert (Hj : job_program (pre ++ EAcquire :: body ++ ERelease :: nil)).
    { exists pre, body. inversion Hpre; inversion Hquiet; subst. auto. }
    split; [apply phase_before; exact Hj|].
    rewrite (holding_before _ Hj). symmetry. apply holding_before.
    eexists (_ :: pre), body. split; [reflexivity | auto].
  - destruct body as [|x body]; simpl in Ep; inversion Ep; subst;
      [congruence|].
    inversion Hbody; subst.
    split; [apply phase_holding; assumption|].
    rewrite holding_between by assumption.
    symmetry. apply (holding_between (_ :: body)). exact Hbody.
  - discriminate.
Qed.

(** A thread about to call the automation session holds the permit. *)
Lemma automation_needs_permit (e : Event) (rest : list Event) :
  phase (e :: rest) -> automation e = true -> holding (e :: rest) = true.
Proof.
  intros H Hauto. remember (e :: rest) as p eqn:Ep.
  destruct H as [p (pre & body & E & Hpre & Hquiet & Hbody)|body Hbody|].
  - subst p. destruct pre as [|x pre]; simpl in E; inversion E; subst.
    + discriminate.
    + inversion Hquiet; subst. congruence.
  - apply holding_between. exact Hbody.
  - discriminate.
Qed.

(** ** The invariant *)

Lemma invariant_init (ps : list (list Event)) :
  Forall job_program ps -> invariant (mkState 1 ps).
Proof.
  intros Hps. split; simpl.
  - eapply Forall_impl; [exact Hps|]. intros p Hp. apply phase_before, Hp.
  - induction Hps as [|p ps Hp _ IH]; [reflexivity|].
    rewrite holders_cons. unfold weight. rewrite (holding_before p Hp).
    exact IH.
Qed.

Lemma invariant_step (st st' : State) :
  invariant st -> step st st' -> invariant st'.
Proof.
  intros [Hph Hsem] Hstep.
  destruct Hstep as [i rest n ts Hl|i rest n ts Hl|i e rest n ts Hl Hng];
    simpl in *.
  - pose proof (Forall_lookup_1 _ _ _ _ Hph Hl) as Hp.
    destruct (phase_acquire rest Hp) as (body & -> & Hbody).
    split; simpl.
    + apply Forall_insert; [exact Hph | apply phase_holding, Hbody].
    + pose proof (holders_insert ts i _ (body ++ ERelease :: nil) Hl) as Hh.
      unfold weight in Hh.
      rewrite (holding_between body Hbody) in Hh.
      assert (Hb : holding (EAcquire :: body ++ ERelease :: nil) = false)
        by reflexivity.
      rewrite Hb in Hh. lia.
  - pose proof (Forall_lookup_1 _ _ _ _ Hph Hl) as Hp.
    pose proof (phase_release rest Hp) as ->.
    split; simpl.
    + apply Forall_insert; [exact Hph | apply phase_done].
    + pose proof (holders_insert ts i _ nil Hl) as Hh.
      unfold weight in Hh. simpl in Hh. lia.
  - pose proof (Forall_lookup_1 _ _ _ _ Hph Hl) as Hp.
    destruct (phase_call e rest Hng Hp) as [Hrest Hsame].
    split; simpl.
    + apply Forall_insert; assumption.
    + pose proof (holders_insert ts i _ rest Hl) as Hh.
      unfold weight in Hh. rewrite Hsame in Hh. lia.
Qed.

Lemma invariant_reachable (st st' : State) :
  rtc step st st' -> invariant st -> invariant st'.
Proof.
  induction 1 as [|st st1 st2 Hs _ IH]; [auto|].
  intros Hinv. apply IH. eapply invariant_step; eassumption.
Qed.

(** Whatever the interleaving, two threads never hold the permit together,
    and never are both about to call the automation session. *)
Lemma mutual_exclusion (ps : list (list Event)) (st : State) :
  Forall job_program ps ->
  rtc step (mkState 1 ps) st ->
  (sem st <= 1)%nat
  /\ forall i j p q,
       i <> j -> threads st !! i = Some p -> threads st !! j = Some q ->
       ~ (holding p = true /\ holding q = true)
       /\ forall e1 r1 e2 r2,
            p = e1 :: r1 -> q = e2 :: r2 ->
            ~ (automation e1 = true /\ automation e2 = true).
Proof.
  intros Hps Hreach.
  pose proof (invariant_reachable _ _ Hreach (invariant_init ps Hps))
    as [Hph Hsem].
  split; [lia|].
  intros i j p q Hne Hi Hj.
  assert (Hex : ~ (holding p = true /\ holding q = true)).
  { intros [Hp Hq].
    pose proof (two_holders _ i j p q Hne Hi Hj Hp Hq). lia. }
  split; [exact Hex|].
  intros e1 r1 e2 r2 -> -> [H1 H2]. apply Hex.
  pose proof (Forall_lookup_1 _ _ _ _ Hph Hi) as Hp1.
  pose proof (Forall_lookup_1 _ _ _ _ Hph Hj) as Hp2.
  split; apply automation_needs_permit; assumption.
Qed.

Section GateProperties.
Import Scenarios.

(** C3.  Two calls of [convert_to_pdf] on one engine, each doing what a run
    of the call does (whatever the host, the strategy and the outcome): each
    acquires the permit after reading the clock and before anything else,
    and releases it last, after the session is closed and the cleanup has
    run; and however the two interleave under the semaphore, at most one of
    them holds the permit, so they are never both about to call the
    automation session or the converter. *)
Theorem C3_single_permit_gate
    (env : Env) (self : ExcelMirrorEngine)
    (data1 data2 : bytes) (name1 name2 : string)
    (options1 options2 : option ConversionOptions)
    (w1 w2 : World) (st : State) :
  (0 < permits w1)%nat -> (0 < permits w2)%nat ->
  let p1 := program_of (convert_to_pdf env self data1 name1 options1) w1 in
  let p2 := program_of (convert_to_pdf env self data2 name2 options2) w2 in
  rtc step (mkState 1 (p1 :: p2 :: nil)) st ->
  job_program p1 /\ job_program p2
  /\ (sem st <= 1)%nat
  /\ forall q1 q2,
       threads st = q1 :: q2 :: nil ->
       ~ (holding q1 = true /\ holding q2 = true)
       /\ forall e1 r1 e2 r2,
            q1 = e1 :: r1 -> q2 = e2 :: r2 ->
            ~ (automation e1 = true /\ automation e2 = true).
Proof.
  intros Hp1 Hp2 p1 p2 Hreach.
  assert (Hj1 : job_program p1) by (apply convert_to_pdf_program; exact Hp1).
  assert (Hj2 : job_program p2) by (apply convert_to_pdf_program; exact Hp2).
  split; [exact Hj1|]. split; [exact Hj2|].
  assert (Hps : Forall job_program (p1 :: p2 :: nil))
    by (repeat constructor; assumption).
  destruct (mutual_exclusion _ st Hps Hreach) as [Hsem Hex].
  split; [exact Hsem|].
  intros q1 q2 Hts.
  apply (Hex 0%nat 1%nat q1 q2); [discriminate | |]; rewrite Hts; reflexivity.
Qed.

(** An interleaving in which the first call has acquired the permit and the
    second has not started. *)
Lemma C3_single_permit_gate_witness :
  let p1 := program_of (convert_to_pdf env_excel engine workbook_bytes
                                       "report.xlsx" None) idle_world in
  let p2 := program_of (convert_to_pdf env_excel engine workbook_bytes
                                       "plan.xlsx" (Some b5_options))
                       idle_world in
  holding (skipn 2 p1) = true
  /\ ~ (holding (skipn 2 p1) = true /\ holding p2 = true).
Proof.
  intros p1 p2. split; [vm_compute; reflexivity|].
  assert (E1 : p1 = ETime 0 :: EAcquire :: skipn 2 p1)
    by (vm_compute; reflexivity).
  assert (Hreach : rtc step (mkState 1 (p1 :: p2 :: nil))
                            (mkState 0 (skipn 2 p1 :: p2 :: nil))).
  { eapply rtc_l.
    - apply (step_call 0 (ETime 0) (EAcquire :: skipn 2 p1) 1 (p1 :: p2 :: nil)).
      + simpl. rewrite <- E1. reflexivity.
      + split; discriminate.
    - eapply rtc_l; [|apply rtc_refl].
      apply (step_acquire 0 (skipn 2 p1) 0
                          ((EAcquire :: skipn 2 p1) :: p2 :: nil)).
      reflexivity. }
  assert (Hp : (0 < permits idle_world)%nat) by (simpl; lia).
  destruct (C3_single_permit_gate env_excel engine workbook_bytes
              workbook_bytes "report.xlsx" "plan.xlsx" None (Some b5_options)
              idle_world idle_world _ Hp Hp Hreach) as (_ & _ & _ & Hex).
  apply (Hex (skipn 2 p1) p2 eq_refl).
Defined.

End GateProperties.

End GateProofs.
(* ===================================================================== *)
(** * Further properties of the code *)
(* ===================================================================== *)

From Stdlib Require Import Lqa.

(* ===================================================================== *)
(** * Properties of the placement on the page *)
(* ===================================================================== *)

Module LayoutProofs.
Import Geometry Layout GeometryProofs.

#[local] Open Scope Q_scope.










(** ** The ReportLab page of [create_f4_pdf_from_images] *)


Lemma inject_Z_zero (z : Z) : inject_Z z == 0 <-> z = 0%Z.
Proof. unfold Qeq. simpl. lia. Qed.

Lemma py_div_None (a b : Q) : py_div a b = None <-> b == 0.
Proof.
  unfold py_div. destruct (Qeq_bool b 0) eqn:E.
  - apply Qeq_bool_eq in E. split; auto.
  - apply Qeq_bool_neq in E. split; [discriminate | contradiction].
Qed.


Lemma py_div_inject_None (a : Q) (z : Z) :
  py_div a (inject_Z z) = None <-> z = 0%Z.
Proof.
  rewrite py_div_None. apply inject_Z_zero.
Qed.




Lemma f4_place_image_None (img : Z * Z) :
  f4_place_image img = None <-> degenerate img.
Proof.
  destruct img as [w h]. unfold f4_place_image, f4_image_scale, degenerate.
  simpl.
  destruct (py_div _ (inject_Z w)) as [rw|] eqn:Ew.
  - destruct (py_div _ (inject_Z h)) as [rh|] eqn:Eh.
    + split; [discriminate|]. intros [H|H].
      * rewrite (proj2 (py_div_inject_None _ _) H) in Ew. discriminate.
      * rewrite (proj2 (py_div_inject_None _ _) H) in Eh. discriminate.
    + apply py_div_inject_None in Eh. split; auto.
  - apply py_div_inject_None in Ew. split; auto.
Qed.

Lemma f4_place_image_page (img : Z * Z) (p : Placement) :
  f4_place_image img = Some p -> page_w p = f4_width /\ page_h p = f4_height.
Proof.
  destruct img as [w h]. unfold f4_place_image.
  destruct (f4_image_scale w h); [|discriminate].
  intros H. inversion H; subst. split; reflexivity.
Qed.

(** X3.  [create_f4_pdf_from_images] makes one F4 page per image, in the order of
    the list; it stops with [ZeroDivisionError] exactly when some image has a
    zero width or height. *)
Theorem f4_pdf_has_one_page_per_image (images : list (Z * Z)) :
  (create_f4_pdf_from_images images = None <-> Exists degenerate images)
  /\ (forall pages,
        create_f4_pdf_from_images images = Some pages ->
        Forall2 (fun img p => f4_place_image img = Some p
                              /\ page_w p = f4_width /\ page_h p = f4_height)
                images pages).
Proof.
  induction images as [|img rest [IHn IHs]]; simpl.
  - split.
    + split; [discriminate | intros H; inversion H].
    + intros pages H. inversion H. constructor.
  - destruct (f4_place_image img) as [p|] eqn:Ep.
    + destruct (create_f4_pdf_from_images rest) as [ps|] eqn:Er.
      * split.
        -- split; [discriminate|]. intros H. exfalso.
           apply Exists_cons in H. destruct H as [H|H].
           ++ apply (proj2 (f4_place_image_None _)) in H. congruence.
           ++ apply (proj2 IHn) in H. discriminate.
        -- intros pages H. inversion H; subst. constructor.
           ++ split; [exact Ep | eapply f4_place_image_page; exact Ep].
           ++ apply IHs. reflexivity.
      * split; [|discriminate]. split; [|reflexivity].
        intros _. apply Exists_cons_tl. apply IHn. reflexivity.
    + split; [|discriminate]. split; [|reflexivity].
      intros _. apply Exists_cons_hd. apply f4_place_image_None. exact Ep.
Qed.

(** ** The flexible page of the capture path *)

Lemma screen_place_image_None (img : Z * Z) :
  screen_place_image img = None <-> fst img = 0%Z.
Proof.
  destruct img as [w h]. unfold screen_place_image, screen_image_scale. simpl.
  destruct (py_div _ (inject_Z w)) as [r|] eqn:Ew.
  - split; [discriminate|]. intros H.
    rewrite (proj2 (py_div_inject_None _ _) H) in Ew. discriminate.
  - apply py_div_inject_None in Ew. split; auto.
Qed.

Lemma screen_place_image_Some (img : Z * Z) (p : Placement) :
  screen_place_image img = Some p ->
  page_w p = fst (landscape A4)
  /\ draw_x p = 0 /\ draw_y p = 0
  /\ draw_w p = page_w p /\ draw_h p = page_h p
  /\ keeps_aspect (fst img) (snd img) p.
Proof.
  destruct img as [w h]. unfold screen_place_image, screen_image_scale.
  destruct (py_div _ (inject_Z w)) as [r|] eqn:Ew; [|discriminate].
  intros H. inversion H; subst; clear H. unfold keeps_aspect. simpl.
  repeat (split; [reflexivity|]).
  unfold py_div in Ew. destruct (Qeq_bool (inject_Z w) 0) eqn:E0; [discriminate|].
  apply Qeq_bool_neq in E0. inversion Ew; subst. field. exact E0.
Qed.

(** X4.  [create_pdf_from_images] makes one page per image, in the order of the
    list: as wide as A4 landscape and exactly as high as the image scaled to
    that width, with the image drawn from the origin over the whole page in
    its own proportions.  It stops with [ZeroDivisionError] exactly when some
    image has a zero width. *)
Theorem capture_pdf_page_follows_image (images : list (Z * Z)) :
  (create_pdf_from_images images = None
   <-> Exists (fun img => fst img = 0%Z) images)
  /\ (forall pages,
        create_pdf_from_images images = Some pages ->
        Forall2 (fun img p =>
                   page_w p = fst (landscape A4)
                   /\ draw_x p = 0 /\ draw_y p = 0
                   /\ draw_w p = page_w p /\ draw_h p = page_h p
                   /\ keeps_aspect (fst img) (snd img) p)
                images pages).
Proof.
  induction images as [|img rest [IHn IHs]]; simpl.
  - split.
    + split; [discriminate | intros H; inversion H].
    + intros pages H. inversion H. constructor.
  - destruct (screen_place_image img) as [p|] eqn:Ep.
    + destruct (create_pdf_from_images rest) as [ps|] eqn:Er.
      * split.
        -- split; [discriminate|]. intros H. exfalso.
           apply Exists_cons in H. destruct H as [H|H].
           ++ apply (proj2 (screen_place_image_None _)) in H. congruence.
           ++ apply (proj2 IHn) in H. discriminate.
        -- intros pages H. inversion H; subst. constructor.
           ++ apply screen_place_image_Some. exact Ep.
           ++ apply IHs. reflexivity.
      * split; [|discriminate]. split; [|reflexivity].
        intros _. apply Exists_cons_tl. apply IHn. reflexivity.
    + split; [|discriminate]. split; [|reflexivity].
      intros _. apply Exists_cons_hd. apply screen_place_image_None. exact Ep.
Qed.

End LayoutProofs.
(* ===================================================================== *)
(** * Further properties of the bounding region *)
(* ===================================================================== *)

Module RegionProofs.
Import UsedRange UsedRangeProofs.

(** The bounds after the loop, for a sheet with a used range. *)
Lemma used_bounds_cover (ws : Worksheet) a b c d :
  (forall used, UsedRange ws = Some used ->
     1 <= RowsCount used /\ 1 <= ColumnsCount used) ->
  (forall s, In s (Shapes ws) ->
     Row (TopLeftCell s) <= Row (BottomRightCell s)
     /\ Column (TopLeftCell s) <= Column (BottomRightCell s)) ->
  used_bounds ws = (a, b, c, d) ->
  forall x, In x (content_cells ws) ->
    a <= Row x <= c /\ b <= Column x <= d.
Proof.
  intros Hused Hshape E x Hx. unfold used_bounds in E.
  destruct (UsedRange ws) as [used|] eqn:Eu.
  - simpl in E. apply fold_expand_shape in E.
    destruct E as ((Ha1 & Ha2 & _) & (Hb1 & Hb2 & _)
                   & (Hc1 & Hc2 & _) & (Hd1 & Hd2 & _)).
    destruct (Hused used eq_refl) as [Hr Hc].
    unfold content_cells in Hx. rewrite Eu in Hx.
    simpl in Hx. destruct Hx as [<-|[<-|Hx]]; simpl; try lia.
    apply in_flat_map in Hx. destruct Hx as (s & Hs & Hx).
    specialize (Ha2 s Hs); specialize (Hb2 s Hs);
    specialize (Hc2 s Hs); specialize (Hd2 s Hs).
    destruct (Hshape s Hs) as [? ?].
    simpl in Hx. destruct Hx as [<-|[<-|[]]]; lia.
  - apply fold_expand_shape in E.
    destruct E as ((Ha1 & Ha2 & _) & (Hb1 & Hb2 & _)
                   & (Hc1 & Hc2 & _) & (Hd1 & Hd2 & _)).
    unfold content_cells in Hx. rewrite Eu in Hx. simpl in Hx.
    apply in_flat_map in Hx. destruct Hx as (s & Hs & Hx).
    specialize (Ha2 s Hs); specialize (Hb2 s Hs);
    specialize (Hc2 s Hs); specialize (Hd2 s Hs).
    destruct (Hshape s Hs) as [? ?].
    simpl in Hx. destruct Hx as [<-|[<-|[]]]; lia.
Qed.

(** X5.  Wherever the content of a sheet lies, also beyond row 1000000,
    [get_used_range_with_shapes] returns a region when the sheet has a used
    range or a shape, and the region contains the used range and both anchor
    cells of every shape. *)
Theorem region_contains_all_content (ws : Worksheet) :
  well_formed ws ->
  content_cells ws <> nil ->
  exists r, get_used_range_with_shapes ws = Some r /\ covers r ws.
Proof.
  intros (_ & Hused & Hshape) Hne.
  unfold get_used_range_with_shapes.
  destruct (used_bounds ws) as [[[a b] c] d] eqn:E.
  pose proof (used_bounds_cover ws a b c d Hused Hshape E) as Hcov.
  destruct (content_cells ws) as [|x0 xs] eqn:Ecells; [congruence|].
  assert (Hge : (c >=? a) && (d >=? b) = true).
  { specialize (Hcov x0 (or_introl eq_refl)).
    apply andb_true_intro. split; apply Z.geb_le; lia. }
  rewrite Hge. eexists. split; [reflexivity|].
  unfold covers. rewrite Ecells. intros x Hx. unfold inside. simpl.
  apply Hcov. exact Hx.
Qed.

Lemma region_contains_all_content_witness :
  exists r, get_used_range_with_shapes deep_sheet = Some r
            /\ covers r deep_sheet.
Proof.
  apply (region_contains_all_content deep_sheet).
  - exact deep_sheet_well_formed.
  - discriminate.
Defined.

(** ** The order in which Excel enumerates the shapes *)

Lemma expand_shape_comm (b : Bounds) (s1 s2 : Shape) :
  expand_shape (expand_shape b s1) s2 = expand_shape (expand_shape b s2) s1.
Proof.
  destruct b as [[[a0 b0] c0] d0]. unfold expand_shape.
  apply f_equal2; [apply f_equal2; [apply f_equal2|]|]; lia.
Qed.

Lemma fold_expand_shape_perm (l l' : list Shape) :
  Permutation l l' ->
  forall b, fold_left expand_shape l b = fold_left expand_shape l' b.
Proof.
  induction 1 as [|s l l' _ IH|s1 s2 l|l1 l2 l3 _ IH1 _ IH2]; intros b; simpl.
  - reflexivity.
  - apply IH.
  - rewrite expand_shape_comm. reflexivity.
  - rewrite IH1. apply IH2.
Qed.

(** X6.  The region does not depend on the order in which [ws.Shapes] yields the
    shapes. *)
Theorem region_independent_of_shape_order (ws ws' : Worksheet) :
  UsedRange ws = UsedRange ws' ->
  Permutation (Shapes ws) (Shapes ws') ->
  get_used_range_with_shapes ws = get_used_range_with_shapes ws'.
Proof.
  intros Eu Hp. unfold get_used_range_with_shapes, used_bounds.
  rewrite Eu. rewrite (fold_expand_shape_perm _ _ Hp). reflexivity.
Qed.

Lemma region_independent_of_shape_order_witness :
  get_used_range_with_shapes
    (mkWorksheet true (Some (mkRange 2 2 3 3))
       (mkShape (mkCell 1 4) (mkCell 2 9) :: mkShape (mkCell 7 1) (mkCell 8 2)
        :: nil))
  = get_used_range_with_shapes
      (mkWorksheet true (Some (mkRange 2 2 3 3))
         (mkShape (mkCell 7 1) (mkCell 8 2) :: mkShape (mkCell 1 4) (mkCell 2 9)
          :: nil)).
Proof.
  apply region_independent_of_shape_order.
  - reflexivity.
  - simpl. apply perm_swap.
Defined.

End RegionProofs.
(* ===================================================================== *)
(** * The files of a job *)
(* ===================================================================== *)

Module WorkspaceProofs.
Import Engine Judgements Observations EngineProofs.

#[local] Open Scope eng_scope.

Section Cleanup.

Variable env : Env.

(** One round of the loop of [_cleanup_files]. *)
Lemma cleanup_round (file_path : string) (w : World) :
  exists w',
    try_pass (found <- path_exists file_path ;;
              if found then os_remove env file_path else ret tt) w
    = (Ret tt, w')
    /\ permits w' = permits w
    /\ (fs w' = fs w \/ fs w' = delete file_path (fs w))
    /\ (removals_succeed env -> fs w' = delete file_path (fs w)).
Proof.
  unfold try_pass, try_except, bind, path_exists, os_remove, ret.
  destruct (fs w !! file_path) as [data|] eqn:E; simpl.
  - destruct (env_io_fault env (Remove file_path)
                (log (EFile (PathExists file_path) true) w)) as [e|] eqn:Ef;
      simpl; rewrite ?E; simpl.
    + eexists. split; [reflexivity|]. simpl. split; [reflexivity|].
      split; [left; reflexivity|].
      intros H. rewrite H in Ef. discriminate.
    + eexists. split; [reflexivity|]. simpl. auto.
  - eexists. split; [reflexivity|]. simpl. split; [reflexivity|].
    split; [left; reflexivity|].
    intros _. symmetry. apply delete_id. exact E.
Qed.

Lemma cleanup_files_spec (files : list string) (w : World) :
  exists w',
    _cleanup_files env files w = (Ret tt, w')
    /\ permits w' = permits w
    /\ (forall p, ~ In p files -> fs w' !! p = fs w !! p)
    /\ (forall p, fs w !! p = None -> fs w' !! p = None)
    /\ (removals_succeed env -> forall p, In p files -> fs w' !! p = None).
Proof.
  unfold _cleanup_files. revert w.
  induction files as [|f files IH]; intros w; simpl.
  - exists w. unfold ret. repeat split; auto. intros _ p [].
  - destruct (cleanup_round f w) as (w1 & E1 & Hp1 & Hfs1 & Hrm1).
    destruct (IH w1) as (w2 & E2 & Hp2 & Hout2 & Hnone2 & Hrm2).
    exists w2. unfold bind at 1. rewrite E1. split; [exact E2|].
    split; [congruence|]. split; [|split].
    + intros p Hp. rewrite Hout2 by tauto.
      destruct Hfs1 as [->| ->]; [reflexivity|].
      apply lookup_delete_ne. intros ->. apply Hp. left. reflexivity.
    + intros p Hp. apply Hnone2.
      destruct Hfs1 as [->| ->]; [exact Hp|].
      rewrite lookup_delete_None. right. exact Hp.
    + intros Hok p [<-|Hin].
      * apply Hnone2. rewrite (Hrm1 Hok). apply lookup_delete_eq.
      * apply Hrm2; assumption.
Qed.

End Cleanup.



(** ** A successful job takes its files with it *)

Lemma fs_after {A} (m : M A) w r w' :
  steps same_files m -> m w = (r, w') -> fs w' = fs w.
Proof. intros Hs E. specialize (Hs w). rewrite E in Hs. exact Hs. Qed.

Lemma new_job_id_inv env w id w' :
  new_job_id env w = (Ret id, w') -> id = env_job_id env w.
Proof. unfold new_job_id. intros H. inversion H. reflexivity. Qed.

Lemma force_gc_files : steps same_files _force_gc.
Proof.
  unfold _force_gc. run_steps preorder_same_files files_call.
Qed.

Section SuccessfulJob.

Variable env : Env.
Variables (self : ExcelMirrorEngine) (excel_data : bytes) (file_name : string).

Lemma convert_job_success_files (options : ConversionOptions) (start_time : Q)
    w pdf size count label ms w' :
  convert_job env self excel_data file_name options start_time w
  = (Ret (Success pdf size count label ms), w') ->
  exists w1 w2,
    _cleanup_files env
      (job_input_path self (env_job_id env w) file_name
       :: job_output_path self (env_job_id env w) :: nil) w1
    = (Ret tt, w2)
    /\ fs w' = fs w2.
Proof.
  unfold convert_job. intros H.
  apply try_finally_Ret_inv in H. destruct H as (wf & H & Hgc).
  apply (fs_after _ _ _ _ force_gc_files) in Hgc.
  apply try_except_Ret_inv in H. destruct H as [H|(e & w1 & _ & H)].
  2:{ cbv zeta in H. peel H. apply ret_inv in H. destruct H as [H _].
      discriminate. }
  cbv zeta in H.
  apply bind_Ret_inv in H. destruct H as (job_id & w1 & Eid & H).
  apply new_job_id_inv in Eid. subst job_id.
  apply bind_Ret_inv in H. destruct H as (? & w2 & _ & H).
  apply bind_Ret_inv in H. destruct H as (? & w3 & _ & H).
  apply bind_Ret_inv in H. destruct H as (? & w4 & _ & H).
  apply bind_Ret_inv in H. destruct H as (success & w5 & _ & H).
  apply bind_Ret_inv in H. destruct H as (failed & w6 & _ & H).
  destruct failed.
  - peel H. apply ret_inv in H. destruct H as [H _]. discriminate.
  - apply bind_Ret_inv in H. destruct H as (pdf_data & w7 & _ & H).
    apply bind_Ret_inv in H. destruct H as (page_count & w8 & _ & H).
    apply bind_Ret_inv in H. destruct H as ([] & w9 & Eclean & H).
    apply bind_Ret_inv in H. destruct H as (now & w10 & Enow & H).
    apply bind_Ret_inv in H. destruct H as (? & w11 & Eprint & H).
    apply ret_inv in H. destruct H as [_ <-].
    exists w8, w9. split; [exact Eclean|].
    apply (fs_after _ _ _ _ (files_time_time env)) in Enow.
    apply (fs_after _ _ _ _ (files_print _)) in Eprint.
    congruence.
Qed.

Lemma convert_to_pdf_Ret_inv (options : option ConversionOptions) w r w' :
  convert_to_pdf env self excel_data file_name options w = (Ret r, w') ->
  exists start_time w2,
    convert_job env self excel_data file_name (options_or_default options)
                start_time (job_world env w)
    = (Ret r, w2)
    /\ fs w' = fs w2
    /\ permits w' = S (permits w2).
Proof.
  unfold convert_to_pdf, with_semaphore. cbv zeta. intros H.
  apply bind_Ret_inv in H. destruct H as (t0 & w0 & Et & H).
  unfold time_time in Et. inversion Et; subst t0 w0; clear Et.
  apply bind_Ret_inv in H. destruct H as ([] & w1 & Ea & H).
  unfold acquire in Ea. simpl in Ea.
  destruct (permits w) as [|n] eqn:En; [discriminate|].
  inversion Ea; subst w1; clear Ea.
  apply try_finally_Ret_inv in H. destruct H as (w2 & H & Hrel).
  unfold release in Hrel. inversion Hrel; subst w'; clear Hrel.
  exists (env_clock env w), w2. split; [|split; reflexivity].
  unfold job_world. simpl. rewrite En. exact H.
Qed.

End SuccessfulJob.

(** X8.  When [convert_to_pdf] returns a success result and no removal has
    failed, neither the input file nor the output file of the job is left in
    the temporary directory. *)
Theorem successful_conversion_leaves_no_job_file
    (env : Env) (self : ExcelMirrorEngine) (excel_data : bytes)
    (file_name : string) (options : option ConversionOptions)
    (w : World) pdf size count label ms w' :
  removals_succeed env ->
  convert_to_pdf env self excel_data file_name options w
  = (Ret (Success pdf size count label ms), w') ->
  fs w' !! job_input_path self (drawn_job_id env w) file_name = None
  /\ fs w' !! job_output_path self (drawn_job_id env w) = None.
Proof.
  intros Hok H.
  apply convert_to_pdf_Ret_inv in H. destruct H as (t0 & w2 & H & Hfs & _).
  apply convert_job_success_files in H. destruct H as (w3 & w4 & E & Hfs').
  match type of E with
  | _cleanup_files _ ?files _ = _ =>
      destruct (cleanup_files_spec env files w3) as (w4' & E' & _ & _ & _ & Hrm)
  end.
  rewrite E in E'. inversion E'; subst w4'.
  unfold drawn_job_id. rewrite Hfs, Hfs'.
  split; apply (Hrm Hok); simpl; auto.
Qed.

Lemma successful_conversion_leaves_no_job_file_witness :
  exists w',
    snd (convert_to_pdf Scenarios.env_converter_ok Scenarios.engine
           Scenarios.workbook_bytes "report.xlsx" None Scenarios.idle_world)
    = w'
    /\ fs w' !! job_input_path Scenarios.engine Scenarios.job_id "report.xlsx"
       = None
    /\ fs w' !! job_output_path Scenarios.engine Scenarios.job_id = None.
Proof.
  pose (run := convert_to_pdf Scenarios.env_converter_ok Scenarios.engine
                 Scenarios.workbook_bytes "report.xlsx" None
                 Scenarios.idle_world).
  assert (E : run = (Ret (Success (b64encode Scenarios.sample_pdf) 54 1
                                  "F4 Landscape" 18000), snd run))
    by (vm_compute; reflexivity).
  unfold run in E.
  exists (snd run). split; [reflexivity|].
  apply (successful_conversion_leaves_no_job_file
           Scenarios.env_converter_ok Scenarios.engine Scenarios.workbook_bytes
           "report.xlsx" None Scenarios.idle_world _ _ _ _ _ _
           (fun _ _ => eq_refl) E).
Defined.

(** ** Where the files of a job are created *)

Lemma app_cons (x : ascii) (a b : string) :
  String x a +:+ b = String x (a +:+ b).
Proof. reflexivity. Qed.

Lemma app_nil (b : string) : "" +:+ b = b.
Proof. reflexivity. Qed.


Lemma substring_whole (b : string) :
  String.substring 0 (String.length b) b = b.
Proof. induction b as [|c b IH]; simpl; [|rewrite IH]; reflexivity. Qed.

Lemma substring_app_r (a b : string) :
  String.substring (String.length a) (String.length b) (a +:+ b) = b.
Proof.
  induction a as [|c a IH]; rewrite ?app_cons, ?app_nil; simpl;
    [apply substring_whole | exact IH].
Qed.

Lemma length_app_string (a b : string) :
  String.length (a +:+ b) = (String.length a + String.length b)%nat.
Proof.
  induction a as [|c a IH]; rewrite ?app_cons, ?app_nil; simpl;
    [|rewrite IH]; reflexivity.
Qed.

Lemma strlen_app (a b : string) : strlen (a +:+ b) = strlen a + strlen b.
Proof. unfold strlen. rewrite length_app_string. lia. Qed.


Lemma slice_app_r (a b : string) :
  slice (a +:+ b) (strlen a) (strlen (a +:+ b)) = b.
Proof.
  unfold slice. rewrite strlen_app.
  replace (strlen a + strlen b - strlen a) with (strlen b) by lia.
  unfold strlen. rewrite !Nat2Z.id. apply substring_app_r.
Qed.

Lemma ascii_in_cons (c x : ascii) (s : string) :
  ascii_in c (String x s) = Ascii.eqb c x || ascii_in c s.
Proof. reflexivity. Qed.

Lemma no_slash_app (a b : string) :
  no_slash (a +:+ b) <-> no_slash a /\ no_slash b.
Proof.
  unfold no_slash. induction a as [|x a IH].
  - simpl. split; [intros H; split; [reflexivity | exact H] | intros [_ H]; exact H].
  - change (String x a +:+ b) with (String x (a +:+ b)).
    rewrite !ascii_in_cons. destruct (Ascii.eqb "/" x); simpl.
    + split; [discriminate | intros [H _]; discriminate].
    + exact IH.
Qed.



Lemma safe_char_not_slash (c : ascii) : Ascii.eqb "/" (safe_char c) = false.
Proof. destruct c as [[] [] [] [] [] [] [] []]; reflexivity. Qed.

Lemma safe_name_no_slash (file_name : string) :
  no_slash (string_map safe_char file_name).
Proof.
  unfold no_slash. induction file_name as [|c s IH]; simpl.
  - reflexivity.
  - rewrite ascii_in_cons, safe_char_not_slash. exact IH.
Qed.



Lemma last_char_plain (front : string) (last : ascii) :
  slice (front +:+ String last EmptyString)
        (strlen (front +:+ String last EmptyString) - 1)
        (strlen (front +:+ String last EmptyString))
  = String last EmptyString.
Proof.
  rewrite strlen_app.
  replace (strlen front + strlen (String last EmptyString) - 1)
    with (strlen front) by (unfold strlen; simpl; lia).
  rewrite <- strlen_app. apply slice_app_r.
Qed.

Lemma app_assoc_string (a b c : string) : (a +:+ b) +:+ c = a +:+ (b +:+ c).
Proof.
  induction a as [|x a IH]; [reflexivity|].
  rewrite !app_cons, IH. reflexivity.
Qed.

Section InTempDir.

Variables (d name : string).
Hypothesis Hd : plain_directory d.
Hypothesis Hname : no_slash name.

Lemma join_plain : os_path_join d name = d +:+ "/" +:+ name.
Proof.
  destruct Hd as (front & last & -> & Hl). unfold os_path_join.
  assert (Hp : String.prefix "/" name = false).
  { unfold no_slash in Hname. destruct name as [|x s]; [reflexivity|].
    rewrite ascii_in_cons in Hname. apply orb_false_elim in Hname.
    destruct Hname as [Hx _]. cbn -[ascii_dec].
    destruct (ascii_dec "/" x) as [<-|Hne]; [|reflexivity].
    rewrite Ascii.eqb_refl in Hx. discriminate. }
  rewrite Hp, last_char_plain.
  assert (Hne : String.eqb (front +:+ String last EmptyString) "" = false)
    by (destruct front; reflexivity).
  rewrite Hne. simpl orb.
  assert (Hs : ascii_in "/" (String last EmptyString) = false).
  { rewrite ascii_in_cons.
    replace (Ascii.eqb "/" last) with false; [reflexivity|].
    symmetry. apply Ascii.eqb_neq. intros E. apply Hl. symmetry. exact E. }
  rewrite Hs. reflexivity.
Qed.




End InTempDir.



(** ** The LibreOffice fallback *)





End WorkspaceProofs.
(* ===================================================================== *)
(** * The automation session and the choice of the converter *)
(* ===================================================================== *)

Module AutomationProofs.
Import Engine Judgements Observations EngineProofs.

#[local] Open Scope eng_scope.

(** ** Taking and giving back the permit *)

Lemma emits_acquire (P : list Event -> Prop) :
  P nil -> P (EAcquire :: nil) -> emits P acquire.
Proof.
  intros H0 H1 w. unfold acquire. destruct (permits w); simpl.
  - exists nil. auto.
  - exists (EAcquire :: nil). auto.
Qed.

Lemma emits_release (P : list Event -> Prop) :
  P (ERelease :: nil) -> emits P release.
Proof. intros H1 w. exists (ERelease :: nil). auto. Qed.

Ltac event_side :=
  constructor;
  [ first [ intros ? ? ?; discriminate | intros ? ?; discriminate ]
  | constructor ].

Section Choice.

Variable env : Env.
Variables (self : ExcelMirrorEngine) (excel_data : bytes) (file_name : string).
Variable options : ConversionOptions.
Variable start_time : Q.

Lemma com_job_runs_no_subprocess :
  HAS_WIN32COM env = true ->
  emits (Forall no_subprocess)
        (convert_job env self excel_data file_name options start_time).
Proof.
  intros Hcom. unfold convert_job. rewrite Hcom. unfold_engine.
  run_steps (preorder_extends _ (closed_Forall no_subprocess))
            ltac:(emits_call event_side).
Qed.

Lemma simulated_job_makes_no_automation_call :
  HAS_WIN32COM env = false ->
  emits (Forall no_automation)
        (convert_job env self excel_data file_name options start_time).
Proof.
  intros Hcom. unfold convert_job. rewrite Hcom. unfold_engine.
  run_steps (preorder_extends _ (closed_Forall no_automation))
            ltac:(emits_call event_side).
Qed.

End Choice.

(** X10.  [convert_to_pdf] uses the converter that the import of [win32com] at
    start-up selected and no other: with pywin32 present it never starts a
    process, so a conversion that Excel fails is not tried again with
    LibreOffice; without pywin32 it makes no automation call. *)
Theorem converter_is_chosen_once
    (env : Env) (self : ExcelMirrorEngine) (excel_data : bytes)
    (file_name : string) (options : option ConversionOptions) :
  emits (Forall (other_converter_unused env))
        (convert_to_pdf env self excel_data file_name options).
Proof.
  unfold other_converter_unused, convert_to_pdf, with_semaphore.
  destruct (HAS_WIN32COM env) eqn:Hcom.
  - run_steps (preorder_extends _ (closed_Forall no_subprocess))
              ltac:(first [ emits_call event_side
                          | apply emits_acquire; [constructor | event_side]
                          | apply emits_release; event_side
                          | apply com_job_runs_no_subprocess; exact Hcom ]).
  - run_steps (preorder_extends _ (closed_Forall no_automation))
              ltac:(first [ emits_call event_side
                          | apply emits_acquire; [constructor | event_side]
                          | apply emits_release; event_side
                          | apply simulated_job_makes_no_automation_call;
                            exact Hcom ]).
Qed.

(** ** Rules for [finishes_with] and for [total] *)

Lemma total_catch {A} (m : M A) : returns m -> total (catch m).
Proof.
  intros Hm w. specialize (Hm w). unfold catch, try_except, bind, ret.
  destruct (m w) as [[a|e|] w1]; simpl in *; eauto. contradiction.
Qed.

Lemma finishes_bind {A B} (P : Event -> Prop) (m : M A) (k : A -> M B) :
  total m -> (forall a, finishes_with P (k a)) -> finishes_with P (bind m k).
Proof.
  intros Hm Hk w. destruct (Hm w) as (a & E). unfold bind.
  destruct (m w) as [r w1]. simpl in E. subst r. apply Hk.
Qed.

Lemma finishes_then_ret {A B} (P : Event -> Prop) (m : M A) (b : B) :
  finishes_with P m -> finishes_with P (bind m (fun _ => ret b)).
Proof.
  intros Hm w. destruct (Hm w) as (a & w' & e & rest & E & Et & He).
  exists b, w', e, rest. unfold bind, ret. rewrite E. auto.
Qed.

Lemma finishes_try_finally {A} (P : Event -> Prop) (m : M A) (fin : M unit) :
  total m -> finishes_with P fin -> finishes_with P (try_finally m fin).
Proof.
  intros Hm Hf w. destruct (Hm w) as (a & E). unfold try_finally.
  destruct (m w) as [r w1]. simpl in E. subst r.
  destruct (Hf w1) as ([] & w2 & e & rest & E2 & Et & He). rewrite E2.
  exists a, w2, e, rest. auto.
Qed.

Ltac run_total :=
  cbv zeta;
  repeat
    (lazymatch goal with
     | |- total (ret _) => apply total_ret
     | |- total (print _) => apply total_print
     | |- total (emit _) => apply total_emit
     | |- total (catch _) => apply total_catch; run_returns
     | |- total (try_pass _) => apply total_try_pass; run_returns
     | |- total (bind _ _) => apply total_bind; [|intros ?]
     | |- total (if ?c then _ else _) => destruct c
     | |- total (match ?x with _ => _ end) => destruct x
     end).

Section Session.

Variable env : Env.

Lemma finishes_try_pass_com (c : ComCall) :
  finishes_with (fun e => exists ok, e = ECom c ok) (try_pass (com_ env c)).
Proof.
  intros w. unfold try_pass, try_except.
  destruct (com__cases env c w) as [E|(e & E)]; rewrite E.
  - exists tt. eexists _, _, _. split; [reflexivity|].
    split; [reflexivity | eauto].
  - exists tt. eexists _, _, _. split; [reflexivity|].
    split; [reflexivity | eauto].
Qed.

Lemma com_error_handler_total (e : exn) : total (com_error_handler e).
Proof. unfold com_error_handler. run_total. Qed.

Lemma com_cleanup_quits (has_workbook : bool) :
  finishes_with quit_call (com_cleanup env has_workbook true).
Proof.
  unfold com_cleanup. apply finishes_bind.
  - run_total.
  - intros _. apply finishes_try_pass_com.
Qed.

(** Once [Dispatch] has returned the application, whatever follows ends by
    telling it to quit. *)
Lemma session_ends_with_quit (input_path output_path : string)
    (options : ConversionOptions) :
  finishes_with quit_call
    (r2 <- catch (com_ env (AppSet "Visible" (VBool false)) ;;
                  com_ env (AppSet "DisplayAlerts" (VBool false)) ;;
                  com_ env (AppSet "ScreenUpdating" (VBool false)) ;;
                  com_ env (AppSet "EnableEvents" (VBool false)) ;;
                  print "[ExcelMirror] Opening workbook..." ;;
                  com_ env (WorkbooksOpen input_path)) ;;
     match r2 with
     | inl e => r <- com_error_handler e ;; com_cleanup env false true ;; ret r
     | inr _ =>
       r3 <- catch (n <- com env WorkbookWorksheets ;;
                    for_each (seq 1 (as_nat n))
                      (fun sheet => _configure_page_setup env sheet options) ;;
                    print "[ExcelMirror] Exporting to PDF..." ;;
                    export_as_fixed_format env output_path ;;
                    com_ env WorkbookClose ;;
                    print "[ExcelMirror] PDF created successfully" ;;
                    ret true) ;;
       r <- match r3 with
            | inl e => com_error_handler e
            | inr v => ret v
            end ;;
       com_cleanup env true true ;; ret r
     end).
Proof.
  apply finishes_bind; [apply total_catch; run_returns|].
  intros [e|[]].
  - apply finishes_bind; [apply com_error_handler_total|]. intros r.
    apply finishes_then_ret. apply com_cleanup_quits.
  - apply finishes_bind.
    { apply total_catch. unfold _configure_page_setup. run_returns. }
    intros r3. apply finishes_bind.
    { destruct r3; [apply com_error_handler_total | apply total_ret]. }
    intros r. apply finishes_then_ret. apply com_cleanup_quits.
Qed.

End Session.

(** X11.  [_convert_with_com] never raises, whatever Excel does.  When the
    application could not be started it logs the error, makes no further
    call and returns [False]; once the application has been started, the
    last thing the function does on every path is to tell it to quit. *)
Theorem excel_is_always_told_to_quit
    (env : Env) (input_path output_path : string)
    (options : ConversionOptions) (w : World) :
  exists r w',
    _convert_with_com env input_path output_path options w = (Ret r, w')
    /\ match env_com env (Dispatch "Excel.Application")
                     (log (EPrint init_message) w) with
       | ComOk _ => exists ok rest, trace w' = ECom AppQuit ok :: rest
       | ComRaise e =>
           r = false
           /\ trace w'
              = EPrint ("[ExcelMirror] COM Error: " +:+ exn_str e)
                :: ECom (Dispatch "Excel.Application") false
                :: EPrint init_message :: trace w
       end.
Proof.
  unfold _convert_with_com.
  unfold bind at 1, catch at 1, try_except at 1, bind at 1, bind at 1,
    print at 1, emit at 1.
  change (com_ env (Dispatch "Excel.Application")
            (log (EPrint "[ExcelMirror] Initializing Excel COM...") w))
    with (com_ env (Dispatch "Excel.Application") (log (EPrint init_message) w)).
  unfold com_ at 1, bind at 1, com at 1.
  destruct (env_com env (Dispatch "Excel.Application")
              (log (EPrint init_message) w)) as [v|e] eqn:Ed.
  - cbn [ret].
    match goal with
    | |- exists r w', ?m ?w0 = _ /\ _ =>
        destruct (session_ends_with_quit env input_path output_path options w0)
          as (r & w' & ev & rest & E & Et & (ok & ->))
    end.
    exists r, w'. split; [exact E | eauto].
  - cbn [ret]. eexists _, _. split; [reflexivity|].
    split; reflexivity.
Qed.

(** ** The strict converter *)

Ltac unfold_strict :=
  unfold convert_excel_to_pdf_strict, strict_finally, strict_error_handler,
    strict_process_sheet, strict_set_margin, strict_set.

Section Strict.

Variable env : Env.
Variables (input_path output_path : string).

Lemma strict_finally_trace (w : World) :
  exists ok outcome w',
    strict_finally env w = (Ret tt, w')
    /\ trace w'
       = ERun taskkill_cmd (Some 10) outcome :: ECom CoUninitialize ok
         :: trace w.
Proof.
  unfold strict_finally, try_pass, try_except, bind at 1.
  destruct (com__cases env CoUninitialize w) as [E|(e & E)]; rewrite E;
    cbn [ret];
    match goal with
    | |- context [subprocess_run env ?c ?t ?w0] =>
        pose proof (returns_subprocess_run env c 10 w0) as Hr;
        destruct (one_subprocess_run env c t w0) as (ev & Et & (o & ->));
        destruct (subprocess_run env c t w0) as [[[]|e'|] w1]
    end; simpl in *; try contradiction; eauto 6.
Qed.

Lemma strict_handler_total (hw he : bool) (e : exn) :
  total (strict_error_handler env hw he e).
Proof. unfold strict_error_handler. run_total. Qed.

Lemma strict_body_total :
  total
    (r1 <- catch (print "\n[Step 1] Initializing Excel COM..." ;;
                  com_ env CoInitialize ;;
                  com_ env (Dispatch "Excel.Application")) ;;
     match r1 with
     | inl e => strict_error_handler env false false e
     | inr _ =>
       r2 <- catch (com_ env (AppSet "Visible" (VBool false)) ;;
                    com_ env (AppSet "DisplayAlerts" (VBool false)) ;;
                    com_ env (AppSet "ScreenUpdating" (VBool false)) ;;
                    com_ env (AppSet "EnableEvents" (VBool false)) ;;
                    com_ env (AppSet "PrintCommunication" (VBool false)) ;;
                    print "  ✓ Excel initialized" ;;
                    print "  ✓ PrintCommunication disabled" ;;
                    print "\n[Step 2] Opening workbook..." ;;
                    com_ env (WorkbooksOpen (os_path_abspath env input_path))) ;;
       match r2 with
       | inl e => strict_error_handler env false true e
       | inr _ =>
         r3 <- catch (name <- com env WorkbookName ;;
                      print ("  ✓ Workbook opened: " +:+ as_str name) ;;
                      shown <- com env SheetsCount ;;
                      print ("  ✓ Sheets: " +:+ str_of_Z (as_Z shown)) ;;
                      n <- com env SheetsCount ;;
                      for_each (seq 1 (as_nat n)) (strict_process_sheet env) ;;
                      print "\n[Step 4] Enabling PrintCommunication..." ;;
                      com_ env (AppSet "PrintCommunication" (VBool true)) ;;
                      print "  ✓ PrintCommunication enabled" ;;
                      print "\n[Step 5] Exporting to PDF..." ;;
                      export_as_fixed_format env (os_path_abspath env output_path) ;;
                      print ("  ✓ PDF exported: " +:+ output_path) ;;
                      print "\n[Step 6] Cleanup..." ;;
                      com_ env WorkbookClose) ;;
         match r3 with
         | inl e => strict_error_handler env true true e
         | inr _ =>
           r4 <- catch (print "  ✓ Workbook closed" ;; com_ env AppQuit) ;;
           match r4 with
           | inl e => strict_error_handler env false true e
           | inr _ =>
             print "  ✓ Excel quit" ;;
             emit EGcCollect ;;
             print "  ✓ COM objects released" ;;
             print "\n[Success] PDF created successfully!" ;;
             ret true
           end
         end
       end
     end).
Proof.
  apply total_bind; [apply total_catch; run_returns|]. intros [e|[]].
  { apply strict_handler_total. }
  apply total_bind; [apply total_catch; run_returns|]. intros [e|[]].
  { apply strict_handler_total. }
  apply total_bind.
  { apply total_catch. unfold strict_process_sheet, strict_set_margin, strict_set.
    run_returns. }
  intros [e|[]].
  { apply strict_handler_total. }
  apply total_bind; [apply total_catch; run_returns|]. intros [e|[]].
  { apply strict_handler_total. }
  run_total.
Qed.

End Strict.

(** X12.  [convert_excel_to_pdf_strict] never raises, whatever Excel does, and on
    every path, successful or not, the last two things it does are to call
    [CoUninitialize] and to run [taskkill /F /IM EXCEL.EXE] under a timeout
    of ten seconds: every call ends by killing the Excel processes of the
    host. *)
Theorem strict_conversion_ends_by_killing_excel
    (env : Env) (input_path output_path : string) (w : World) :
  exists r w' outcome ok rest,
    convert_excel_to_pdf_strict env input_path output_path w = (Ret r, w')
    /\ trace w'
       = ERun taskkill_cmd (Some 10) outcome :: ECom CoUninitialize ok :: rest.
Proof.
  unfold convert_excel_to_pdf_strict.
  unfold bind at 1, print at 1, emit at 1.
  unfold bind at 1, print at 1, emit at 1.
  unfold bind at 1, print at 1, emit at 1.
  unfold try_finally.
  match goal with
  | |- context [match ?body ?w0 with _ => _ end] =>
      destruct (strict_body_total env input_path output_path w0) as (r & E);
      destruct (body w0) as [r0 w1]; simpl in E; subst r0
  end.
  destruct (strict_finally_trace env w1) as (ok & outcome & w2 & E2 & Et).
  rewrite E2. exists r, w2, outcome, ok. eauto.
Qed.

(** X13.  The strict converter never assigns a paper size, which it leaves to the
    defaults of the printer; every orientation it sets is landscape, and
    every sheet is fitted to one page in width and to any number of pages in
    height. *)
Theorem strict_conversion_leaves_paper_size_alone
    (env : Env) (input_path output_path : string) :
  emits (Forall strict_layout)
        (convert_excel_to_pdf_strict env input_path output_path).
Proof.
  unfold_strict.
  run_steps (preorder_extends _ (closed_Forall strict_layout))
            ltac:(emits_call
                    ltac:(constructor;
                          [ repeat split;
                            first [ intros ? ? ?; discriminate
                                  | intros ? ? ? Heq; inversion Heq; reflexivity ]
                          | constructor ])).
Qed.


(** ** A strict conversion that returns [True] *)

Section WhenTrue.

Variable S : Event -> Prop.

Lemma when_true_ret (b : bool) : when_true S (ret b).
Proof.
  intros w w' H. apply ret_inv in H. destruct H as [_ <-].
  exists nil. split; [reflexivity | constructor].
Qed.

Lemma when_true_bind {A} (m : M A) (k : A -> M bool) :
  on_return S m -> (forall a, when_true S (k a)) -> when_true S (bind m k).
Proof.
  intros Hm Hk w w' H. apply bind_Ret_inv in H.
  destruct H as (a & w1 & E & H).
  destruct (Hm w) as (e1 & E1 & H1). rewrite E in E1, H1. simpl in *.
  destruct (Hk a w1 w' H) as (e2 & E2 & H2).
  exists (e2 ++ e1). rewrite E2, E1, app_assoc. split; [reflexivity|].
  apply Forall_app. split; [exact H2 | apply H1; eauto].
Qed.

(** A [try] block followed by what comes after it, with a handler that
    returns [False]. *)
Lemma when_true_catch {A} (m : M A) (h : exn -> M bool) (k : A -> M bool) :
  on_return S m ->
  (forall e w r w', h e w = (Ret r, w') -> r = false) ->
  (forall a, when_true S (k a)) ->
  when_true S (r <- catch m ;;
               match r with inl e => h e | inr a => k a end).
Proof.
  intros Hm Hh Hk w w' H. apply bind_Ret_inv in H.
  destruct H as (r & w1 & E & H).
  unfold catch, try_except, bind, ret in E.
  destruct (Hm w) as (e1 & E1 & H1).
  destruct (m w) as [[a|e|] w0]; simpl in *; inversion E; subst; clear E.
  - destruct (Hk a w1 w' H) as (e2 & E2 & H2).
    exists (e2 ++ e1). rewrite E2, E1, app_assoc. split; [reflexivity|].
    apply Forall_app. split; [exact H2 | apply H1; eauto].
  - apply Hh in H. discriminate.
Qed.

Lemma when_true_try_finally (m : M bool) (fin : M unit) :
  when_true S m -> emits (Forall S) fin -> when_true S (try_finally m fin).
Proof.
  intros Hm Hf w w' H. apply try_finally_Ret_inv in H.
  destruct H as (w1 & E & Ef).
  destruct (Hm w w1 E) as (e1 & E1 & H1).
  destruct (Hf w1) as (e2 & E2 & H2). rewrite Ef in E2. simpl in E2.
  exists (e2 ++ e1). rewrite E2, E1, app_assoc. split; [reflexivity|].
  apply Forall_app. split; assumption.
Qed.

Lemma on_return_for_each {A} (xs : list A) (body : A -> M unit) :
  (forall x, on_return S (body x)) -> on_return S (for_each xs body).
Proof.
  intros Hb. induction xs as [|x xs IH]; simpl.
  - apply on_return_ret.
  - apply on_return_bind; [apply Hb | intros _; exact IH].
Qed.

Variable env : Env.

Lemma on_return_com (c : ComCall) :
  S (ECom c true) -> on_return S (com env c).
Proof.
  intros HS w. unfold com. destruct (env_com env c w); simpl.
  - exists (ECom c true :: nil). split; [reflexivity|].
    intros _. constructor; [exact HS | constructor].
  - exists (ECom c false :: nil). split; [reflexivity|].
    intros (a & Ha). discriminate.
Qed.

Lemma on_return_export (path : string) :
  S (ECom (ExportAsFixedFormat path) true) ->
  on_return S (export_as_fixed_format env path).
Proof.
  intros HS w. unfold export_as_fixed_format.
  destruct (env_com env (ExportAsFixedFormat path) w); simpl.
  - exists (ECom (ExportAsFixedFormat path) true :: nil).
    split; [reflexivity|]. intros _. constructor; [exact HS | constructor].
  - exists (ECom (ExportAsFixedFormat path) false :: nil).
    split; [reflexivity|]. intros (a & Ha). discriminate.
Qed.

Lemma on_return_emit (e : Event) : S e -> on_return S (emit e).
Proof.
  intros HS w. exists (e :: nil). split; [reflexivity|].
  intros _. constructor; [exact HS | constructor].
Qed.

End WhenTrue.

Lemma always_false_ret {A} (m : M A) w r w' :
  bind m (fun _ => ret false) w = (Ret r, w') -> r = false.
Proof.
  intros H. apply bind_Ret_inv in H. destruct H as (a & w1 & _ & H).
  apply ret_inv in H. destruct H as [H _]. symmetry. exact H.
Qed.

Lemma strict_handler_false env hw he e w r w' :
  strict_error_handler env hw he e w = (Ret r, w') -> r = false.
Proof.
  unfold strict_error_handler. intros H. peel H.
  apply ret_inv in H. destruct H as [H _]. symmetry. exact H.
Qed.

(** [side] proves [S e] for the event [e] of a call that succeeded; [block]
    proves that a [try] / [except: pass] block emits events in [S]. *)
Ltac run_on_return side block :=
  cbv zeta;
  repeat
    (lazymatch goal with
     | |- on_return _ (ret _) => apply on_return_ret
     | |- on_return _ (com_ _ _) => apply on_return_com_; side
     | |- on_return _ (com _ _) => apply on_return_com; side
     | |- on_return _ (print _) => apply on_return_print; side
     | |- on_return _ (emit _) => apply on_return_emit; side
     | |- on_return _ (export_as_fixed_format _ _) =>
         apply on_return_export; side
     | |- on_return _ (for_each _ _) => apply on_return_for_each; intros ?
     | |- on_return _ (try_pass _) => apply on_return_emits; block
     | |- on_return _ (bind _ _) => apply on_return_bind; [|intros ?]
     | |- on_return _ (if ?c then _ else _) => destruct c
     end).

Ltac run_when_true side block :=
  cbv zeta;
  repeat
    (lazymatch goal with
     | |- when_true _ (ret _) => apply when_true_ret
     | |- when_true _ (bind (catch ?m)
                            (fun r => match r with
                                      | inl e => @?h e
                                      | inr a => @?k a
                                      end)) =>
         apply (when_true_catch _ m h k);
         [ run_on_return side block
         | intros ? ? ? ?; apply strict_handler_false
         | intros ? ]
     | |- when_true _ (bind _ _) =>
         apply when_true_bind; [run_on_return side block | intros ?]
     end).

Ltac no_failure_side := intros ? Heq; discriminate Heq.

Ltac passed_over_block :=
  run_steps (preorder_extends _ (closed_Forall no_hard_failure))
            ltac:(emits_call
                    ltac:(constructor;
                          [ intros ? Heq; inversion Heq; subst; reflexivity
                          | constructor ])).

Section StrictTrue.

Variable env : Env.
Variables (input_path output_path : string).

Lemma strict_true_no_hard_failure :
  when_true no_hard_failure
            (convert_excel_to_pdf_strict env input_path output_path).
Proof.
  unfold convert_excel_to_pdf_strict.
  apply when_true_bind; [apply on_return_print; no_failure_side | intros _].
  apply when_true_bind; [apply on_return_print; no_failure_side | intros _].
  apply when_true_bind; [apply on_return_print; no_failure_side | intros _].
  apply when_true_try_finally.
  - unfold strict_process_sheet, strict_set_margin, strict_set.
    run_when_true no_failure_side passed_over_block.
  - unfold strict_finally. passed_over_block.
Qed.

End StrictTrue.

(** ** The export of a strict conversion that returns [True] *)

Lemma closed_any : closed (fun _ : list Event => True).
Proof. split; auto. Qed.

Lemma grows_emits {A} (m : M A) : emits (fun _ => True) m -> grows m.
Proof. intros H w. destruct (H w) as (evs & E & _). eauto. Qed.

Lemma grown_by {A} (m : M A) w r w' : grows m -> m w = (r, w') -> grown w w'.
Proof. intros H E. specialize (H w). rewrite E in H. exact H. Qed.

Lemma grown_refl w : grown w w.
Proof. exists nil. reflexivity. Qed.

Lemma grown_trans w1 w2 w3 : grown w1 w2 -> grown w2 w3 -> grown w1 w3.
Proof.
  intros (e1 & E1) (e2 & E2). exists (e2 ++ e1).
  rewrite E2, E1, app_assoc. reflexivity.
Qed.

Lemma grown_around (x : Event) w wa wb w' :
  grown w wa -> trace wb = x :: trace wa -> grown wb w' ->
  exists evs, trace w' = evs ++ trace w /\ In x evs.
Proof.
  intros (e1 & E1) Ex (e2 & E2). exists (e2 ++ x :: e1).
  rewrite E2, Ex, E1, <- app_assoc. split; [reflexivity|].
  apply in_or_app. right. left. reflexivity.
Qed.

Lemma catch_inr_inv {A} (m : M A) w a w' :
  catch m w = (Ret (inr a), w') -> m w = (Ret a, w').
Proof.
  unfold catch, try_except, bind, ret.
  destruct (m w) as [[a'|e|] w1]; intros H; inversion H; reflexivity.
Qed.

Lemma export_Ret_inv env path w w' :
  export_as_fixed_format env path w = (Ret tt, w') ->
  trace w' = ECom (ExportAsFixedFormat path) true :: trace w.
Proof.
  unfold export_as_fixed_format.
  destruct (env_com env (ExportAsFixedFormat path) w); intros H;
    inversion H; reflexivity.
Qed.

Ltac grow :=
  apply grows_emits;
  run_steps (preorder_extends _ closed_any) ltac:(emits_call ltac:(exact I)).

(** Turns every equation [m w1 = (r, w2)] of the context into
    [grown w1 w2]. *)
Ltac equations_to_growth :=
  repeat
    match goal with
    | E : ?m ?wa = (?r, ?wb) |- _ =>
        let G := fresh "G" in
        assert (G : grown wa wb) by (apply (grown_by m wa r wb); [grow | exact E]);
        clear E
    end.

Ltac chain :=
  repeat first [ eassumption | apply grown_refl
               | eapply grown_trans; [eassumption|] ].

Section StrictExport.

Variable env : Env.
Variables (input_path output_path : string).

Lemma strict_true_exported (w w' : World) :
  convert_excel_to_pdf_strict env input_path output_path w = (Ret true, w') ->
  exists evs,
    trace w' = evs ++ trace w
    /\ In (ECom (ExportAsFixedFormat (os_path_abspath env output_path)) true)
          evs.
Proof.
  unfold convert_excel_to_pdf_strict. intros H.
  apply bind_Ret_inv in H. destruct H as (? & w1 & E1 & H).
  apply bind_Ret_inv in H. destruct H as (? & w2 & E2 & H).
  apply bind_Ret_inv in H. destruct H as (? & w3 & E3 & H).
  apply try_finally_Ret_inv in H. destruct H as (w4 & H & Efin).
  apply bind_Ret_inv in H. destruct H as ([e|[]] & w5 & Ec1 & H);
    [apply strict_handler_false in H; discriminate|].
  apply bind_Ret_inv in H. destruct H as ([e|[]] & w6 & Ec2 & H);
    [apply strict_handler_false in H; discriminate|].
  apply bind_Ret_inv in H. destruct H as ([e|[]] & w7 & Ec3 & H);
    [apply strict_handler_false in H; discriminate|].
  apply catch_inr_inv in Ec3.
  apply bind_Ret_inv in Ec3. destruct Ec3 as (name & wa1 & Ea1 & Ec3).
  apply bind_Ret_inv in Ec3. destruct Ec3 as (? & wa2 & Ea2 & Ec3).
  apply bind_Ret_inv in Ec3. destruct Ec3 as (shown & wa3 & Ea3 & Ec3).
  apply bind_Ret_inv in Ec3. destruct Ec3 as (? & wa4 & Ea4 & Ec3).
  apply bind_Ret_inv in Ec3. destruct Ec3 as (n & wa5 & Ea5 & Ec3).
  apply bind_Ret_inv in Ec3. destruct Ec3 as (? & wa6 & Ea6 & Ec3).
  apply bind_Ret_inv in Ec3. destruct Ec3 as (? & wa7 & Ea7 & Ec3).
  apply bind_Ret_inv in Ec3. destruct Ec3 as (? & wa8 & Ea8 & Ec3).
  apply bind_Ret_inv in Ec3. destruct Ec3 as (? & wa9 & Ea9 & Ec3).
  apply bind_Ret_inv in Ec3. destruct Ec3 as (? & wa10 & Ea10 & Ec3).
  apply bind_Ret_inv in Ec3. destruct Ec3 as ([] & wa11 & Eexp & Ec3).
  apply export_Ret_inv in Eexp.
  unfold strict_finally in Efin. unfold strict_error_handler in H.
  unfold strict_process_sheet, strict_set_margin, strict_set in Ea6.
  equations_to_growth.
  apply (grown_around _ w wa10 wa11 w'); [chain | exact Eexp | chain].
Qed.

End StrictExport.

(** X14.  When [convert_excel_to_pdf_strict] returns [True], the workbook has been
    exported to the absolute output path, and no automation call has failed
    on the way, those of the print-area block and the final [CoUninitialize]
    apart: a page-setup assignment that Excel rejects makes the conversion
    return [False]. *)
Theorem strict_conversion_is_all_or_nothing
    (env : Env) (input_path output_path : string) (w w' : World) :
  convert_excel_to_pdf_strict env input_path output_path w = (Ret true, w') ->
  exists evs,
    trace w' = evs ++ trace w
    /\ Forall no_hard_failure evs
    /\ In (ECom (ExportAsFixedFormat (os_path_abspath env output_path)) true)
          evs.
Proof.
  intros H.
  destruct (strict_true_no_hard_failure env input_path output_path w w' H)
    as (evs & Et & Hall).
  destruct (strict_true_exported env input_path output_path w w' H)
    as (evs' & Et' & Hin).
  exists evs. split; [exact Et|]. split; [exact Hall|].
  rewrite Et in Et'. apply app_inv_tail in Et'. subst evs'. exact Hin.
Qed.

Lemma strict_conversion_is_all_or_nothing_witness :
  exists evs,
    trace (snd (convert_excel_to_pdf_strict Scenarios.env_excel
                  "report.xlsx" "report.pdf" Scenarios.idle_world))
    = evs ++ nil
    /\ Forall no_hard_failure evs
    /\ In (ECom (ExportAsFixedFormat "/srv/app/report.pdf") true) evs.
Proof.
  pose (run := convert_excel_to_pdf_strict Scenarios.env_excel
                 "report.xlsx" "report.pdf" Scenarios.idle_world).
  assert (E : run = (Ret true, snd run)) by (vm_compute; reflexivity).
  unfold run in E.
  exact (strict_conversion_is_all_or_nothing Scenarios.env_excel
           "report.xlsx" "report.pdf" Scenarios.idle_world _ E).
Defined.

End AutomationProofs.
(* ===================================================================== *)
(** * The Linux screen-render script *)
(* ===================================================================== *)

Module ScreenRenderProofs.
Import Engine Judgements Observations EngineProofs.

#[local] Open Scope eng_scope.



Lemma rmtree_inv (dir : string) w r w' :
  rmtree_ignore_errors dir w = (r, w') ->
  forall path, String.prefix (dir +:+ "/") path = true -> fs w' !! path = None.
Proof.
  unfold rmtree_ignore_errors. intros H. inversion H; subst; clear H.
  intros path Hp. simpl. apply map_lookup_filter_None. right.
  intros data _. simpl. rewrite Hp. discriminate.
Qed.

Lemma rmtree_keeps (dir : string) w r w' :
  rmtree_ignore_errors dir w = (r, w') ->
  forall path, String.prefix (dir +:+ "/") path = false ->
               fs w' !! path = fs w !! path.
Proof.
  unfold rmtree_ignore_errors. intros H. inversion H; subst; clear H.
  intros path Hp. simpl.
  destruct (fs w !! path) as [data|] eqn:E.
  - apply map_lookup_filter_Some. split; [exact E | exact Hp].
  - apply map_lookup_filter_None. left. exact E.
Qed.



(** ** The [pdfinfo] step *)

Lemma hangs_bind {A B} (m : M A) (k : A -> M B) w :
  reaches m w (fun a w1 => hangs (k a) w1) -> hangs (bind m k) w.
Proof.
  intros (a & w1 & E & H). unfold hangs, bind in *. rewrite E. exact H.
Qed.

Lemma hangs_bind_now {A B} (m : M A) (k : A -> M B) w :
  hangs m w -> hangs (bind m k) w.
Proof.
  unfold hangs, bind. destruct (m w) as [[a|e|] w1]; simpl; intros H;
    try discriminate. reflexivity.
Qed.

Lemma hangs_try_except {A} (m : M A) (h : exn -> M A) w :
  hangs m w -> hangs (try_except m h) w.
Proof.
  unfold hangs, try_except. destruct (m w) as [[a|e|] w1]; simpl; intros H;
    try discriminate. reflexivity.
Qed.

Section CallsThatSucceed.

Variable env : Env.
Hypothesis Hio : forall op w, env_io_fault env op w = None.

Lemma reaches_mkdtemp prefix w (Q : string -> World -> Prop) :
  Q (env_mkdtemp env prefix w) (log (EFile (MkDtemp prefix) true) w) ->
  reaches (mkdtemp env prefix) w Q.
Proof.
  intros H. eexists _, _. unfold mkdtemp. rewrite Hio.
  split; [reflexivity | exact H].
Qed.

Lemma reaches_subprocess_run cmd t seconds writes w
    (Q : unit -> World -> Prop) :
  env_proc env cmd w = ProcRuns (Some seconds) writes ->
  Qle_bool seconds (inject_Z t) = true ->
  Q tt (log (ERun cmd (Some t) Completed)
            (set_fs (write_files writes (fs w)) w)) ->
  reaches (subprocess_run env cmd (Some t)) w Q.
Proof.
  intros Hp Hs H. eexists _, _. unfold subprocess_run. rewrite Hp, Hs.
  split; [reflexivity | exact H].
Qed.

Lemma reaches_shutil_copy src dst data w (Q : unit -> World -> Prop) :
  fs w !! src = Some data ->
  Q tt (log (EFile (Copy src dst) true) (set_fs (<[dst := data]> (fs w)) w)) ->
  reaches (shutil_copy env src dst) w Q.
Proof.
  intros Hs H. eexists _, _. unfold shutil_copy. rewrite Hio, Hs.
  split; [reflexivity | exact H].
Qed.

End CallsThatSucceed.

Lemma reaches_rmtree dir w (Q : unit -> World -> Prop) :
  (forall w', rmtree_ignore_errors dir w = (Ret tt, w') -> Q tt w') ->
  reaches (rmtree_ignore_errors dir) w Q.
Proof.
  intros H. eexists _, _. split; [reflexivity|]. apply H. reflexivity.
Qed.

Section PdfInfo.

Variable env : Env.
Variables (temp_dir input_path output_path : string) (pdf : bytes).
Hypothesis Hhost : converter_delivers env temp_dir input_path pdf.
Hypothesis Hout : String.prefix (temp_dir +:+ "/") output_path = false.

(** The script up to the point where the generated PDF has been found. *)
Lemma reaches_generated_pdf {A} (k_found k_missing : M A)
    (h : exn -> M A) w (Q : A -> World -> Prop) :
  (forall w1,
     fs w1 !! generated_pdf temp_dir input_path = Some pdf ->
     reaches k_found w1 Q) ->
  reaches
    (try_except
       (print "\n[Step 1] Converting with default settings..." ;;
        print "  (No page setup modifications - preserves original layout)" ;;
        subprocess_run env (libreoffice_cmd temp_dir input_path) (Some 180) ;;
        found <- path_exists (generated_pdf temp_dir input_path) ;;
        if found then k_found else k_missing)
       h) w Q.
Proof.
  intros Hk. destruct Hhost as (Hio & Hmk & seconds & Hs & Hconv).
  apply reaches_try_except.
  apply reaches_bind, reaches_print. apply reaches_bind, reaches_print.
  apply reaches_bind.
  eapply reaches_subprocess_run; [apply Hconv | exact Hs |].
  apply reaches_bind, reaches_path_exists.
  cbn [fs log set_fs write_files fold_left fst snd].
  rewrite lookup_insert_eq. apply Hk.
  cbn [fs log set_fs]. apply lookup_insert_eq.
Qed.

Lemma without_pdfinfo_converted (w : World) :
  (forall w1, env_proc env (pdfinfo_cmd temp_dir input_path) w1 = ProcMissing) ->
  exists w',
    convert_excel_screen_render env input_path output_path w = (Ret true, w')
    /\ fs w' !! output_path = Some pdf.
Proof.
  intros Hmissing. pose proof Hhost as (Hio & Hmk & _).
  assert (H : reaches (convert_excel_screen_render env input_path output_path)
                      w (fun r w' => r = true /\ fs w' !! output_path = Some pdf)).
  { unfold convert_excel_screen_render.
    apply reaches_bind, reaches_print. apply reaches_bind, reaches_print.
    apply reaches_bind, reaches_print.
    apply reaches_bind, reaches_mkdtemp; [exact Hio|]. rewrite Hmk.
    cbv zeta. apply reaches_generated_pdf. intros w1 Hgen.
    apply reaches_bind, reaches_print. apply reaches_bind.
    eapply reaches_try_except_raise.
    { unfold subprocess_run.
      change ("pdfinfo" :: os_path_join temp_dir
                (fst (os_path_splitext (os_path_basename input_path))
                 +:+ ".pdf") :: nil)
        with (pdfinfo_cmd temp_dir input_path).
      rewrite Hmissing. reflexivity. }
    apply reaches_ret. apply reaches_bind.
    eapply reaches_shutil_copy; [exact Hio | exact Hgen |].
    apply reaches_bind, reaches_print. apply reaches_bind.
    apply reaches_rmtree. intros w2 Erm. apply reaches_ret.
    split; [reflexivity|].
    rewrite (rmtree_keeps _ _ _ _ Erm _ Hout). cbn [fs log set_fs].
    apply lookup_insert_eq. }
  destruct H as (r & w' & E & -> & Hfs). eauto.
Qed.

Lemma stuck_pdfinfo_blocks (w : World) :
  (forall w1, exists writes,
     env_proc env (pdfinfo_cmd temp_dir input_path) w1 = ProcRuns None writes) ->
  hangs (convert_excel_screen_render env input_path output_path) w.
Proof.
  intros Hstuck. pose proof Hhost as (Hio & Hmk & seconds & Hs & Hconv).
  unfold convert_excel_screen_render.
  apply hangs_bind, reaches_print. apply hangs_bind, reaches_print.
  apply hangs_bind, reaches_print.
  apply hangs_bind, reaches_mkdtemp; [exact Hio|]. rewrite Hmk.
  cbv zeta. apply hangs_try_except.
  apply hangs_bind, reaches_print. apply hangs_bind, reaches_print.
  apply hangs_bind.
  eapply reaches_subprocess_run; [apply Hconv | exact Hs |].
  apply hangs_bind, reaches_path_exists.
  cbn [fs log set_fs write_files fold_left fst snd].
  rewrite lookup_insert_eq.
  apply hangs_bind, reaches_print. apply hangs_bind_now.
  unfold try_pass. apply hangs_try_except.
  unfold hangs, subprocess_run.
  match goal with
  | |- context [env_proc env ?c ?w0] =>
      destruct (Hstuck w0) as (writes & E);
      change c with (pdfinfo_cmd temp_dir input_path); rewrite E
  end.
  reflexivity.
Qed.

End PdfInfo.

(** X16.  On a host where LibreOffice delivers the PDF in time, the [pdfinfo]
    step of [convert_excel_screen_render] does not matter when the program
    is missing: the script returns [True] and the output path holds the
    generated PDF.  The step has no timeout, though: a [pdfinfo] that never
    exits keeps the call from ever returning. *)
Theorem pdfinfo_is_optional_but_unbounded
    (env : Env) (temp_dir input_path output_path : string) (pdf : bytes)
    (w : World) :
  converter_delivers env temp_dir input_path pdf ->
  String.prefix (temp_dir +:+ "/") output_path = false ->
  ((forall w1, env_proc env (pdfinfo_cmd temp_dir input_path) w1 = ProcMissing) ->
   exists w',
     convert_excel_screen_render env input_path output_path w = (Ret true, w')
     /\ fs w' !! output_path = Some pdf)
  /\ ((forall w1, exists writes,
         env_proc env (pdfinfo_cmd temp_dir input_path) w1
         = ProcRuns None writes) ->
      hangs (convert_excel_screen_render env input_path output_path) w).
Proof.
  intros Hhost Hout. split.
  - apply (without_pdfinfo_converted env temp_dir input_path output_path pdf);
      assumption.
  - apply (stuck_pdfinfo_blocks env temp_dir input_path output_path pdf);
      assumption.
Qed.

Lemma pdfinfo_is_optional_but_unbounded_witness :
  (exists w',
     convert_excel_screen_render Hosts.env_without_pdfinfo
       "/srv/in/report.xlsx" "/srv/out/report.pdf" Scenarios.idle_world
     = (Ret true, w')
     /\ fs w' !! "/srv/out/report.pdf" = Some Scenarios.sample_pdf)
  /\ hangs (convert_excel_screen_render Hosts.env_pdfinfo_stuck
              "/srv/in/report.xlsx" "/srv/out/report.pdf")
           Scenarios.idle_world.
Proof.
  split.
  - apply (pdfinfo_is_optional_but_unbounded Hosts.env_without_pdfinfo
             "/tmp/excel_screen_q7" "/srv/in/report.xlsx"
             "/srv/out/report.pdf" Scenarios.sample_pdf Scenarios.idle_world).
    + split; [reflexivity|]. split; [reflexivity|].
      exists 5%Q. split; reflexivity.
    + reflexivity.
    + reflexivity.
  - apply (pdfinfo_is_optional_but_unbounded Hosts.env_pdfinfo_stuck
             "/tmp/excel_screen_q7" "/srv/in/report.xlsx"
             "/srv/out/report.pdf" Scenarios.sample_pdf Scenarios.idle_world).
    + split; [reflexivity|]. split; [reflexivity|].
      exists 5%Q. split; reflexivity.
    + reflexivity.
    + intros w1. exists nil. reflexivity.
Defined.

End ScreenRenderProofs.
(* ===================================================================== *)
(** * The entry points of the export script *)
(* ===================================================================== *)

Module ScriptsProofs.
Import Engine Judgements Observations Scripts EngineProofs.
Import ScreenRenderProofs.

#[local] Open Scope eng_scope.

Example format_kb_examples :
  format_kb 256 = "0.2" /\ format_kb 1536 = "1.5" /\ format_kb 54 = "0.1"
  /\ format_kb 123456 = "120.6".
Proof. repeat split; reflexivity. Qed.

(** ** [export_with_libreoffice] *)

Section LibreOffice.

Variable env : Env.
Variables (input_path output_path : string).

Lemma subprocess_run_missing (cmd : list string) (t : option Z) (w : World) :
  env_proc env cmd w = ProcMissing ->
  subprocess_run env cmd t w
  = (Raise (no_such_file (hd EmptyString cmd)), log (ERun cmd t NotFound) w).
Proof. unfold subprocess_run. intros ->. reflexivity. Qed.

End LibreOffice.

(** X17.  [export_with_libreoffice] has no handler of its own: a converter that
    outlives the timeout of 120 seconds makes it raise [TimeoutExpired], a
    missing converter makes it raise [FileNotFoundError], and in both cases
    no file has been touched. *)
Theorem libreoffice_export_raises_on_timeout
    (env : Env) (input_path output_path : string) (w : World) :
  let cmd := libreoffice_cmd (or_dot (os_path_dirname output_path))
                             input_path in
  (exceeds 120 (env_proc env cmd w) ->
   export_with_libreoffice env input_path output_path w
   = (Raise (timeout_expired cmd 120), log (ERun cmd (Some 120) TimedOut) w))
  /\ (env_proc env cmd w = ProcMissing ->
      export_with_libreoffice env input_path output_path w
      = (Raise (no_such_file "libreoffice"),
         log (ERun cmd (Some 120) NotFound) w)).
Proof.
  cbv zeta. split; intros H; unfold export_with_libreoffice; cbv zeta;
    apply bind_raise.
  - apply subprocess_run_timeout. exact H.
  - apply (subprocess_run_missing env _ _ _ H).
Qed.

Lemma libreoffice_export_raises_on_timeout_witness :
  export_with_libreoffice Scenarios.env_converter_stuck
    "/srv/in/report.xlsx" "/srv/out/report.pdf" Scenarios.idle_world
  = (Raise (timeout_expired (libreoffice_cmd "/srv/out" "/srv/in/report.xlsx")
                            120),
     log (ERun (libreoffice_cmd "/srv/out" "/srv/in/report.xlsx") (Some 120)
               TimedOut) Scenarios.idle_world).
Proof.
  apply (proj1 (libreoffice_export_raises_on_timeout
                  Scenarios.env_converter_stuck "/srv/in/report.xlsx"
                  "/srv/out/report.pdf" Scenarios.idle_world)).
  exact I.
Defined.

(** X18.  [export_with_libreoffice] does not look at what the converter did: when
    the converter ends in time without leaving the PDF next to the input,
    the function returns whether the output path existed before the call,
    and the files are as they were.  An output file left by an earlier run
    is reported as success. *)
Theorem libreoffice_export_reports_existing_output
    (env : Env) (input_path output_path : string) (w : World) (seconds : Q) :
  env_proc env (libreoffice_cmd (or_dot (os_path_dirname output_path))
                                input_path) w
  = ProcRuns (Some seconds) nil ->
  Qle_bool seconds 120 = true ->
  fs w !! (fst (os_path_splitext input_path) +:+ ".pdf") = None ->
  exists w',
    export_with_libreoffice env input_path output_path w
    = (Ret (match fs w !! output_path with Some _ => true | None => false end),
       w')
    /\ fs w' = fs w.
Proof.
  intros Hproc Hs Hnone. unfold export_with_libreoffice. cbv zeta.
  unfold bind at 1. unfold subprocess_run. rewrite Hproc.
  change (inject_Z 120) with (120 : Q). rewrite Hs.
  unfold bind at 1, path_exists at 1.
  cbn [fs log set_fs write_files fold_left]. rewrite Hnone. cbn [andb].
  unfold bind at 1, ret at 1, path_exists.
  cbn [fs log set_fs]. eexists. split; reflexivity.
Qed.

Lemma libreoffice_export_reports_existing_output_witness :
  exists w',
    export_with_libreoffice
      (Scenarios.host false Scenarios.no_excel (fun _ _ => None)
                      (fun _ _ => ProcRuns (Some 3%Q) nil))
      "/srv/in/report.xlsx" "/srv/out/report.pdf"
      (mkWorld (<["/srv/out/report.pdf" := Scenarios.sample_pdf]> ∅) 1 nil)
    = (Ret true, w').
Proof.
  destruct (libreoffice_export_reports_existing_output
              (Scenarios.host false Scenarios.no_excel (fun _ _ => None)
                              (fun _ _ => ProcRuns (Some 3%Q) nil))
              "/srv/in/report.xlsx" "/srv/out/report.pdf"
              (mkWorld (<["/srv/out/report.pdf" := Scenarios.sample_pdf]> ∅)
                       1 nil)
              3%Q) as (w' & E & _);
    [reflexivity | reflexivity | vm_compute; reflexivity |].
  exists w'. exact E.
Defined.

(** ** [merge_pdfs] *)

(** X19.  Without [pypdf], [merge_pdfs] copies the first document of the list to
    the output path and returns [True], or returns [False] when the list is
    empty or its first document is missing; the other documents of the list
    play no part, so the pages of every sheet but the first are left out. *)
Theorem merge_without_pypdf_keeps_first_document_only
    (env : Env) (pdf_list : list string) (output_path : string) (w : World) :
  no_io_fault env ->
  exists r w',
    merge_pdfs env None pdf_list output_path w = (Ret r, w')
    /\ match head pdf_list ≫= (fun first => fs w !! first) with
       | Some data => r = true /\ fs w' = <[output_path := data]> (fs w)
       | None => r = false /\ fs w' = fs w
       end.
Proof.
  intros Hio. unfold merge_pdfs. destruct pdf_list as [|first rest]; simpl.
  - eexists _, _. split; [reflexivity|]. split; reflexivity.
  - unfold bind at 1, path_exists.
    destruct (fs w !! first) as [data|] eqn:E; simpl.
    + unfold bind, shutil_copy, ret. rewrite Hio. cbn [fs log]. rewrite E.
      eexists _, _. split; [reflexivity|]. split; reflexivity.
    + eexists _, _. split; [reflexivity|]. split; reflexivity.
Qed.

Lemma merge_without_pypdf_keeps_first_document_only_witness :
  exists w',
    merge_pdfs Scenarios.env_no_converter None
      ("/tmp/temp_sheet_0.pdf" :: "/tmp/temp_sheet_1.pdf" :: nil)
      "/srv/out/report.pdf"
      (mkWorld (<["/tmp/temp_sheet_0.pdf" := Scenarios.sample_pdf]>
                (<["/tmp/temp_sheet_1.pdf" := Scenarios.workbook_bytes]> ∅))
               1 nil)
    = (Ret true, w')
    /\ fs w' !! "/srv/out/report.pdf" = Some Scenarios.sample_pdf.
Proof.
  destruct (merge_without_pypdf_keeps_first_document_only
              Scenarios.env_no_converter
              ("/tmp/temp_sheet_0.pdf" :: "/tmp/temp_sheet_1.pdf" :: nil)
              "/srv/out/report.pdf"
              (mkWorld (<["/tmp/temp_sheet_0.pdf" := Scenarios.sample_pdf]>
                        (<["/tmp/temp_sheet_1.pdf" := Scenarios.workbook_bytes]> ∅))
                       1 nil))
    as (r & w' & E & H).
  - intros op w. reflexivity.
  - match type of H with
    | match ?x with _ => _ end =>
        assert (Hl : x = Some Scenarios.sample_pdf) by (vm_compute; reflexivity);
        rewrite Hl in H
    end.
    destruct H as [-> Hfs].
    exists w'. split; [exact E|]. rewrite Hfs. vm_compute. reflexivity.
Defined.

Section Merge.

Variable env : Env.
Variable lib : PdfMerger.
Hypothesis Hio : no_io_fault env.
Hypothesis Hread : forall data, append_error lib data = None.

Lemma append_existing_spec (pdf_list : list string) (appended : list bytes)
    (w : World) :
  exists w',
    append_existing env lib pdf_list appended w
    = (Ret (appended ++ existing_contents (fs w) pdf_list), w')
    /\ fs w' = fs w.
Proof.
  revert appended w. induction pdf_list as [|pdf rest IH]; intros appended w;
    simpl.
  - exists w. unfold ret, existing_contents. simpl. rewrite app_nil_r. auto.
  - unfold bind at 1, path_exists. unfold existing_contents. simpl.
    destruct (fs w !! pdf) as [data|] eqn:E; simpl.
    + unfold bind at 1, open_read. rewrite Hio. cbn [fs log]. rewrite E.
      rewrite Hread.
      destruct (IH (appended ++ data :: nil)
                   (log (EFile (OpenRead pdf) true)
                        (log (EFile (PathExists pdf) true) w)))
        as (w' & E' & Hfs).
      exists w'. rewrite E'. cbn [fs log] in *. rewrite <- app_assoc.
      split; [reflexivity | exact Hfs].
    + destruct (IH appended (log (EFile (PathExists pdf) true) w))
        as (w' & E' & Hfs).
      exists w'. rewrite E'. cbn [fs log] in *.
      split; [reflexivity | exact Hfs].
Qed.

End Merge.

(** X20.  With [pypdf], [merge_pdfs] writes to the output path the merge of those
    documents of the list that exist, in the order of the list, and returns
    [True]; a document that is missing is passed over without a word, and
    [True] is returned even when none exists. *)
Theorem merge_with_pypdf_passes_over_missing_documents
    (env : Env) (lib : PdfMerger) (pdf_list : list string)
    (output_path : string) (w : World) :
  no_io_fault env ->
  (forall data, append_error lib data = None) ->
  exists w',
    merge_pdfs env (Some lib) pdf_list output_path w = (Ret true, w')
    /\ fs w'
       = <[output_path := merged lib (existing_contents (fs w) pdf_list)]>
           (fs w).
Proof.
  intros Hio Hread. unfold merge_pdfs.
  destruct (append_existing_spec env lib Hio Hread pdf_list nil w)
    as (w1 & E & Hfs).
  unfold bind at 1. rewrite E. simpl app.
  unfold bind, open_write, ret. rewrite Hio. cbn [fs log set_fs].
  rewrite Hfs. eexists. split; reflexivity.
Qed.

Lemma merge_with_pypdf_passes_over_missing_documents_witness :
  exists w',
    merge_pdfs Scenarios.env_no_converter
      (Some (mkPdfMerger (fun _ => None) (@List.concat Byte.byte)))
      ("/tmp/temp_sheet_0.pdf" :: "/tmp/temp_sheet_1.pdf" :: nil)
      "/srv/out/report.pdf"
      (mkWorld (<["/tmp/temp_sheet_1.pdf" := Scenarios.sample_pdf]> ∅) 1 nil)
    = (Ret true, w')
    /\ fs w' !! "/srv/out/report.pdf" = Some Scenarios.sample_pdf.
Proof.
  destruct (merge_with_pypdf_passes_over_missing_documents
              Scenarios.env_no_converter
              (mkPdfMerger (fun _ => None) (@List.concat Byte.byte))
              ("/tmp/temp_sheet_0.pdf" :: "/tmp/temp_sheet_1.pdf" :: nil)
              "/srv/out/report.pdf"
              (mkWorld (<["/tmp/temp_sheet_1.pdf" := Scenarios.sample_pdf]> ∅)
                       1 nil))
    as (w' & E & Hfs).
  - intros op w. reflexivity.
  - intros data. reflexivity.
  - exists w'. split; [exact E|]. rewrite Hfs. vm_compute. reflexivity.
Defined.

(** ** [export_excel_to_pdf_f4] *)

Lemma bind_total_inv {A B} (m : M A) (k : A -> M B) (w : World) :
  total m -> exists a w1, m w = (Ret a, w1) /\ bind m k w = k a w1.
Proof.
  intros Hm. destruct (Hm w) as (a & E). unfold bind.
  destruct (m w) as [r w1]. simpl in E. subst r. eauto.
Qed.

Section Dispatcher.

Variable env : Env.
Variable platform : string.
Variable export_with_excel_com : string -> string -> M (option bool).
Variable export_with_screenshot_approach : string -> string -> M bool.
Hypothesis Hcom : forall i o, returns (export_with_excel_com i o).
Hypothesis Hshot : forall i o, returns (export_with_screenshot_approach i o).

Lemma excel_stage_total (input_path output_path : string) :
  total (if String.eqb platform "win32" then
           print "Mencoba dengan MS Excel..." ;;
           try_except
             (r <- export_with_excel_com input_path output_path ;;
              ret (truthy r))
             (fun e => print ("MS Excel gagal: " +:+ exn_str e) ;; ret false)
         else ret false).
Proof.
  destruct (String.eqb platform "win32"); [|apply total_ret].
  apply total_bind; [apply total_print | intros _].
  apply total_try_except.
  - apply returns_bind; [apply Hcom | intros r; apply returns_ret].
  - intros e. apply total_bind; [apply total_print | intros _; apply total_ret].
Qed.

Lemma screenshot_stage_total (input_path output_path : string)
    (success : bool) :
  total (if negb success then
           print "Mencoba dengan Screenshot approach..." ;;
           try_except
             (export_with_screenshot_approach input_path output_path)
             (fun e => print ("Screenshot approach gagal: " +:+ exn_str e) ;;
                       ret success)
         else ret success).
Proof.
  destruct (negb success); [|apply total_ret].
  apply total_bind; [apply total_print | intros _].
  apply total_try_except; [apply Hshot|].
  intros e. apply total_bind; [apply total_print | intros _; apply total_ret].
Qed.

Lemma report_stage (output_path : string) (success : bool) (w : World) :
  exists r w',
    (ok <- (if success then path_exists output_path else ret false) ;;
     if ok then
       print ("\n✅ Export berhasil: " +:+ output_path) ;;
       size <- os_path_getsize output_path ;;
       print ("   File size: " +:+ format_kb size +:+ " KB") ;;
       ret true
     else
       print "\n❌ Export gagal" ;;
       ret false) w
    = (Ret r, w')
    /\ fs w' = fs w
    /\ (r = true -> is_Some (fs w !! output_path)).
Proof.
  destruct success.
  - unfold bind at 1, path_exists.
    destruct (fs w !! output_path) as [data|] eqn:E.
    + cbv beta iota. unfold bind at 1, print at 1, emit at 1.
      unfold bind at 1, os_path_getsize. cbn [fs log]. rewrite E.
      eexists _, _. split; [reflexivity|]. split; [reflexivity|]. eauto.
    + eexists _, _. split; [reflexivity|]. split; [reflexivity|]. discriminate.
  - eexists _, _. split; [reflexivity|]. split; [reflexivity|]. discriminate.
Qed.

End Dispatcher.

(** X21.  Whatever its two approaches do, as long as they come back,
    [export_excel_to_pdf_f4] never raises.  When the input file is missing it
    reports that, tries neither approach and returns [False]; it returns
    [True] only when the output file exists in the end, at the path given or,
    when none is given, at the input path with its extension replaced by
    [_F4_Landscape.pdf]. *)
Theorem export_dispatcher_never_raises
    (env : Env) (platform : string)
    (export_with_excel_com : string -> string -> M (option bool))
    (export_with_screenshot_approach : string -> string -> M bool)
    (input_path : string) (output : option string) (w : World) :
  (forall i o, returns (export_with_excel_com i o)) ->
  (forall i o, returns (export_with_screenshot_approach i o)) ->
  exists r w',
    Scripts.export_excel_to_pdf_f4 env platform export_with_excel_com
      export_with_screenshot_approach input_path output w
    = (Ret r, w')
    /\ (fs w !! os_path_abspath env input_path = None ->
        r = false
        /\ w' = log (EPrint ("Error: File tidak ditemukan: "
                             +:+ os_path_abspath env input_path))
                    (log (EFile (PathExists (os_path_abspath env input_path))
                                true) w))
    /\ (r = true ->
        is_Some (fs w' !! match output with
                          | None => default_output_path
                                      (os_path_abspath env input_path)
                          | Some p => p
                          end)).
Proof.
  intros Hcom Hshot.
  unfold Scripts.export_excel_to_pdf_f4. cbv zeta.
  unfold bind at 1, path_exists at 1.
  destruct (fs w !! os_path_abspath env input_path) as [data|] eqn:E;
    cbn [negb].
  2:{ eexists _, _. split; [reflexivity|]. split; [auto|]. discriminate. }
  do 5 (unfold bind at 1, print at 1, emit at 1).
  match goal with
  | |- context [bind ?stage1 ?k ?w0] =>
      destruct (bind_total_inv stage1 k w0 (excel_stage_total _ _ Hcom _ _))
        as (s1 & w1 & _ & ->)
  end.
  match goal with
  | |- context [bind ?stage2 ?k ?w0] =>
      destruct (bind_total_inv stage2 k w0 (screenshot_stage_total _ Hshot _ _ _))
        as (s2 & w2 & _ & ->)
  end.
  match goal with
  | |- context [is_Some (_ !! ?out)] =>
      destruct (report_stage out s2 w2) as (r & w' & Er & Hfs & Hr)
  end.
  exists r, w'. split; [exact Er|]. split; [congruence|].
  intros Ht. rewrite Hfs. apply Hr. exact Ht.
Qed.

Lemma export_dispatcher_never_raises_witness :
  exists w',
    Scripts.export_excel_to_pdf_f4 Scenarios.env_no_converter "linux"
      (fun _ _ => ret (Some false))
      (fun _ o => open_write Scenarios.env_no_converter o Scenarios.sample_pdf ;;
                  ret true)
      "/srv/in/report.xlsx" None
      (mkWorld (<["/srv/in/report.xlsx" := Scenarios.workbook_bytes]> ∅) 1 nil)
    = (Ret true, w')
    /\ is_Some (fs w' !! "/srv/in/report_F4_Landscape.pdf").
Proof.
  destruct (export_dispatcher_never_raises Scenarios.env_no_converter "linux"
              (fun _ _ => ret (Some false))
              (fun _ o => open_write Scenarios.env_no_converter o
                                     Scenarios.sample_pdf ;; ret true)
              "/srv/in/report.xlsx" None
              (mkWorld (<["/srv/in/report.xlsx" := Scenarios.workbook_bytes]> ∅)
                       1 nil))
    as (r & w' & E & _ & Hr).
  - intros i o w. discriminate.
  - intros i o w. discriminate.
  - assert (Er : r = true).
    { assert (Ev : fst (Scripts.export_excel_to_pdf_f4
                          Scenarios.env_no_converter "linux"
                          (fun _ _ => ret (Some false))
                          (fun _ o => open_write Scenarios.env_no_converter o
                                        Scenarios.sample_pdf ;; ret true)
                          "/srv/in/report.xlsx" None
                          (mkWorld (<["/srv/in/report.xlsx"
                                      := Scenarios.workbook_bytes]> ∅) 1 nil))
                     = Ret true) by (vm_compute; reflexivity).
      rewrite E in Ev. simpl in Ev. inversion Ev. reflexivity. }
    subst r. exists w'. split; [exact E | exact (Hr eq_refl)].
Defined.

End ScriptsProofs.
(* ===================================================================== *)
(** * The maintenance methods of the engine *)
(* ===================================================================== *)

Module HousekeepingProofs.
Import Engine Judgements Observations Housekeeping EngineProofs.
Import WorkspaceProofs ScreenRenderProofs.

#[local] Open Scope eng_scope.

Lemma prefix_app (a b : string) : String.prefix a (a +:+ b) = true.
Proof.
  induction a as [|x a IH]; rewrite ?app_cons, ?app_nil.
  - destruct b; reflexivity.
  - cbn -[ascii_dec]. destruct (ascii_dec x x); [exact IH | contradiction].
Qed.

Lemma under_directory (d name : string) :
  plain_directory d -> no_slash name ->
  String.prefix (d +:+ "/") (os_path_join d name) = true.
Proof.
  intros Hd Hn. rewrite (join_plain d name Hd Hn).
  replace (d +:+ "/" +:+ name) with ((d +:+ "/") +:+ name)
    by (rewrite app_assoc_string; reflexivity).
  apply prefix_app.
Qed.

(** X22.  [cleanup] never raises.  When the removal is not refused, nothing is left
    below the temporary directory of the engine, in particular neither the
    input file nor the output file of any job, so also the input file that a
    failed conversion leaves behind; the files elsewhere are as they were. *)
Theorem cleanup_empties_the_temp_dir
    (env : Env) (self : ExcelMirrorEngine) (w : World) :
  exists w',
    cleanup env self w = (Ret tt, w')
    /\ permits w' = permits w
    /\ (env_io_fault env (RmTree (temp_dir self)) w = None ->
        (forall path,
           String.prefix (temp_dir self +:+ "/") path = true ->
           fs w' !! path = None)
        /\ (forall path,
              String.prefix (temp_dir self +:+ "/") path = false ->
              fs w' !! path = fs w !! path)
        /\ (plain_directory (temp_dir self) ->
            forall job_id file_name,
              no_slash job_id ->
              fs w' !! job_input_path self job_id file_name = None
              /\ fs w' !! job_output_path self job_id = None)).
Proof.
  unfold cleanup, try_pass, try_except, shutil_rmtree.
  destruct (env_io_fault env (RmTree (temp_dir self)) w) as [e|] eqn:Ef.
  - eexists. split; [reflexivity|]. split; [reflexivity|]. discriminate.
  - destruct (rmtree_ignore_errors (temp_dir self) w) as [r w'] eqn:E.
    assert (Er : r = Ret tt)
      by (unfold rmtree_ignore_errors in E; inversion E; reflexivity).
    subst r. exists w'. split; [reflexivity|]. split.
    { unfold rmtree_ignore_errors in E. inversion E. reflexivity. }
    intros _.
    pose proof (rmtree_inv _ _ _ _ E) as Hgone.
    pose proof (rmtree_keeps _ _ _ _ E) as Hkept.
    split; [exact Hgone|]. split; [exact Hkept|].
    intros Hd job_id file_name Hid. split; apply Hgone.
    + unfold job_input_path. apply under_directory; [exact Hd|].
      apply no_slash_app. split; [exact Hid|].
      change ("_" +:+ string_map safe_char file_name)
        with (String "_" (string_map safe_char file_name)).
      unfold no_slash. rewrite ascii_in_cons. apply safe_name_no_slash.
    + unfold job_output_path. apply under_directory; [exact Hd|].
      apply no_slash_app. split; [exact Hid | reflexivity].
Qed.

Lemma cleanup_empties_the_temp_dir_witness :
  fs (snd (convert_to_pdf Scenarios.env_no_converter Scenarios.engine
             Scenarios.workbook_bytes "report.xlsx" None Scenarios.idle_world))
  !! job_input_path Scenarios.engine Scenarios.job_id "report.xlsx"
  = Some Scenarios.workbook_bytes
  /\ exists w',
       cleanup Scenarios.env_no_converter Scenarios.engine
         (snd (convert_to_pdf Scenarios.env_no_converter Scenarios.engine
                 Scenarios.workbook_bytes "report.xlsx" None
                 Scenarios.idle_world))
       = (Ret tt, w')
       /\ fs w' !! job_input_path Scenarios.engine Scenarios.job_id
                                  "report.xlsx" = None.
Proof.
  split; [vm_compute; reflexivity|].
  destruct (cleanup_empties_the_temp_dir Scenarios.env_no_converter
              Scenarios.engine
              (snd (convert_to_pdf Scenarios.env_no_converter Scenarios.engine
                      Scenarios.workbook_bytes "report.xlsx" None
                      Scenarios.idle_world)))
    as (w' & E & _ & H).
  exists w'. split; [exact E|].
  destruct (H eq_refl) as (_ & _ & Hjobs).
  apply Hjobs.
  - exists "/tmp/excel_mirror_k", "3"%char. split; [reflexivity | discriminate].
  - reflexivity.
Defined.

(** ** [kill_orphan_excel_processes] *)

Lemma visit_kill (limit : Q) (proc : ProcInfo) (target : Z) (ok : bool) :
  In (Kill target ok) (visit limit proc)
  <-> target = pid proc /\ ok = negb (kill_refused proc)
      /\ named_excel proc = true /\ created_before proc limit = true.
Proof.
  unfold visit. destruct (named_excel proc), (created_before proc limit); simpl.
  - split.
    + intros [H|[H|[]]]; [discriminate|]. inversion H. auto.
    + intros (-> & -> & _). auto.
  - split; [intros [] | intros (_ & _ & _ & H); discriminate].
  - split; [intros [] | intros (_ & _ & H & _); discriminate].
  - split; [intros [] | intros (_ & _ & H & _); discriminate].
Qed.

(** X23.  In simulation mode [kill_orphan_excel_processes] does nothing.  With
    pywin32 and psutil it kills exactly the processes whose name, in upper
    case, contains [EXCEL] and that were created before the cutoff: each of
    them, whether or not killing an earlier one failed, and no other
    process. *)
Theorem only_stale_excel_processes_are_killed
    (env : Env) (procs : list ProcInfo) (now : Q) (older_than_minutes : Z) :
  (HAS_WIN32COM env = false ->
   forall psutil,
     kill_orphan_excel_processes env psutil now older_than_minutes = nil)
  /\ (HAS_WIN32COM env = true ->
      forall target ok,
        In (Kill target ok)
           (kill_orphan_excel_processes env (Some procs) now older_than_minutes)
        <-> exists proc,
              In proc procs
              /\ target = pid proc /\ ok = negb (kill_refused proc)
              /\ named_excel proc = true
              /\ created_before proc (cutoff now older_than_minutes) = true).
Proof.
  unfold kill_orphan_excel_processes. split; intros ->; simpl.
  - reflexivity.
  - intros target ok. rewrite in_flat_map. split.
    + intros (proc & Hin & Hk). exists proc. split; [exact Hin|].
      apply visit_kill. exact Hk.
    + intros (proc & Hin & Hk). exists proc. split; [exact Hin|].
      apply visit_kill. exact Hk.
Qed.

Lemma only_stale_excel_processes_are_killed_witness :
  In (Kill 45 true)
     (kill_orphan_excel_processes Scenarios.env_excel
        (Some (mkProcInfo 42 (Some "EXCEL.EXE") (Some 900%Q) false
               :: mkProcInfo 43 (Some "winword.exe") (Some 100%Q) false
               :: mkProcInfo 45 (Some "Excel.exe") (Some 200%Q) false :: nil))
        1000 5).
Proof.
  apply (proj2 (only_stale_excel_processes_are_killed Scenarios.env_excel
                  (mkProcInfo 42 (Some "EXCEL.EXE") (Some 900%Q) false
                   :: mkProcInfo 43 (Some "winword.exe") (Some 100%Q) false
                   :: mkProcInfo 45 (Some "Excel.exe") (Some 200%Q) false
                   :: nil)
                  1000 5) eq_refl 45 true).
  exists (mkProcInfo 45 (Some "Excel.exe") (Some 200%Q) false).
  split; [simpl; auto|]. repeat split; reflexivity.
Defined.

Example stale_excel_killed :
  kill_orphan_excel_processes Scenarios.env_excel
    (Some (mkProcInfo 41 (Some "excel.exe") (Some 100%Q) true
           :: mkProcInfo 42 (Some "EXCEL.EXE") (Some 900%Q) false
           :: mkProcInfo 43 (Some "winword.exe") (Some 100%Q) false
           :: mkProcInfo 44 None (Some 100%Q) false
           :: mkProcInfo 45 (Some "Excel.exe") (Some 200%Q) false :: nil))
    1000 5
  = Say "[ExcelMirror] Killing orphan Excel: PID 41" :: Kill 41 false
    :: Say "[ExcelMirror] Killing orphan Excel: PID 45" :: Kill 45 true :: nil.
Proof. vm_compute. reflexivity. Qed.

End HousekeepingProofs.
(* ===================================================================== *)
(** * The HTTP handler *)
(* ===================================================================== *)

Module ServerProofs.
Import Engine Judgements Observations Server EngineProofs.

#[local] Open Scope eng_scope.

Section Handler.

Variable env : Env.
Variable engine : ExcelMirrorEngine.
Variable b64decode : string -> option bytes.




(** [do_POST] once the file has been decoded. *)
Lemma do_POST_with_file (req : Request) (fields : list (string * Json))
    (excel_data : bytes) (w : World) :
  path req = "/convert" ->
  body req = BodyJson (JDict fields) ->
  truthy (file_field fields) = true ->
  as_string (file_field fields) ≫= b64decode = Some excel_data ->
  do_POST env engine b64decode req w
  = match default (JDict nil) (lookup_field "options" fields) with
    | JDict opts =>
      match request_parameters fields with
      | Some (name, options) =>
          try_except
            (result <- convert_to_pdf env engine excel_data name
                                      (Some options) ;;
             r <- _send_json_response req (Result result) 200 ;;
             ret (Some r))
            (server_error req) w
      | None => (Ret None, w)
      end
    | v => server_error req (no_get v) w
    end.
Proof.
  intros Hpath Hbody Ht Hd. unfold do_POST. rewrite Hpath, Hbody.
  change (String.eqb "/convert" "/convert") with true.
  change (py_get (JDict fields) "fileBase64" JNull)
    with (@inr exn Json (file_field fields)).
  cbv beta iota. rewrite Ht, Hd. cbn [negb].
  unfold request_parameters.
  change (py_get (JDict fields) "options" (JDict nil))
    with (@inr exn Json (default (JDict nil) (lookup_field "options" fields))).
  cbv beta iota.
  destruct (default (JDict nil) (lookup_field "options" fields))
    as [| | | | | |opts]; try reflexivity.
  unfold py_get. cbv beta iota.
  destruct (conversion_options _ _ _ _ _) as [options|]; [|reflexivity].
  destruct (as_string (default (JStr "document.xlsx")
                                (lookup_field "fileName" fields)))
    as [name|]; reflexivity.
Qed.

End Handler.

(** X24.  A [POST /convert] whose document has no [fileBase64], or an empty or
    otherwise false one, is answered with status 400 and the error
    "fileBase64 is required"; one whose [fileBase64] is not a text, or a text
    that does not decode, with status 400 and "Invalid base64 encoding".  In
    both cases the engine is not called: but for the log line, the world is
    as it was. *)
Theorem requests_without_a_file_are_rejected
    (env : Env) (engine : ExcelMirrorEngine)
    (b64decode : string -> option bytes)
    (req : Request) (fields : list (string * Json)) (w : World) :
  path req = "/convert" ->
  body req = BodyJson (JDict fields) ->
  (truthy (file_field fields) = false ->
   do_POST env engine b64decode req w
   = (Ret (Some (mkResponse 400 json_headers
                            (Some (Error "fileBase64 is required")))),
      logged req w))
  /\ (truthy (file_field fields) = true ->
      as_string (file_field fields) ≫= b64decode = None ->
      do_POST env engine b64decode req w
      = (Ret (Some (mkResponse 400 json_headers
                               (Some (Error "Invalid base64 encoding")))),
         logged req w)).
Proof.
  intros Hpath Hbody. unfold do_POST. rewrite Hpath, Hbody.
  change (String.eqb "/convert" "/convert") with true.
  change (py_get (JDict fields) "fileBase64" JNull)
    with (@inr exn Json (file_field fields)).
  cbv beta iota. split.
  - intros Hf. rewrite Hf. reflexivity.
  - intros Ht Hd. rewrite Ht, Hd. reflexivity.
Qed.

Lemma requests_without_a_file_are_rejected_witness :
  do_POST Scenarios.env_no_converter Scenarios.engine (fun _ => None)
    (mkRequest "POST /convert HTTP/1.1" "/convert"
       (BodyJson (JDict (("fileBase64", JStr "") :: nil))))
    Scenarios.idle_world
  = (Ret (Some (mkResponse 400 json_headers
                  (Some (Error "fileBase64 is required")))),
     logged (mkRequest "POST /convert HTTP/1.1" "/convert"
               (BodyJson (JDict (("fileBase64", JStr "") :: nil))))
            Scenarios.idle_world).
Proof.
  apply (proj1 (requests_without_a_file_are_rejected
                  Scenarios.env_no_converter Scenarios.engine (fun _ => None)
                  (mkRequest "POST /convert HTTP/1.1" "/convert"
                     (BodyJson (JDict (("fileBase64", JStr "") :: nil))))
                  (("fileBase64", JStr "") :: nil) Scenarios.idle_world
                  eq_refl eq_refl)).
  reflexivity.
Defined.

(** X25.  A [POST /convert] with a file that decodes and with parameters of the
    expected types calls the engine once, with the file name and the options
    of the request (the defaults for what the request leaves out, and always
    the default margin of one centimetre, whatever the request says), and
    answers with status 200 and the result of the engine as it is: a
    conversion that failed is answered with status 200 as well. *)
Theorem conversion_outcome_is_answered_with_200
    (env : Env) (engine : ExcelMirrorEngine)
    (b64decode : string -> option bytes)
    (req : Request) (fields : list (string * Json))
    (excel_data : bytes) (name : string) (options : ConversionOptions)
    (w : World) :
  path req = "/convert" ->
  body req = BodyJson (JDict fields) ->
  truthy (file_field fields) = true ->
  as_string (file_field fields) ≫= b64decode = Some excel_data ->
  request_parameters fields = Some (name, options) ->
  (0 < permits w)%nat ->
  exists result w1,
    convert_to_pdf env engine excel_data name (Some options) w
    = (Ret result, w1)
    /\ do_POST env engine b64decode req w
       = (Ret (Some (mkResponse 200 json_headers (Some (Result result)))),
          logged req w1)
    /\ margin_cm options = 1%Q.
Proof.
  intros Hpath Hbody Ht Hd Hparams Hp.
  rewrite (do_POST_with_file env engine b64decode req fields excel_data w
             Hpath Hbody Ht Hd).
  rewrite Hparams.
  assert (Hm : margin_cm options = 1%Q).
  { unfold request_parameters in Hparams.
    destruct (default (JDict nil) (lookup_field "options" fields));
      try discriminate.
    unfold conversion_options in Hparams.
    repeat match type of Hparams with
           | context [match ?x with _ => _ end] =>
               lazymatch x with
               | context [match _ with _ => _ end] => fail
               | _ => destruct x; try discriminate
               end
           end.
    inversion Hparams. reflexivity. }
  destruct (default (JDict nil) (lookup_field "options" fields)) eqn:Eo;
    try (unfold request_parameters in Hparams; rewrite Eo in Hparams;
         discriminate).
  destruct (GateProofs.convert_to_pdf_returns_result env engine excel_data
              name (Some options) w Hp) as (result & w1 & E & _).
  exists result, w1. split; [exact E|]. split; [|exact Hm].
  unfold try_except, bind. rewrite E. reflexivity.
Qed.

Lemma conversion_outcome_is_answered_with_200_witness :
  exists w1,
    do_POST Scenarios.env_no_converter Scenarios.engine
      (fun _ => Some Scenarios.workbook_bytes)
      (mkRequest "POST /convert HTTP/1.1" "/convert"
         (BodyJson (JDict (("fileBase64", JStr "UEstd29ya2Jvb2s=")
                           :: ("fileName", JStr "report.xlsx")
                           :: ("options",
                               JDict (("marginCm", JFloat (5 # 2)) :: nil))
                           :: nil))))
      Scenarios.idle_world
    = (Ret (Some (mkResponse 200 json_headers
                    (Some (Result (Failure "PDF conversion failed" 10000))))),
       w1).
Proof.
  destruct (conversion_outcome_is_answered_with_200
              Scenarios.env_no_converter Scenarios.engine
              (fun _ => Some Scenarios.workbook_bytes)
              (mkRequest "POST /convert HTTP/1.1" "/convert"
                 (BodyJson (JDict (("fileBase64", JStr "UEstd29ya2Jvb2s=")
                                   :: ("fileName", JStr "report.xlsx")
                                   :: ("options",
                                       JDict (("marginCm", JFloat (5 # 2))
                                              :: nil))
                                   :: nil))))
              (("fileBase64", JStr "UEstd29ya2Jvb2s=")
               :: ("fileName", JStr "report.xlsx")
               :: ("options", JDict (("marginCm", JFloat (5 # 2)) :: nil))
               :: nil)
              Scenarios.workbook_bytes "report.xlsx"
              Engine.default_options Scenarios.idle_world)
    as (result & w1 & E & Epost & _);
    try reflexivity; [simpl; lia|].
  assert (Er : result = Failure "PDF conversion failed" 10000).
  { assert (Ev : fst (convert_to_pdf Scenarios.env_no_converter
                        Scenarios.engine Scenarios.workbook_bytes "report.xlsx"
                        (Some Engine.default_options) Scenarios.idle_world)
                 = Ret (Failure "PDF conversion failed" 10000))
      by (vm_compute; reflexivity).
    rewrite E in Ev. simpl in Ev. inversion Ev. reflexivity. }
  subst result. eexists. exact Epost.
Defined.

(** X26.  A [POST /convert] whose [options] is present but is not an object, for
    instance [null], is answered with status 500 and the text of the
    [AttributeError], although its file is in order; the engine is not
    called. *)
Theorem options_that_are_no_object_give_500
    (env : Env) (engine : ExcelMirrorEngine)
    (b64decode : string -> option bytes)
    (req : Request) (fields : list (string * Json))
    (excel_data : bytes) (opts : Json) (w : World) :
  path req = "/convert" ->
  body req = BodyJson (JDict fields) ->
  truthy (file_field fields) = true ->
  as_string (file_field fields) ≫= b64decode = Some excel_data ->
  lookup_field "options" fields = Some opts ->
  is_dict opts = false ->
  do_POST env engine b64decode req w
  = (Ret (Some (mkResponse 500 json_headers
                  (Some (Error ("'" +:+ type_name opts
                                +:+ "' object has no attribute 'get'"))))),
     logged req w).
Proof.
  intros Hpath Hbody Ht Hd Ho Hnd.
  rewrite (do_POST_with_file env engine b64decode req fields excel_data w
             Hpath Hbody Ht Hd).
  rewrite Ho. simpl default.
  destruct opts; try discriminate Hnd; reflexivity.
Qed.

Lemma options_that_are_no_object_give_500_witness :
  do_POST Scenarios.env_no_converter Scenarios.engine
    (fun _ => Some Scenarios.workbook_bytes)
    (mkRequest "POST /convert HTTP/1.1" "/convert"
       (BodyJson (JDict (("fileBase64", JStr "UEstd29ya2Jvb2s=")
                         :: ("options", JNull) :: nil))))
    Scenarios.idle_world
  = (Ret (Some (mkResponse 500 json_headers
                  (Some (Error "'NoneType' object has no attribute 'get'")))),
     logged (mkRequest "POST /convert HTTP/1.1" "/convert"
               (BodyJson (JDict (("fileBase64", JStr "UEstd29ya2Jvb2s=")
                                 :: ("options", JNull) :: nil))))
            Scenarios.idle_world).
Proof.
  apply (options_that_are_no_object_give_500
           Scenarios.env_no_converter Scenarios.engine
           (fun _ => Some Scenarios.workbook_bytes) _
           (("fileBase64", JStr "UEstd29ya2Jvb2s=") :: ("options", JNull) :: nil)
           Scenarios.workbook_bytes JNull);
    reflexivity.
Defined.

(** ** Every answer to a [POST] *)




End ServerProofs.
